(** * CS2 smoke simulator: trajectory simulation and position search

    A shallow embedding of [physics_config.py], [map_loader.py]
    (coordinate conversion), [physics_engine.py] ([simulate_throw]) and
    [smoke_finder.py] (grid search), with the properties of the
    specification stated and proved over it. Beyond the specification
    it covers the test scene and the map cache of [map_loader.py], the
    engine object of [physics_engine.py], the route [/find_smokes] of
    [server.py], and [clamp_angle], the unit conversions and
    [validate_position] of [utils.py].

    - Python floats are IEEE binary64 numbers: Rocq's primitive [float].
    - NumPy arrays of unknown length are [list float]; arrays the code
      builds from three literals are triples.
    - PyBullet is an external engine: its body table is a [gmap], its
      dynamics and its failures are parameters ([Bullet]).
    - NumPy's transcendental functions and its norm are parameters as
      well ([NumPy]); [np.arange] and [np.linspace] are arithmetic of
      binary64 and are modelled as NumPy computes them, with the
      exceptions of [np.arange].
    - Python exceptions are values: a computation returns [Ok] or [Raise]
      together with the world it leaves behind. *)

From Stdlib Require Import ZArith List Floats Reals Lra Lia Bool String Sorted.
From stdpp Require Import gmap.

Set Warnings "-inexact-float".

(* ===================================================================== *)
(** * Python values, exceptions and the state-and-exception monad        *)
(* ===================================================================== *)

(** The exception classes that the modelled code can raise. [ValueError]
    is the only one raised explicitly by the source (a position that has
    not three coordinates); the specification calls it [InvalidInput]. *)
Inductive Exn : Set :=
| ValueError          (* explicit raise; unpacking; int(nan); np.arange *)
| OverflowError       (* int(inf); np.arange *)
| IndexError          (* list index out of range *)
| UnboundLocalError   (* a local variable read before assignment *)
| PyBulletError.      (* pybullet.error *)

Inductive Res (A : Type) : Type :=
| Ok (a : A)
| Raise (e : Exn).
Arguments Ok {A} a.
Arguments Raise {A} e.

(** A computation over a mutable store [St] that may raise. The store it
    leaves is returned in both cases. *)
Definition M (St A : Type) : Type := St -> Res A * St.

Definition ret {St A} (a : A) : M St A := fun s => (Ok a, s).

Definition bind {St A B} (c : M St A) (k : A -> M St B) : M St B :=
  fun s => match c s with
           | (Ok a, s') => k a s'
           | (Raise e, s') => (Raise e, s')
           end.

(** A pure step that may raise. *)
Definition lift {St A} (r : Res A) : M St A := fun s => (r, s).

Declare Scope py_scope.
Delimit Scope py_scope with py.
Notation "'let*' x ':=' c 'in' k" := (bind c (fun x => k))
  (at level 10, x pattern, c at level 100, k at level 200) : py_scope.
Notation "c ';;' k" := (bind c (fun _ => k))
  (at level 100, k at level 200, right associativity) : py_scope.

(** Loop control: the body of a [for] either falls through or breaks. *)
Inductive Ctl : Set := Continue | Break.

(** [for x in xs: body], with loop-carried variables [s]. *)
Fixpoint for_loop {St A S} (xs : list A) (body : A -> S -> M St (Ctl * S))
  (s : S) : M St S :=
  match xs with
  | [] => ret s
  | x :: xs' =>
      bind (body x s) (fun cs =>
        match cs with
        | (Break, s') => ret s'
        | (Continue, s') => for_loop xs' body s'
        end)
  end.

(** The same without [break]. *)
Fixpoint for_each {St A S} (xs : list A) (body : A -> S -> M St S)
  (s : S) : M St S :=
  match xs with
  | [] => ret s
  | x :: xs' => bind (body x s) (fun s' => for_each xs' body s')
  end.

(** [range(n)] for a Python int [n]: empty when [n <= 0]. *)
Definition range (n : Z) : list nat := seq 0 (Z.to_nat n).

(** ** Floats *)

(** [int(x)]: truncation toward zero; [ValueError] on NaN and
    [OverflowError] on an infinity. *)
Definition py_int (x : float) : Res Z :=
  match Prim2SF x with
  | S754_nan => Raise ValueError
  | S754_infinity _ => Raise OverflowError
  | S754_zero _ => Ok 0%Z
  | S754_finite s m e =>
      let a := if (0 <=? e)%Z then (Z.pos m * 2 ^ e)%Z
               else (Z.pos m / 2 ^ (- e))%Z in
      Ok (if s then (- a)%Z else a)
  end.

(** [math.ceil(x)] on the same decomposition (used to state the
    specification's step bound, and for the length of [np.arange]). *)
Definition py_ceil (x : float) : Res Z :=
  match Prim2SF x with
  | S754_nan => Raise ValueError
  | S754_infinity _ => Raise OverflowError
  | S754_zero _ => Ok 0%Z
  | S754_finite s m e =>
      if (0 <=? e)%Z then
        Ok (if s then (- (Z.pos m * 2 ^ e))%Z else (Z.pos m * 2 ^ e)%Z)
      else
        Ok (if s then (- (Z.pos m / 2 ^ (- e)))%Z
            else (- ((- Z.pos m) / 2 ^ (- e)))%Z)
  end.

(** [float(n)] for a loop index. *)
Definition float_of_nat (n : nat) : float :=
  PrimFloat.of_uint63 (Uint63.of_Z (Z.of_nat n)).

(** ** Sequences *)

(** [l[:k]] with Python's meaning of a negative [k]. *)
Definition slice_to {A} (l : list A) (k : Z) : list A :=
  if (0 <=? k)%Z then take (Z.to_nat k) l
  else take (length l - Z.to_nat (- k)) l.

(** [l[::10]]: the elements at indices 0, 10, 20, ... *)
Fixpoint every_nth_from {A} (n skip : nat) (l : list A) : list A :=
  match l with
  | [] => []
  | x :: l' =>
      match skip with
      | O => x :: every_nth_from n (n - 1) l'
      | S k => every_nth_from n k l'
      end
  end.

Definition decimate10 {A} (l : list A) : list A := every_nth_from 10 0 l.

(** [a - b] on one-dimensional arrays, with NumPy's broadcasting of a
    one-element operand and its [ValueError] on other length mismatches. *)
Definition np_sub (a b : list float) : Res (list float) :=
  if (length a =? length b)%nat then Ok (zip_with PrimFloat.sub a b)
  else match a, b with
       | [x], _ => Ok (map (fun y => (x - y)%float) b)
       | _, [y] => Ok (map (fun x => (x - y)%float) a)
       | _, _ => Raise ValueError
       end.

(** [l[i]] and [l[i] = v] (non-negative [i]). *)
Definition getitem {A} (l : list A) (i : nat) : Res A :=
  match l !! i with
  | Some x => Ok x
  | None => Raise IndexError
  end.

Definition setitem {A} (l : list A) (i : nat) (v : A) : Res (list A) :=
  if (i <? length l)%nat then Ok (<[i:=v]> l) else Raise IndexError.

(* ===================================================================== *)
(** * physics_config.py                                                  *)
(* ===================================================================== *)

Inductive ThrowType : Set :=
| LEFT_CLICK
| BOTH_CLICKS
| RIGHT_CLICK.

(** [throw_type.value] *)
Definition ThrowType_value (t : ThrowType) : string :=
  match t with
  | LEFT_CLICK => "LEFT_CLICK"
  | BOTH_CLICKS => "BOTH_CLICKS"
  | RIGHT_CLICK => "RIGHT_CLICK"
  end.

#[global] Instance ThrowType_eq_dec : EqDecision ThrowType.
Proof. solve_decision. Defined.

#[global] Instance ThrowType_countable : Countable ThrowType.
Proof.
  refine (inj_countable'
            (fun t => match t with
                      | LEFT_CLICK => 0%nat
                      | BOTH_CLICKS => 1%nat
                      | RIGHT_CLICK => 2%nat
                      end)
            (fun n => match n with
                      | 0%nat => LEFT_CLICK
                      | 1%nat => BOTH_CLICKS
                      | _ => RIGHT_CLICK
                      end) _).
  intros []; reflexivity.
Defined.

Record PhysicsConfig : Type := {
  gravity : float;
  time_step : float;
  grenade_mass : float;
  grenade_radius : float;
  grenade_restitution : float;
  grenade_friction : float;
  grenade_linear_damping : float;
  grenade_angular_damping : float;
  throw_speeds : gmap ThrowType float;
  player_height : float;
  hand_height : float;
  units_per_meter : float;
  meters_per_unit : float
}.

(** The table [__post_init__] installs when none is given. *)
Definition default_throw_speeds : gmap ThrowType float :=
  <[LEFT_CLICK := 1000.0%float]>
    (<[BOTH_CLICKS := 600.0%float]>
       (<[RIGHT_CLICK := 400.0%float]> ∅)).

(** The dataclass constructor followed by [__post_init__]: every field
    has its default unless the caller supplies a speed table. *)
Definition PhysicsConfig_init (speeds : option (gmap ThrowType float))
  : PhysicsConfig :=
  {| gravity := 800.0;
     time_step := 1 / 120;
     grenade_mass := 0.5;
     grenade_radius := 0.1;
     grenade_restitution := 0.45;
     grenade_friction := 0.5;
     grenade_linear_damping := 0.03;
     grenade_angular_damping := 0.1;
     throw_speeds := match speeds with
                     | None => default_throw_speeds
                     | Some t => t
                     end;
     player_height := 1.8;
     hand_height := 0.56;
     units_per_meter := 39.37;
     meters_per_unit := 0.0254 |}%float.

Definition cs2_default : PhysicsConfig := PhysicsConfig_init None.

(** The configuration with one entry of the speed table set. *)
Definition with_throw_speed (cfg : PhysicsConfig) (t : ThrowType) (v : float)
  : PhysicsConfig :=
  {| gravity := gravity cfg;
     time_step := time_step cfg;
     grenade_mass := grenade_mass cfg;
     grenade_radius := grenade_radius cfg;
     grenade_restitution := grenade_restitution cfg;
     grenade_friction := grenade_friction cfg;
     grenade_linear_damping := grenade_linear_damping cfg;
     grenade_angular_damping := grenade_angular_damping cfg;
     throw_speeds := <[t := v]> (throw_speeds cfg);
     player_height := player_height cfg;
     hand_height := hand_height cfg;
     units_per_meter := units_per_meter cfg;
     meters_per_unit := meters_per_unit cfg |}.

(** [self.throw_speeds.get(throw_type, 900.0)] *)
Definition get_throw_speed (cfg : PhysicsConfig) (throw_type : ThrowType)
  : float :=
  default 900.0%float (throw_speeds cfg !! throw_type).

(* ===================================================================== *)
(** * NumPy                                                              *)
(* ===================================================================== *)

(** The elementary functions and the norm the code calls. They are
    library code whose values depend on the platform's libm: every
    theorem below holds for any implementation of them. *)
Class NumPy : Type := {
  np_cos : float -> float;
  np_sin : float -> float;
  np_radians : float -> float;
  np_degrees : float -> float;
  np_arctan2 : float -> float -> float;
  np_linalg_norm : list float -> float
}.

(** [np.arange(start, stop, step)] on floats is arithmetic of binary64
    and is modelled as NumPy computes it. The length is
    [ceil((stop - start) / step)], the quotient taken in binary64:
    [ValueError] when it is NaN, [OverflowError] when it does not fit
    a machine index (at exactly [2 ^ 63] the conversion to an index is
    undefined in C and is taken to fail as well); a length that is not
    positive gives the empty array. An array the machine has no memory
    for is outside the model. *)
Definition arange_length (start stop step : float) : Res nat :=
  match py_ceil ((stop - start) / step)%float with
  | Ok n =>
      if ((- 2 ^ 63 <=? n) && (n <? 2 ^ 63))%Z then Ok (Z.to_nat n)
      else Raise OverflowError
  | Raise e => Raise e
  end.

(** The values: [start], then [start + step], then [start + i * delta]
    for [i >= 2], where [delta] is the difference of the first two
    values as stored, [(start + step) - start]. *)
Definition arange_values (start step : float) (n : nat) : list float :=
  let next := (start + step)%float in
  let delta := (next - start)%float in
  map (fun i => match i with
                | 0%nat => start
                | 1%nat => next
                | _ => (start + float_of_nat i * delta)%float
                end)
    (seq 0 n).

Definition np_arange (start stop step : float) : Res (list float) :=
  match arange_length start stop step with
  | Ok n => Ok (arange_values start step n)
  | Raise e => Raise e
  end.

(** [np.linspace(start, stop, num)] with its default [endpoint=True]:
    [num] values [i * step + start] with [step = (stop - start) / (num - 1)],
    the last one replaced by [stop] itself. When the step rounds to
    zero, and for a single sample, NumPy multiplies by the whole
    difference instead. *)
Definition np_linspace (start stop : float) (num : nat) : list float :=
  let div := (num - 1)%nat in
  let delta := (stop - start)%float in
  let step := (delta / float_of_nat div)%float in
  map (fun i =>
         if (1 <? num)%nat && (i =? div)%nat then stop
         else if (div =? 0)%nat then (float_of_nat i * delta + start)%float
         else if (step =? 0)%float
              then (float_of_nat i / float_of_nat div * delta + start)%float
         else (float_of_nat i * step + start)%float)
    (seq 0 num).

(** The arithmetic of the conversion code, as an interface, so that the
    position converters can be read over binary64 (what runs) and over
    the real numbers (to tell the rounding from the constants). *)
Class Mul (F : Type) : Type := t_mul : F -> F -> F.

(** The trigonometry of the direction code. *)
Class Trig (F : Type) : Type := {
  t_cos : F -> F;
  t_sin : F -> F;
  t_radians : F -> F
}.

#[global] Instance Mul_float : Mul float := PrimFloat.mul.

#[global] Instance Trig_float {np : NumPy} : Trig float :=
  {| t_cos := np_cos;
     t_sin := np_sin;
     t_radians := np_radians |}.

(** An array built from three literals. *)
Definition Vec3 (F : Type) : Type := (F * F * F)%type.

Definition tolist {F} (v : Vec3 F) : list F :=
  let '(x, y, z) := v in [x; y; z].

(** physics_engine.py, lines 129-137: the throw direction in game axes
    (X east, Y north, Z up). *)
Definition direction_cs2 {F} `{Mul F} `{Trig F} (pitch yaw : F) : Vec3 F :=
  let pitch_rad := t_radians pitch in
  let yaw_rad := t_radians yaw in
  (t_mul (t_cos pitch_rad) (t_cos yaw_rad),
   t_mul (t_cos pitch_rad) (t_sin yaw_rad),
   t_sin pitch_rad).

(** lines 140-144: the same direction in the simulator's axes. *)
Definition direction_bullet {F} (direction_cs2 : Vec3 F) : Vec3 F :=
  let '(d0, d1, d2) := direction_cs2 in (d0, d2, d1).

(** line 180: [direction_bullet * speed_bullet]. *)
Definition velocity_bullet {F} `{Mul F} (direction_bullet : Vec3 F)
  (speed_bullet : F) : Vec3 F :=
  let '(d0, d1, d2) := direction_bullet in
  (t_mul d0 speed_bullet, t_mul d1 speed_bullet, t_mul d2 speed_bullet).

(* ===================================================================== *)
(** * map_loader.py: coordinate conversion                               *)
(* ===================================================================== *)

(** Both converters return [[x * scale, z * scale, y * scale]]: the
    second and third axes change places and every coordinate is scaled. *)
Definition swap_scale {F} `{Mul F} (scale x y z : F) : list F :=
  [t_mul x scale; t_mul z scale; t_mul y scale].

Section Conversion.
Variable CS2_PHYSICS : PhysicsConfig.

(** Game space (inches; X east, Y north, Z up) to simulation space
    (metres; X east, Y up, Z north). *)
Definition convert_cs2_to_bullet (position : list float) : Res (list float) :=
  let scale := meters_per_unit CS2_PHYSICS in
  if negb (length position =? 3)%nat then Raise ValueError
  else match position with
       | [x; y; z] => Ok (swap_scale scale x y z)
       | _ => Raise ValueError
       end.

(** "The inverse conversion" (docstring). The tuple unpacking raises
    [ValueError] on a list that has not three elements. *)
Definition convert_bullet_to_cs2 (position : list float) : Res (list float) :=
  let scale := units_per_meter CS2_PHYSICS in
  match position with
  | [x; y; z] => Ok (swap_scale scale x y z)
  | _ => Raise ValueError
  end.

End Conversion.

(* ===================================================================== *)
(** * PyBullet                                                           *)
(* ===================================================================== *)

(** One rigid body of the engine. A body of mass zero is static map
    geometry; the grenade is the only body the program creates with a
    positive mass. Dynamics parameters are [None] until [changeDynamics]
    sets them. *)
Record Body : Type := {
  baseMass : float;
  basePosition : Vec3 float;
  linearVelocity : Vec3 float;
  restitution : option float;
  lateralFriction : option float;
  linearDamping : option float;
  angularDamping : option float
}.

(** The API calls of [simulate_throw], as recorded in the world's log. *)
Inductive Call : Set :=
| CreateCollisionShape
| CreateVisualShape
| CreateMultiBody (id : nat)
| ChangeDynamics (id : nat)
| ResetBaseVelocity (id : nat)
| StepSimulation
| GetBasePositionAndOrientation (id : nat)
| GetBaseVelocity (id : nat)
| RemoveBody (id : nat).

(** The physics server: the table of bodies by unique id, the number of
    shapes created so far, and the log of the calls that succeeded (most
    recent first). The log is ghost state: the program never reads it. *)
Record World : Type := {
  bodies : gmap nat Body;
  shapes : nat;
  trace : list Call
}.

(** What the model leaves open about the engine: when a call fails with
    [pybullet.error], and the position and velocity one time step gives
    a dynamic body (which may depend on every body of the world). *)
Class Bullet : Type := {
  bullet_fault : Call -> World -> bool;
  bullet_advance : gmap nat Body -> nat -> Body -> Vec3 float * Vec3 float
}.

Definition is_static (b : Body) : bool := (baseMass b =? 0)%float.

Definition static_bodies (w : World) : gmap nat Body :=
  filter (fun ib => is_static ib.2 = true) (bodies w).

Definition dynamic_bodies (w : World) : gmap nat Body :=
  filter (fun ib => is_static ib.2 = false) (bodies w).

Definition is_create (c : Call) : bool :=
  match c with CreateMultiBody _ => true | _ => false end.

Definition is_step (c : Call) : bool :=
  match c with StepSimulation => true | _ => false end.

Definition is_remove (c : Call) : bool :=
  match c with RemoveBody _ => true | _ => false end.

(** Bodies created, bodies removed and time steps taken, according to a
    log. *)
Definition created (t : list Call) : nat :=
  length (filter (fun c => is_create c = true) t).

Definition removed (t : list Call) : nat :=
  length (filter (fun c => is_remove c = true) t).

Definition steps_taken (t : list Call) : nat :=
  length (filter (fun c => is_step c = true) t).

Section PyBullet.
Context {engine : Bullet}.

Definition log (c : Call) (w : World) : World :=
  {| bodies := bodies w; shapes := shapes w; trace := c :: trace w |}.

Definition set_bodies (bs : gmap nat Body) (w : World) : World :=
  {| bodies := bs; shapes := shapes w; trace := trace w |}.

(** A call either fails, leaving the world as it is, or is logged. *)
Definition call (c : Call) : M World unit :=
  fun w => if bullet_fault c w then (Raise PyBulletError, w)
           else (Ok tt, log c w).

Definition new_shape : M World nat :=
  fun w => (Ok (shapes w),
            {| bodies := bodies w; shapes := S (shapes w); trace := trace w |}).

Definition createCollisionShape (radius : float) : M World nat :=
  (call CreateCollisionShape ;; new_shape)%py.

Definition createVisualShape (radius : float) (rgbaColor : list float)
  : M World nat :=
  (call CreateVisualShape ;; new_shape)%py.

(** The new body gets an id that no body of the world has. *)
Definition createMultiBody (mass : float) (collision visual : nat)
  (position : list float) : M World nat :=
  fun w =>
    match position with
    | [x; y; z] =>
        let id := fresh (dom (bodies w)) in
        let b := {| baseMass := mass;
                    basePosition := (x, y, z);
                    linearVelocity := (0, 0, 0)%float;
                    restitution := None;
                    lateralFriction := None;
                    linearDamping := None;
                    angularDamping := None |} in
        bind (call (CreateMultiBody id))
             (fun _ w' => (Ok id, set_bodies (<[id := b]> (bodies w')) w')) w
    | _ => (Raise PyBulletError, w)
    end.

(** Update of one body. [changeDynamics] and [resetBaseVelocity] send
    their command and return [None] without looking at its status: for
    an id the engine does not know nothing changes and nothing is
    raised. *)
Definition update_body (id : nat) (f : Body -> Body) : M World unit :=
  fun w => match bodies w !! id with
           | Some b => (Ok tt, set_bodies (<[id := f b]> (bodies w)) w)
           | None => (Ok tt, w)
           end.

Definition changeDynamics (id : nat) (rest fric lin ang : float)
  : M World unit :=
  (call (ChangeDynamics id) ;;
   update_body id (fun b =>
     {| baseMass := baseMass b;
        basePosition := basePosition b;
        linearVelocity := linearVelocity b;
        restitution := Some rest;
        lateralFriction := Some fric;
        linearDamping := Some lin;
        angularDamping := Some ang |}))%py.

Definition resetBaseVelocity (id : nat) (v : Vec3 float) : M World unit :=
  (call (ResetBaseVelocity id) ;;
   update_body id (fun b =>
     {| baseMass := baseMass b;
        basePosition := basePosition b;
        linearVelocity := v;
        restitution := restitution b;
        lateralFriction := lateralFriction b;
        linearDamping := linearDamping b;
        angularDamping := angularDamping b |}))%py.

Definition move (b : Body) (pv : Vec3 float * Vec3 float) : Body :=
  {| baseMass := baseMass b;
     basePosition := pv.1;
     linearVelocity := pv.2;
     restitution := restitution b;
     lateralFriction := lateralFriction b;
     linearDamping := linearDamping b;
     angularDamping := angularDamping b |}.

(** One time step: every dynamic body moves, static bodies stay. *)
Definition advance_all (bs : gmap nat Body) : gmap nat Body :=
  map_imap (fun i b => Some (if is_static b then b
                             else move b (bullet_advance bs i b))) bs.

Definition stepSimulation : M World unit :=
  (call StepSimulation ;;
   fun w => (Ok tt, set_bodies (advance_all (bodies w)) w))%py.

Definition query {A} (id : nat) (f : Body -> A) : M World A :=
  fun w => match bodies w !! id with
           | Some b => (Ok (f b), w)
           | None => (Raise PyBulletError, w)
           end.

(** The position half of [getBasePositionAndOrientation]; the code drops
    the orientation. *)
Definition getBasePositionAndOrientation (id : nat) : M World (Vec3 float) :=
  (call (GetBasePositionAndOrientation id) ;; query id basePosition)%py.

(** The linear half of [getBaseVelocity]. *)
Definition getBaseVelocity (id : nat) : M World (Vec3 float) :=
  (call (GetBaseVelocity id) ;; query id linearVelocity)%py.

Definition removeBody (id : nat) : M World unit :=
  (call (RemoveBody id) ;;
   fun w => (Ok tt, set_bodies (delete id (bodies w)) w))%py.

End PyBullet.

(* ===================================================================== *)
(** * physics_engine.py: simulate_throw                                  *)
(* ===================================================================== *)

(** The [info] dictionary. *)
Record Info : Type := {
  final_position : list float;
  final_velocity : float;
  bounces : Z;
  simulation_time : float;
  trajectory_points : nat
}.

(** The variables the simulation loop carries. [ls_step] is the loop
    variable [step]: unbound until the first iteration assigns it. *)
Record LoopState : Type := {
  ls_trajectory_bullet : list (list float);
  ls_trajectory_cs2 : list (list float);
  ls_bounces : Z;
  ls_last_velocity_mag : float;
  ls_step : option nat
}.

Section Engine.
Context {np : NumPy} {engine : Bullet}.
Variable CS2_PHYSICS : PhysicsConfig.
Local Open Scope float_scope.
Local Open Scope py_scope.

(** Lines 190-213: one iteration of [for step in range(num_steps)]. *)
Definition loop_body (grenade_id : nat) (step : nat) (st : LoopState)
  : M World (Ctl * LoopState) :=
  stepSimulation ;;
  let* pos_bullet := getBasePositionAndOrientation grenade_id in
  let trajectory_bullet := ls_trajectory_bullet st ++ [tolist pos_bullet] in
  let* pos_cs2 := lift (convert_bullet_to_cs2 CS2_PHYSICS (tolist pos_bullet)) in
  let trajectory_cs2 := ls_trajectory_cs2 st ++ [pos_cs2] in
  let* linear_vel := getBaseVelocity grenade_id in
  let current_velocity_mag := np_linalg_norm (tolist linear_vel) in
  let bounces :=
    if 100 * meters_per_unit CS2_PHYSICS
       <? PrimFloat.abs (current_velocity_mag - ls_last_velocity_mag st)
    then (ls_bounces st + 1)%Z else ls_bounces st in
  let st' := {| ls_trajectory_bullet := trajectory_bullet;
                ls_trajectory_cs2 := trajectory_cs2;
                ls_bounces := bounces;
                ls_last_velocity_mag := current_velocity_mag;
                ls_step := Some step |} in
  if (current_velocity_mag <? 10 * meters_per_unit CS2_PHYSICS)
     && (50 <? step)%nat
  then ret (Break, st')
  else ret (Continue, st').

Definition simulate_throw (start_pos : list float) (pitch yaw : float)
  (throw_type : ThrowType) (max_time : float)
  : M World (list (list float) * Info) :=
  let* start_bullet := lift (convert_cs2_to_bullet CS2_PHYSICS start_pos) in
  let direction_cs2 := direction_cs2 pitch yaw in
  let direction_bullet := direction_bullet direction_cs2 in
  let speed_cs2 := get_throw_speed CS2_PHYSICS throw_type in
  let speed_bullet := speed_cs2 * meters_per_unit CS2_PHYSICS in
  let* grenade_shape := createCollisionShape (grenade_radius CS2_PHYSICS) in
  let* grenade_visual :=
    createVisualShape (grenade_radius CS2_PHYSICS) [0; 1; 0; 1] in
  let* grenade_id :=
    createMultiBody (grenade_mass CS2_PHYSICS) grenade_shape grenade_visual
      start_bullet in
  changeDynamics grenade_id
    (grenade_restitution CS2_PHYSICS) (grenade_friction CS2_PHYSICS)
    (grenade_linear_damping CS2_PHYSICS)
    (grenade_angular_damping CS2_PHYSICS) ;;
  let velocity_bullet := velocity_bullet direction_bullet speed_bullet in
  resetBaseVelocity grenade_id velocity_bullet ;;
  let* num_steps := lift (py_int (max_time / time_step CS2_PHYSICS)) in
  let* st := for_loop (range num_steps) (loop_body grenade_id)
               {| ls_trajectory_bullet := [];
                  ls_trajectory_cs2 := [];
                  ls_bounces := 0;
                  ls_last_velocity_mag := speed_bullet;
                  ls_step := None |} in
  let* final_pos_bullet := getBasePositionAndOrientation grenade_id in
  let* final_pos_cs2 :=
    lift (convert_bullet_to_cs2 CS2_PHYSICS (tolist final_pos_bullet)) in
  let* final_vel := getBaseVelocity grenade_id in
  let final_speed_cs2 :=
    np_linalg_norm (tolist final_vel) / meters_per_unit CS2_PHYSICS in
  removeBody grenade_id ;;
  let* step := lift (match ls_step st with
                     | Some step => Ok step
                     | None => Raise UnboundLocalError
                     end) in
  ret (ls_trajectory_cs2 st,
       {| final_position := final_pos_cs2;
          final_velocity := final_speed_cs2;
          bounces := ls_bounces st;
          simulation_time := float_of_nat step * time_step CS2_PHYSICS;
          trajectory_points := length (ls_trajectory_cs2 st) |}).

End Engine.

(* ===================================================================== *)
(** * smoke_finder.py                                                    *)
(* ===================================================================== *)

Inductive SearchStrategy : Set :=
| GRID_SEARCH
| GENETIC
| HYBRID.

(** The dataclass [SmokePosition]. Its [cs2_commands] field, three
    strings formatted from [throw_position] and [angles] in
    [__post_init__], is presentation only and is left out. *)
Module SmokePosition.
Record t : Type := {
  throw_position : list float;
  angles : float * float;            (* {'pitch': _, 'yaw': _} *)
  throw_type : string;
  target_position : list float;
  landing_position : list float;
  accuracy : float;
  trajectory : list (list float);
  bounces : Z
}.
End SmokePosition.

(** The attributes [SmokeFinder.__init__] sets beside [self.physics]. *)
Record SmokeFinder : Type := {
  max_accuracy : float;
  search_radius : float;
  grid_step : float
}.

Definition SmokeFinder_init : SmokeFinder :=
  {| max_accuracy := 150.0; search_radius := 500.0; grid_step := 100.0 |}%float.

(** [solutions.sort(key=lambda s: s.accuracy)]. Python's sort is stable
    and compares keys with [<] only; on keys that [<] orders totally (no
    NaN) every stable sort returns the same list, here by insertion. *)
Fixpoint insert_by_accuracy (s : SmokePosition.t) (l : list SmokePosition.t)
  : list SmokePosition.t :=
  match l with
  | [] => [s]
  | s' :: l' =>
      if (SmokePosition.accuracy s' <? SmokePosition.accuracy s)%float
      then s' :: insert_by_accuracy s l'
      else s :: l
  end.

Definition sort_by_accuracy (l : list SmokePosition.t) : list SmokePosition.t :=
  foldr insert_by_accuracy [] l.

(** [try: body / except: pass] around an update of [solutions]: every
    exception is swallowed and [solutions] is then what it was; the
    store keeps what the body did to it before raising. *)
Definition try_except_pass {St S} (body : M St S) (unchanged : S) : M St S :=
  fun s => match body s with
           | (Ok r, s') => (Ok r, s')
           | (Raise _, s') => (Ok unchanged, s')
           end.

Section Finder.
Context {np : NumPy}.
(** [self.physics]: any object with a [simulate_throw] method, over any
    store. *)
Variable St : Type.
Variable physics_simulate_throw :
  list float -> float -> float -> ThrowType -> float ->
  M St (list (list float) * Info).
Variable self : SmokeFinder.
Local Open Scope float_scope.
Local Open Scope py_scope.

(** Lines 90-105: the body of [for pitch in np.linspace(-20, 60, 10)]. *)
Definition try_candidate (target_pos throw_pos : list float)
  (base_yaw : float) (throw_type : ThrowType)
  (pitch : float) (solutions : list SmokePosition.t)
  : M St (list SmokePosition.t) :=
  try_except_pass
    (let* (trajectory, info) :=
       physics_simulate_throw throw_pos pitch base_yaw throw_type 2.0 in
     let* diff := lift (np_sub (final_position info) target_pos) in
     let accuracy := np_linalg_norm diff in
     if accuracy <? max_accuracy self then
       ret (solutions ++
            [{| SmokePosition.throw_position := throw_pos;
                SmokePosition.angles := (pitch, base_yaw);
                SmokePosition.throw_type := ThrowType_value throw_type;
                SmokePosition.target_position := target_pos;
                SmokePosition.landing_position := final_position info;
                SmokePosition.accuracy := accuracy;
                SmokePosition.trajectory := decimate10 trajectory;
                SmokePosition.bounces := bounces info |}])
     else ret solutions)
    solutions.

(** Lines 85-105: the body of the loop over [y]. *)
Definition grid_point (target_pos center : list float)
  (throw_type : ThrowType) (x y : float) (solutions : list SmokePosition.t)
  : M St (list SmokePosition.t) :=
  let* c2 := lift (getitem center 2) in
  let throw_pos := [x; y; c2] in
  let* delta := lift (np_sub target_pos throw_pos) in
  let* d1 := lift (getitem delta 1) in
  let* d0 := lift (getitem delta 0) in
  let base_yaw := np_degrees (np_arctan2 d1 d0) in
  for_each (np_linspace (-20) 60 10)
    (try_candidate target_pos throw_pos base_yaw throw_type) solutions.

(** Lines 83-105: the body of the loop over [x]. *)
Definition grid_row (target_pos center : list float)
  (throw_type : ThrowType) (x : float) (solutions : list SmokePosition.t)
  : M St (list SmokePosition.t) :=
  let* c1 := lift (getitem center 1) in
  let* ys :=
    lift (np_arange (c1 - search_radius self) (c1 + search_radius self)
            (grid_step self)) in
  for_each ys (grid_point target_pos center throw_type x) solutions.

Definition _grid_search (target_pos : list float) (throw_type : ThrowType)
  (max_results : Z) : M St (list SmokePosition.t) :=
  let solutions := [] in
  let center := target_pos in
  let* center := lift (setitem center 2 72) in
  let* c0 := lift (getitem center 0) in
  let* xs :=
    lift (np_arange (c0 - search_radius self) (c0 + search_radius self)
            (grid_step self)) in
  let* solutions :=
    for_each xs (grid_row target_pos center throw_type) solutions in
  let solutions := sort_by_accuracy solutions in
  ret (slice_to solutions max_results).

Definition _genetic_search (target_pos : list float) (throw_type : ThrowType)
  (max_results : Z) : M St (list SmokePosition.t) :=
  _grid_search target_pos throw_type max_results.

Definition _hybrid_search (target_pos : list float) (throw_type : ThrowType)
  (max_results : Z) : M St (list SmokePosition.t) :=
  _grid_search target_pos throw_type max_results.

(** [find_smokes]; the progress lines it prints are not modelled. *)
Definition find_smokes (target_pos : list float) (throw_type : ThrowType)
  (strategy : SearchStrategy) (max_results : Z)
  : M St (list SmokePosition.t) :=
  let* solutions :=
    match strategy with
    | GRID_SEARCH => _grid_search target_pos throw_type max_results
    | GENETIC => _genetic_search target_pos throw_type max_results
    | HYBRID => _hybrid_search target_pos throw_type max_results
    end in
  ret solutions.

End Finder.

(* ===================================================================== *)
(** * map_loader.py: the test scene and the map cache                    *)
(* ===================================================================== *)

(** [try: body / except Exception: handler]. The handler runs in the
    store the body left. *)
Definition try_except {St A} (body : M St A) (handler : Exn -> M St A)
  : M St A :=
  fun s => match body s with
           | (Ok a, s') => (Ok a, s')
           | (Raise e, s') => handler e s'
           end.

(** The shapes the program asks the engine for. *)
Inductive Geometry : Type :=
| GEOM_SPHERE (radius : float)
| GEOM_PLANE
| GEOM_BOX (halfExtents : list float)
| GEOM_MESH (fileName : string).

Section PyBulletShapes.
Context {engine : Bullet}.
Local Open Scope py_scope.

(** [p.createCollisionShape] and [p.createVisualShape] for any geometry:
    as for the sphere, a logged call and a new shape index. *)
Definition createCollisionShape_geom (g : Geometry) : M World nat :=
  call CreateCollisionShape ;; new_shape.

Definition createVisualShape_geom (g : Geometry) (rgbaColor : list float)
  : M World nat :=
  call CreateVisualShape ;; new_shape.

(** [p.createMultiBody] with its optional arguments: without
    [baseVisualShapeIndex] the body has no visual shape, without
    [basePosition] it sits at the origin. *)
Definition createMultiBody_opt (mass : float) (collision : nat)
  (visual : option nat) (position : option (list float)) : M World nat :=
  createMultiBody mass collision (default 0%nat visual)
    (default [0; 0; 0]%float position).

(** [p.changeDynamics(id, -1, restitution=_, lateralFriction=_)]: the
    two damping parameters stay as they are. *)
Definition changeDynamics_surface (id : nat) (rest fric : float)
  : M World unit :=
  call (ChangeDynamics id) ;;
  update_body id (fun b =>
    {| baseMass := baseMass b;
       basePosition := basePosition b;
       linearVelocity := linearVelocity b;
       restitution := Some rest;
       lateralFriction := Some fric;
       linearDamping := linearDamping b;
       angularDamping := angularDamping b |}).

End PyBulletShapes.

(** An entry of the list [obstacles] of [load_test_scene]. *)
Record Obstacle : Type := {
  obs_pos : list float;
  obs_size : list float;
  obs_color : list float
}.

(** The engine object: the physics server it is connected to, the cache
    [self.map_loader.loaded_maps] of its loader, and [self.map_bodies]. *)
Record Engine : Type := {
  world : World;
  loaded_maps : gmap string (list nat);
  map_bodies : list nat
}.

(** A computation on the physics server, run by a method of the engine
    object. *)
Definition in_world {A} (c : M World A) : M Engine A :=
  fun e => let (r, w') := c (world e) in
           (r, {| world := w';
                  loaded_maps := loaded_maps e;
                  map_bodies := map_bodies e |}).

Definition set_map_bodies (ids : list nat) : M Engine unit :=
  fun e => (Ok tt, {| world := world e;
                      loaded_maps := loaded_maps e;
                      map_bodies := ids |}).

Module MapLoader.
Section MapLoader.
Context {engine : Bullet}.
Variable CS2_PHYSICS : PhysicsConfig.
(** The file system and the mesh library are outside the program:
    [path] is [str(self.map_dir / filename)], [path_exists] is
    [Path.exists], and [load_glb_file], which reads a mesh file through
    trimesh, is any loader that answers [None] or a list of body ids. *)
Variable path : string -> string.
Variable path_exists : string -> bool.
Variable load_glb_file : string -> M World (option (list nat)).
Local Open Scope float_scope.
Local Open Scope py_scope.

Definition obstacles : list Obstacle :=
  [ {| obs_pos := [5; 0; 1.5]; obs_size := [2; 0.2; 3];
       obs_color := [1; 0.5; 0; 1] |};
    {| obs_pos := [-5; 5; 2]; obs_size := [0.8; 3; 4];
       obs_color := [0.5; 1; 0; 1] |};
    {| obs_pos := [0; -3; 0.5]; obs_size := [1; 1; 1];
       obs_color := [0; 0.5; 1; 1] |};
    {| obs_pos := [3; 4; 1]; obs_size := [1.5; 1.5; 0.2];
       obs_color := [1; 1; 0; 1] |} ].

(** Lines 107-133: the body of [for obs in obstacles]. *)
Definition add_obstacle (obs : Obstacle) (map_colliders : list nat)
  : M World (list nat) :=
  let* pos_bullet := lift (convert_cs2_to_bullet CS2_PHYSICS (obs_pos obs)) in
  let size_bullet :=
    map (fun s => s * meters_per_unit CS2_PHYSICS) (obs_size obs) in
  let* col_shape := createCollisionShape_geom (GEOM_BOX size_bullet) in
  let* vis_shape :=
    createVisualShape_geom (GEOM_BOX size_bullet) (obs_color obs) in
  let* body :=
    createMultiBody_opt 0 col_shape (Some vis_shape) (Some pos_bullet) in
  ret (map_colliders ++ [body]).

(** Lines 77-136: a ground plane and four boxes, all of mass zero. *)
Definition load_test_scene : M World (list nat) :=
  let* plane_id := createCollisionShape_geom GEOM_PLANE in
  let* plane_body := createMultiBody_opt 0 plane_id None None in
  let map_colliders := [plane_body] in
  for_each obstacles add_obstacle map_colliders.

(** Lines 202-236: one collision mesh read by the engine from an OBJ
    file; every exception is answered with [None]. *)
Definition load_obj_file (filepath : string) : M World (option (list nat)) :=
  if negb (path_exists filepath) then ret None
  else
    try_except
      (let* col_shape := createCollisionShape_geom (GEOM_MESH filepath) in
       let* body := createMultiBody_opt 0 col_shape None None in
       ret (Some [body]))
      (fun _ => ret None).

Inductive LoaderFunc : Set := LOAD_GLB | LOAD_OBJ.

Definition loader_func (l : LoaderFunc)
  : string -> M World (option (list nat)) :=
  match l with
  | LOAD_GLB => load_glb_file
  | LOAD_OBJ => load_obj_file
  end.

(** The list [formats] of [load_map]. *)
Definition formats (map_name : string) : list (string * LoaderFunc) :=
  [ (map_name ++ "_physics.glb", LOAD_GLB);
    (map_name ++ ".glb", LOAD_GLB);
    (map_name ++ "_collision.obj", LOAD_OBJ);
    (map_name ++ ".obj", LOAD_OBJ);
    (map_name ++ "/world_physics.glb", LOAD_GLB) ]%string.

(** Lines 255-261: the loop over [formats]; [Some result] is its
    [return result], [None] its falling through. A result counts when
    it is truthy: a list that is not empty. *)
Fixpoint try_formats (fs : list (string * LoaderFunc))
  : M World (option (list nat)) :=
  match fs with
  | [] => ret None
  | (filename, l) :: fs' =>
      let filepath := path filename in
      if path_exists filepath then
        let* result := loader_func l filepath in
        match result with
        | Some (id :: ids) => ret (Some (id :: ids))
        | _ => try_formats fs'
        end
      else try_formats fs'
  end.

(** Lines 238-267. *)
Definition load_map (map_name : string) : M Engine (list nat) :=
  fun e =>
    match loaded_maps e !! map_name with
    | Some cached => (Ok cached, e)
    | None =>
        (let* found := in_world (try_formats (formats map_name)) in
         let* result := match found with
                        | Some result => ret result
                        | None => in_world load_test_scene
                        end in
         fun e' =>
           (Ok result,
            {| world := world e';
               loaded_maps := <[map_name := result]> (loaded_maps e');
               map_bodies := map_bodies e' |})) e
    end.

End MapLoader.
End MapLoader.

(* ===================================================================== *)
(** * physics_engine.py: the engine object                               *)
(* ===================================================================== *)

Module EnhancedPhysicsEngine.
Section EnhancedPhysicsEngine.
Context {engine : Bullet}.
Variable CS2_PHYSICS : PhysicsConfig.
Variable path : string -> string.
Variable path_exists : string -> bool.
Variable load_glb_file : string -> M World (option (list nat)).
Local Open Scope py_scope.

(** The loop [for body_id in self.map_bodies: p.changeDynamics(...)]. *)
Definition set_surface (ids : list nat) : M World unit :=
  for_each ids
    (fun body_id _ =>
       changeDynamics_surface body_id
         (grenade_restitution CS2_PHYSICS) (grenade_friction CS2_PHYSICS))
    tt.

(** Lines 88-102. *)
Definition load_test_scene : M Engine bool :=
  let* ids := in_world (MapLoader.load_test_scene CS2_PHYSICS) in
  set_map_bodies ids ;;
  in_world (set_surface ids) ;;
  ret true.

(** Lines 52-86. *)
Definition load_map (map_name : string) : M Engine bool :=
  try_except
    (let* ids :=
       MapLoader.load_map CS2_PHYSICS path path_exists load_glb_file
         map_name in
     set_map_bodies ids ;;
     match ids with
     | _ :: _ => in_world (set_surface ids) ;; ret true
     | [] => load_test_scene
     end)
    (fun _ => load_test_scene).

(** The engine object when [__init__] has connected to a new physics
    server and made its loader: no body, no cached map. What
    [p.connect], [p.setGravity] and [p.setTimeStep] set up is the
    engine that [Bullet] stands for. *)
Definition connected : Engine :=
  {| world := {| bodies := ∅; shapes := 0; trace := [] |};
     loaded_maps := ∅;
     map_bodies := [] |}.

(** Lines 21-50: [__init__]. An empty map name is falsy. *)
Definition __init__ (map_name : option string) : Res unit * Engine :=
  (match map_name with
   | Some (String c s) => load_map (String c s) ;; ret tt
   | _ => load_test_scene ;; ret tt
   end) connected.

(** Lines 104-234, as a method of the engine object. *)
Definition simulate_throw {np : NumPy} (start_pos : list float)
  (pitch yaw : float) (throw_type : ThrowType) (max_time : float)
  : M Engine (list (list float) * Info) :=
  in_world
    (simulate_throw CS2_PHYSICS start_pos pitch yaw throw_type max_time).

End EnhancedPhysicsEngine.
End EnhancedPhysicsEngine.

(* ===================================================================== *)
(** * server.py: the route [/find_smokes]                                *)
(* ===================================================================== *)

(** [ThrowType[name]] and [SearchStrategy[name]]: lookup of a member by
    its name; [None] stands for the [KeyError]. *)
Definition ThrowType_by_name (name : string) : option ThrowType :=
  if String.eqb name "LEFT_CLICK" then Some LEFT_CLICK
  else if String.eqb name "BOTH_CLICKS" then Some BOTH_CLICKS
  else if String.eqb name "RIGHT_CLICK" then Some RIGHT_CLICK
  else None.

Definition SearchStrategy_by_name (name : string) : option SearchStrategy :=
  if String.eqb name "GRID_SEARCH" then Some GRID_SEARCH
  else if String.eqb name "GENETIC" then Some GENETIC
  else if String.eqb name "HYBRID" then Some HYBRID
  else None.

(** The JSON object of a request, with the three keys the route reads;
    a key that is absent is [None]. *)
Record RequestData : Type := {
  req_target_pos : option (list float);
  req_throw_type : option string;
  req_strategy : option string
}.

(** What the [try] block of the route can raise. *)
Inductive RouteError : Type :=
| TypeError                      (* [request.json] is [None] *)
| KeyError (key : string)
| Raised (e : Exn).              (* out of [find_smokes] *)

(** [jsonify(...)] and the status code. *)
Record Response : Type := {
  status : nat;
  success : bool;
  smokes : list SmokePosition.t;
  error : option RouteError
}.

Definition success_response (solutions : list SmokePosition.t) : Response :=
  {| status := 200; success := true; smokes := solutions; error := None |}.

Definition error_response (e : RouteError) : Response :=
  {| status := 500; success := false; smokes := []; error := Some e |}.

Module Server.
Section Server.
Context {np : NumPy} {engine : Bullet}.
Variable CS2_PHYSICS : PhysicsConfig.

(** The globals [physics_engine] and [smoke_finder]: both [None], or the
    engine object and a finder with the attributes of
    [SmokeFinder.__init__]. *)
Definition Globals : Type := option Engine.

(** Lines 32-35: what the route reads from the request. *)
Definition parse (request_json : option RequestData)
  : RouteError + (list float * ThrowType * SearchStrategy) :=
  match request_json with
  | None => inl TypeError
  | Some data =>
      match req_target_pos data with
      | None => inl (KeyError "target_pos")
      | Some target_pos =>
          let throw_name := default "LEFT_CLICK"%string (req_throw_type data) in
          match ThrowType_by_name throw_name with
          | None => inl (KeyError throw_name)
          | Some throw_type =>
              let strategy_name :=
                default "GRID_SEARCH"%string (req_strategy data) in
              match SearchStrategy_by_name strategy_name with
              | None => inl (KeyError strategy_name)
              | Some strategy => inr (target_pos, throw_type, strategy)
              end
          end
      end
  end.

(** Lines 31-39: the [try] block, on the engine object. *)
Definition answer (request_json : option RequestData) (e : Engine)
  : Response * Engine :=
  match parse request_json with
  | inl err => (error_response err, e)
  | inr (target_pos, throw_type, strategy) =>
      match find_smokes Engine
              (fun start_pos pitch yaw tt max_time =>
                 EnhancedPhysicsEngine.simulate_throw CS2_PHYSICS
                   start_pos pitch yaw tt max_time)
              SmokeFinder_init target_pos throw_type strategy 10 e with
      | (Ok solutions, e') => (success_response solutions, e')
      | (Raise err, e') => (error_response (Raised err), e')
      end
  end.

(** Lines 25-39. An exception of the constructor is outside the [try]:
    it leaves the route, and the globals stay [None]. The constructor is
    called without a map name, so that it makes the test scene and never
    asks its loader for a file. *)
Definition find_smokes (request_json : option RequestData)
  : M Globals Response :=
  fun g =>
    match g with
    | Some e =>
        let (r, e') := answer request_json e in (Ok r, Some e')
    | None =>
        match EnhancedPhysicsEngine.__init__ CS2_PHYSICS (fun p => p)
                (fun _ => false) (fun _ => ret None) None with
        | (Ok _, e) =>
            let (r, e') := answer request_json e in (Ok r, Some e')
        | (Raise err, _) => (Raise err, None)
        end
    end.

(** Lines 21-23: the [initialized] field of [/health]. *)
Definition health (g : Globals) : bool :=
  match g with Some _ => true | None => false end.

End Server.
End Server.

(* ===================================================================== *)
(** * utils.py                                                           *)
(* ===================================================================== *)

(** Python's built-in [min] and [max] of two arguments: the first is
    kept unless the second compares strictly below (above) it. *)
Definition py_min (a b : float) : float := if (b <? a)%float then b else a.
Definition py_max (a b : float) : float := if (a <? b)%float then b else a.

Module CS2CoordinateConverter.

(** Lines 115-116: the class attributes. *)
Definition UNITS_PER_METER : float := 39.37.
Definition METERS_PER_UNIT : float := (1.0 / UNITS_PER_METER)%float.

(** Lines 118-136. *)
Definition meters_to_units (meters : float) : float :=
  (meters * UNITS_PER_METER)%float.

Definition units_to_meters (units : float) : float :=
  (units * METERS_PER_UNIT)%float.

Definition vector_meters_to_units (vector : list float) : list float :=
  map (fun coord => (coord * UNITS_PER_METER)%float) vector.

Definition vector_units_to_meters (vector : list float) : list float :=
  map (fun coord => (coord * METERS_PER_UNIT)%float) vector.

(** Lines 152-165; the defaults of the two bounds are -180 and 180. *)
Definition clamp_angle (angle min_angle max_angle : float) : float :=
  py_max min_angle (py_min max_angle angle).

End CS2CoordinateConverter.

(** Lines 513-517: the loop of [validate_position]. The coordinates are
    numbers by their type, so that the [isinstance] test holds. *)
Fixpoint validate_coords (coords : list float) : bool :=
  match coords with
  | [] => true
  | coord :: coords' =>
      if (10000 <? PrimFloat.abs coord)%float then false
      else validate_coords coords'
  end.

(** Lines 507-519. *)
Definition validate_position (position : list float) : bool :=
  if negb (length position =? 3)%nat then false
  else validate_coords position.

(* ===================================================================== *)
(** * Reference instances                                                *)
(* ===================================================================== *)

(** Executable stand-ins for the two external libraries, used to run the
    definitions above on concrete inputs. *)
Module Reference.
Local Open Scope float_scope.

Definition pi : float := 3.141592653589793.

Definition float_of_Z (z : Z) : float :=
  match z with
  | Z0 => 0
  | Zpos _ => PrimFloat.of_uint63 (Uint63.of_Z z)
  | Zneg p => - PrimFloat.of_uint63 (Uint63.of_Z (Zpos p))
  end.

Definition radians (x : float) : float := x * (pi / 180).
Definition degrees (x : float) : float := x * (180 / pi).

(** Reduction of an angle to one period around zero. *)
Definition reduce (x : float) : float :=
  match py_int (x / (2 * pi) + (if x <? 0 then -0.5 else 0.5)) with
  | Ok k => x - float_of_Z k * (2 * pi)
  | Raise _ => x - x
  end.

(** Taylor polynomials in Horner form, sixteen terms. *)
Definition fsin (x : float) : float :=
  let r := reduce x in
  let r2 := r * r in
  r * foldr (fun k acc =>
               1 - r2 / (float_of_nat (2 * k) * float_of_nat (2 * k + 1)) * acc)
        1 (seq 1 16).

Definition fcos (x : float) : float :=
  let r := reduce x in
  let r2 := r * r in
  foldr (fun k acc =>
           1 - r2 / (float_of_nat (2 * k - 1) * float_of_nat (2 * k)) * acc)
    1 (seq 1 16).

(** Arc tangent on [-1, 1]: three angle halvings, then the series. *)
Definition halve (t : float) : float := t / (1 + PrimFloat.sqrt (1 + t * t)).

Definition atan_unit (t : float) : float :=
  let u := halve (halve (halve t)) in
  let u2 := u * u in
  8 * (u * foldr (fun k acc =>
                    1 / float_of_nat (2 * k + 1) - u2 * acc)
             0 (seq 0 12)).

Definition fatan (t : float) : float :=
  if PrimFloat.abs t <=? 1 then atan_unit t
  else if 0 <? t then pi / 2 - atan_unit (1 / t)
  else - (pi / 2) - atan_unit (1 / t).

Definition arctan2 (y x : float) : float :=
  if 0 <? x then fatan (y / x)
  else if x <? 0 then (if y <? 0 then fatan (y / x) - pi else fatan (y / x) + pi)
  else if 0 <? y then pi / 2
  else if y <? 0 then - (pi / 2)
  else 0.

Definition norm (v : list float) : float :=
  PrimFloat.sqrt (foldr (fun x acc => x * x + acc) 0 v).

Definition numpy : NumPy :=
  {| np_cos := fcos;
     np_sin := fsin;
     np_radians := radians;
     np_degrees := degrees;
     np_arctan2 := arctan2;
     np_linalg_norm := norm |}.

(** An engine without forces or contacts: a dynamic body keeps its
    velocity and moves along it, [dt] seconds per step. *)
Definition drift (dt : float) (b : Body) : Vec3 float * Vec3 float :=
  let '(x, y, z) := basePosition b in
  let '(vx, vy, vz) := linearVelocity b in
  ((x + vx * dt, y + vy * dt, z + vz * dt), linearVelocity b).

Definition drifting : Bullet :=
  {| bullet_fault := fun _ _ => false;
     bullet_advance := fun _ _ b => drift (1 / 120) b |}.

(** An engine in which every dynamic body is brought to rest at once. *)
Definition stop (b : Body) : Vec3 float * Vec3 float :=
  (basePosition b, (0, 0, 0)).

Definition sticky : Bullet :=
  {| bullet_fault := fun _ _ => false;
     bullet_advance := fun _ _ b => stop b |}.

(** The drifting engine with a server that fails at its third time
    step. *)
Definition failing : Bullet :=
  {| bullet_fault := fun c w =>
       match c with
       | StepSimulation => (steps_taken (trace w) =? 2)%nat
       | _ => false
       end;
     bullet_advance := fun _ _ b => drift (1 / 120) b |}.

(** A world with one static body, the ground plane. *)
Definition ground : Body :=
  {| baseMass := 0;
     basePosition := (0, 0, 0);
     linearVelocity := (0, 0, 0);
     restitution := Some 0.45;
     lateralFriction := Some 0.5;
     linearDamping := None;
     angularDamping := None |}.

Definition test_scene : World :=
  {| bodies := {[ 0%nat := ground ]}; shapes := 1; trace := [] |}.

(** [PhysicsConfig(throw_speeds={ThrowType.LEFT_CLICK: 1000.0})]: a
    configuration whose speed table has no entry for the other two
    throw types. *)
Definition partial_config : PhysicsConfig :=
  PhysicsConfig_init (Some {[ LEFT_CLICK := 1000.0 ]}).

End Reference.

(* ===================================================================== *)
(** * Vocabulary of the properties                                       *)
(* ===================================================================== *)

(** ** Round trip of the coordinate conversion *)

(** [to_game(to_sim(v))] *)
Definition round_trip (cfg : PhysicsConfig) (v : list float) : Res (list float) :=
  match convert_cs2_to_bullet cfg v with
  | Ok b => convert_bullet_to_cs2 cfg b
  | Raise e => Raise e
  end.

(** [a] equals [b] within the relative tolerance [tol]. *)
Definition within_rel_tol (tol a b : float) : bool :=
  (PrimFloat.abs (a - b) <=? tol * PrimFloat.abs b)%float.

(** ** The real-number reading of the position conversion *)

Module RealSemantics.
Local Open Scope R_scope.

#[export] Instance Mul_R : Mul R := Rmult.

(** The numbers the two literals of [PhysicsConfig] denote. *)
Definition meters_per_unit_R : R := 0.0254.
Definition units_per_meter_R : R := 39.37.

(** The two conversions one after the other, on the coordinates. *)
Definition round_trip_R (x y z : R) : list R :=
  match swap_scale meters_per_unit_R x y z with
  | [a; b; c] => swap_scale units_per_meter_R a b c
  | _ => []
  end.

End RealSemantics.

(** ** The run of the simulation loop *)

Section Run.
Context {np : NumPy} {engine : Bullet}.
Variable CS2_PHYSICS : PhysicsConfig.
Local Open Scope float_scope.

(** The body table after [k] time steps. *)
Definition evolve (k : nat) (bs : gmap nat Body) : gmap nat Body :=
  Nat.iter k advance_all bs.

(** [np.linalg.norm] of the linear velocity of body [id]. *)
Definition speed_of (bs : gmap nat Body) (id : nat) : float :=
  match bs !! id with
  | Some b => np_linalg_norm (tolist (linearVelocity b))
  | None => 0
  end.

(** The speed the loop reads in iteration [i] (counted from 0), when it
    starts from the table [bs0]: the one after [i + 1] steps. *)
Definition speed_in_iteration (bs0 : gmap nat Body) (id i : nat) : float :=
  speed_of (evolve (S i) bs0) id.

(** The stop condition of line 212 in iteration [i]. *)
Definition at_rest (bs0 : gmap nat Body) (id i : nat) : bool :=
  (speed_in_iteration bs0 id i <? 10 * meters_per_unit CS2_PHYSICS)
  && (50 <? i)%nat.

(** The stop condition as the specification words it: the speed is below
    the threshold and at least 50 steps have elapsed. After iteration
    [i], [i + 1] steps have elapsed. *)
Definition spec_at_rest (bs0 : gmap nat Body) (id i : nat) : bool :=
  (speed_in_iteration bs0 id i <? 10 * meters_per_unit CS2_PHYSICS)
  && (50 <=? S i)%nat.

(** Number of iterations of a loop over [range(n)] that breaks in the
    first iteration where [stop] holds. *)
Definition iterations (stop : nat -> bool) (n : nat) : nat :=
  match List.find stop (seq 0 n) with
  | Some i => S i
  | None => n
  end.

(** The grenade as lines 162-181 set it up. *)
Definition grenade (position velocity : Vec3 float) : Body :=
  {| baseMass := grenade_mass CS2_PHYSICS;
     basePosition := position;
     linearVelocity := velocity;
     restitution := Some (grenade_restitution CS2_PHYSICS);
     lateralFriction := Some (grenade_friction CS2_PHYSICS);
     linearDamping := Some (grenade_linear_damping CS2_PHYSICS);
     angularDamping := Some (grenade_angular_damping CS2_PHYSICS) |}.

(** The initial velocity of lines 129-148 and 180. *)
Definition initial_velocity (pitch yaw : float) (throw_type : ThrowType)
  : Vec3 float :=
  velocity_bullet (direction_bullet (direction_cs2 pitch yaw))
    (get_throw_speed CS2_PHYSICS throw_type * meters_per_unit CS2_PHYSICS).

(** The body table when the loop starts: the world's bodies and the
    grenade, under a fresh id, at the converted start position. *)
Definition launched (w : World) (x y z pitch yaw : float)
  (throw_type : ThrowType) : gmap nat Body :=
  let scale := meters_per_unit CS2_PHYSICS in
  <[fresh (dom (bodies w)) :=
      grenade (x * scale, z * scale, y * scale)
        (initial_velocity pitch yaw throw_type)]> (bodies w).

(** The world after one iteration of the loop on body [id]: one time
    step and two queries. *)
Definition stepped (id : nat) (w : World) : World :=
  {| bodies := advance_all (bodies w);
     shapes := shapes w;
     trace := GetBaseVelocity id :: GetBasePositionAndOrientation id
              :: StepSimulation :: trace w |}.

(** The world when the loop starts. *)
Definition world_at_launch (w : World) (x y z pitch yaw : float)
  (throw_type : ThrowType) : World :=
  let id := fresh (dom (bodies w)) in
  {| bodies := launched w x y z pitch yaw throw_type;
     shapes := S (S (shapes w));
     trace := ResetBaseVelocity id :: ChangeDynamics id :: CreateMultiBody id
              :: CreateVisualShape :: CreateCollisionShape :: trace w |}.

(** The world when the call ends, after [k] iterations of the loop. *)
Definition world_at_return (w : World) (x y z pitch yaw : float)
  (throw_type : ThrowType) (k : nat) : World :=
  let id := fresh (dom (bodies w)) in
  let w' := Nat.iter k (stepped id)
              (world_at_launch w x y z pitch yaw throw_type) in
  {| bodies := delete id (bodies w');
     shapes := shapes w';
     trace := RemoveBody id :: GetBaseVelocity id
              :: GetBasePositionAndOrientation id :: trace w' |}.

End Run.

(** The iteration count as a recursion on the remaining budget, from
    index [a]. *)
Fixpoint run_length (stop : nat -> bool) (a n : nat) : nat :=
  match n with
  | O => O
  | S n' => if stop a then 1%nat else S (run_length stop (S a) n')
  end.

(** Two body tables hold the same bodies up to motion: the same ids,
    the same masses, and every static body exactly as it was. *)
Definition same_frame (m1 m2 : gmap nat Body) : Prop :=
  forall i : nat,
    match m1 !! i, m2 !! i with
    | Some a, Some b =>
        baseMass a = baseMass b /\ (is_static b = true -> a = b)
    | None, None => True
    | _, _ => False
    end.

(** ** The grid of candidates *)

(** One call of [simulate_throw]: position, pitch, yaw, throw type and
    time budget. *)
Definition Candidate : Type :=
  (list float * float * float * ThrowType * float)%type.

Module Spy.

(** A [physics] object that records the calls of [simulate_throw] it
    receives, in order, and answers each as [answer] prescribes (with a
    result or with an exception). *)
Definition simulate_throw
  (answer : Candidate -> Res (list (list float) * Info))
  (start_pos : list float) (pitch yaw : float) (throw_type : ThrowType)
  (max_time : float) : M (list Candidate) (list (list float) * Info) :=
  fun calls =>
    let c := (start_pos, pitch, yaw, throw_type, max_time) in
    (answer c, calls ++ [c]).

End Spy.

Section Grid.
Context {np : NumPy}.
Local Open Scope float_scope.

(** The throws from the grid of the abscissas [xs] and the ordinates
    [ys], for the target [(tx, ty)]: for every [x], every [y] and every
    pitch of the sweep, in that order, a throw from [[x; y; 72]] with
    the yaw that points from the grid point to the target and a time
    budget of 2 seconds. *)
Definition grid_candidates (xs ys : list float) (tx ty : float)
  (throw_type : ThrowType) : list Candidate :=
  flat_map (fun x =>
    flat_map (fun y =>
      map (fun pitch =>
             ([x; y; 72],
              pitch,
              np_degrees (np_arctan2 (ty - y) (tx - x)),
              throw_type,
              2.0))
        (np_linspace (-20) 60 10))
      ys)
    xs.

(** The axis in the specification's words, "the half-open interval
    [[centre - 500, centre + 500)] in steps of 100": the ten values
    [centre - 500 + 100 i] for [i = 0, ..., 9]; and what it is for a
    coordinate to lie in that interval. *)
Definition spec_axis (centre : float) : list float :=
  map (fun i => centre - 500 + float_of_nat i * 100) (seq 0 10).

Definition in_half_open (centre x : float) : bool :=
  (centre - 500 <=? x) && (x <? centre + 500).

(** The candidates in the specification's words: the centre is the
    target with 72 for its vertical coordinate; [x] and [y] run over
    [spec_axis]; the throw position keeps the centre's height; the yaw
    points from the grid point to the target; the pitch takes the 10
    evenly spaced values of [np.linspace(-20, 60, 10)], from -20 to 60
    inclusive; the time budget is 2 seconds. *)
Definition spec_candidates (tx ty tz : float) (throw_type : ThrowType)
  : list Candidate :=
  grid_candidates (spec_axis tx) (spec_axis ty) tx ty throw_type.

(** The throw position of a recorded call. *)
Definition thrown_from (c : Candidate) : list float :=
  let '(throw_pos, _, _, _, _) := c in throw_pos.

(** ** The ranked result *)


End Grid.



(** [len(result)] of a call that returned. *)
Definition returned_length {A} (r : Res (list A)) : option nat :=
  match r with
  | Ok l => Some (length l)
  | Raise _ => None
  end.

(** ** What a computation keeps *)

(** A property of the store that a computation keeps, however it ends. *)
Definition keeps {St A} (P : St -> Prop) (c : M St A) : Prop :=
  forall s : St, P s -> P (c s).2.

(** Pre- and postconditions on the world: [Q] after a return, [R] after
    an exception. *)
Definition hoare {A} (P : World -> Prop) (c : M World A)
  (Q : A -> World -> Prop) (R : World -> Prop) : Prop :=
  forall w : World, P w ->
    match c w with
    | (Ok a, w') => Q a w'
    | (Raise _, w') => R w'
    end.

(** Every body of [m] is still in [m'], with its mass, and exactly as it
    was if it is static. *)
Definition survives (m m' : gmap nat Body) : Prop :=
  forall (i : nat) (a : Body),
    m !! i = Some a ->
    exists b : Body,
      m' !! i = Some b /\ baseMass b = baseMass a
      /\ (is_static a = true -> b = a).

(** The bodies of [w0], and at most the body [g] beside them. *)
Definition within (w0 : World) (g : nat) (w : World) : Prop :=
  survives (bodies w0) (bodies w)
  /\ dom (bodies w) ⊆ dom (bodies w0) ∪ {[ g ]}.

(** The body table of [w0]. *)
Definition untouched (w0 w : World) : Prop := bodies w = bodies w0.

(** ** The result of [simulate_throw] *)

(** What a returned trajectory and its [info] always satisfy. *)
Definition well_formed_result (CS2_PHYSICS : PhysicsConfig)
  (trajectory : list (list float)) (info : Info) : Prop :=
  trajectory_points info = length trajectory
  /\ (1 <= length trajectory)%nat
  /\ Forall (fun p => length p = 3%nat) trajectory
  /\ last trajectory = Some (final_position info)
  /\ (0 <= bounces info <= Z.of_nat (length trajectory))%Z
  /\ simulation_time info
     = (float_of_nat (length trajectory - 1) * time_step CS2_PHYSICS)%float.

(** The sample the loop records for a body. *)
Definition sample_of (CS2_PHYSICS : PhysicsConfig) (b : Body) : list float :=
  let '(px, py, pz) := basePosition b in
  swap_scale (units_per_meter CS2_PHYSICS) px py pz.

(** The loop variables after [a] iterations on the body [g], in a world
    [w]. *)
Definition loop_invariant (CS2_PHYSICS : PhysicsConfig) (g a : nat)
  (st : LoopState) (w : World) : Prop :=
  length (ls_trajectory_cs2 st) = a
  /\ Forall (fun p => length p = 3%nat) (ls_trajectory_cs2 st)
  /\ (0 <= ls_bounces st <= Z.of_nat a)%Z
  /\ ls_step st = match a with O => None | S j => Some j end
  /\ (a <> 0%nat ->
      exists b, bodies w !! g = Some b
                /\ last (ls_trajectory_cs2 st)
                   = Some (sample_of CS2_PHYSICS b)).

(** ** Where a solution comes from *)

(** A solution built from one point of the grid of the abscissas [xs]
    and the ordinates [ys] around the target [[tx; ty; tz]]: thrown
    from a grid point at height 72, with a pitch of the sweep and the
    yaw that points at the target. *)
Definition from_the_grid {np : NumPy} (xs ys : list float)
  (tx ty tz : float) (throw_type : ThrowType) (s : SmokePosition.t) : Prop :=
  exists x y pitch : float,
    In x xs
    /\ In y ys
    /\ In pitch (np_linspace (-20) 60 10)
    /\ SmokePosition.throw_position s = [x; y; 72%float]
    /\ SmokePosition.angles s
       = (pitch, np_degrees (np_arctan2 (ty - y) (tx - x)))
    /\ SmokePosition.throw_type s = ThrowType_value throw_type
    /\ SmokePosition.target_position s = [tx; ty; tz].

(** ** The scene *)

(** The world [w] holds the bodies of [w0] as they were, and beside them
    only static bodies. *)
Definition adds_static (w0 w : World) : Prop :=
  bodies w0 ⊆ bodies w
  /\ forall (i : nat) (b : Body),
       bodies w !! i = Some b ->
       bodies w0 !! i = Some b \/ is_static b = true.

(** A body whose surface has the restitution and the friction of the
    configuration. *)
Definition surfaced (CS2_PHYSICS : PhysicsConfig) (b : Body) : Prop :=
  restitution b = Some (grenade_restitution CS2_PHYSICS)
  /\ lateralFriction b = Some (grenade_friction CS2_PHYSICS).

(** What [changeDynamics] with a restitution and a friction does to a
    body. *)
Definition with_surface (CS2_PHYSICS : PhysicsConfig) (b : Body) : Body :=
  {| baseMass := baseMass b;
     basePosition := basePosition b;
     linearVelocity := linearVelocity b;
     restitution := Some (grenade_restitution CS2_PHYSICS);
     lateralFriction := Some (grenade_friction CS2_PHYSICS);
     linearDamping := linearDamping b;
     angularDamping := angularDamping b |}.

(** The ids [ids] are bodies made since [w0]: distinct, unknown to [w0],
    static bodies of [w]. *)
Definition new_static_bodies (w0 : World) (ids : list nat) (w : World)
  : Prop :=
  NoDup ids
  /\ Forall (fun id => bodies w0 !! id = None
                       /\ exists b, bodies w !! id = Some b
                                    /\ is_static b = true) ids.

(** The engine object has a scene: [map_bodies] is not empty and each
    of its ids is a body of the world with the configured surface. *)
Definition has_scene (CS2_PHYSICS : PhysicsConfig) (e : Engine) : Prop :=
  map_bodies e <> []
  /\ Forall (fun id => exists b, bodies (world e) !! id = Some b
                                 /\ surfaced CS2_PHYSICS b) (map_bodies e).


(** What a request leaves of the engine object [e0]: its cache, its
    [map_bodies], and the bodies of its world. *)
Definition spared (e0 e : Engine) : Prop :=
  survives (bodies (world e0)) (bodies (world e))
  /\ loaded_maps e = loaded_maps e0
  /\ map_bodies e = map_bodies e0.

(** The bodies of [w0] up to motion, and possibly the body [g]. *)
Definition but_for (w0 : World) (g : nat) (w : World) : Prop :=
  same_frame (delete g (bodies w)) (bodies w0).

(* ===================================================================== *)
(** * Properties                                                         *)
(* ===================================================================== *)

(** ** Computations and loops *)

Lemma bind_ok {St A B} (c : M St A) (k : A -> M St B) (s s' : St) (a : A) :
  c s = (Ok a, s') -> bind c k s = k a s'.
Proof. intros E. unfold bind. rewrite E. reflexivity. Qed.

Lemma bind_raise {St A B} (c : M St A) (k : A -> M St B) (s s' : St)
  (e : Exn) :
  c s = (Raise e, s') -> bind c k s = (Raise e, s').
Proof. intros E. unfold bind. rewrite E. reflexivity. Qed.

Section LoopFacts.
Context {St A S : Type}.


End LoopFacts.

Section LogFacts.
Context {A S C : Type}.

(** A loop whose body appends [f x] to a log appends them all, in
    order. *)
Lemma for_each_appends (f : A -> list C) (body : A -> S -> M (list C) S)
  (xs : list A) :
  (forall (x : A) (acc : S) (log : list C),
      exists acc' : S, body x acc log = (Ok acc', log ++ f x)) ->
  forall (acc : S) (log : list C),
    exists acc' : S,
      for_each xs body acc log = (Ok acc', log ++ flat_map f xs).
Proof.
  intros Hbody. induction xs as [|x xs IH]; intros acc log; simpl.
  - exists acc. rewrite app_nil_r. reflexivity.
  - destruct (Hbody x acc log) as (acc1 & Hrun).
    rewrite (bind_ok _ _ _ _ _ Hrun).
    destruct (IH acc1 (log ++ f x)) as (acc2 & Hrest).
    exists acc2. rewrite Hrest, app_assoc. reflexivity.
Qed.

End LogFacts.

Lemma flat_map_singleton {A B} (g : A -> B) (l : list A) :
  flat_map (fun x => [g x]) l = map g l.
Proof.
  induction l as [|x l IH]; simpl; [ reflexivity | rewrite IH; reflexivity ].
Qed.

(** *** Iteration counts *)

Lemma find_seq_bounds (stop : nat -> bool) (n a i : nat) :
  List.find stop (seq a n) = Some i -> (a <= i < a + n)%nat.
Proof.
  revert a. induction n as [|n IH]; intros a; simpl; [ discriminate | ].
  destruct (stop a).
  - intros [= <-]. lia.
  - intros Hf. apply IH in Hf. lia.
Qed.

Lemma run_length_find (stop : nat -> bool) (n a : nat) :
  run_length stop a n
  = match List.find stop (seq a n) with
    | Some i => (S i - a)%nat
    | None => n
    end.
Proof.
  revert a. induction n as [|n IH]; intros a; simpl; [ reflexivity | ].
  destruct (stop a); [ lia | ].
  rewrite IH. destruct (List.find stop (seq (S a) n)) as [i|] eqn:Hf.
  - apply find_seq_bounds in Hf. lia.
  - reflexivity.
Qed.

Lemma iterations_run_length (stop : nat -> bool) (n : nat) :
  iterations stop n = run_length stop 0 n.
Proof.
  unfold iterations. rewrite run_length_find.
  destruct (List.find stop (seq 0 n)); [ lia | reflexivity ].
Qed.

Lemma run_length_le (stop : nat -> bool) (n a : nat) :
  (run_length stop a n <= n)%nat.
Proof.
  revert a. induction n as [|n IH]; intros a; simpl; [ lia | ].
  destruct (stop a); [ lia | ]. specialize (IH (S a)). lia.
Qed.

(** A loop that ends before its budget ended in an iteration where the
    stop condition held. *)
Lemma run_length_early (stop : nat -> bool) (n a : nat) :
  (run_length stop a n < n)%nat ->
  stop (a + run_length stop a n - 1)%nat = true.
Proof.
  revert a. induction n as [|n IH]; intros a; simpl; [ lia | ].
  destruct (stop a) eqn:Ha.
  - intros _. replace (a + 1 - 1)%nat with a by lia. exact Ha.
  - intros Hlt. assert (Hlt' : (run_length stop (S a) n < n)%nat) by lia.
    specialize (IH (S a) Hlt').
    replace (a + S (run_length stop (S a) n) - 1)%nat
      with (S a + run_length stop (S a) n - 1)%nat by lia.
    exact IH.
Qed.

(** An iteration in which the stop condition holds is the last one. *)
Lemma run_length_last (stop : nat -> bool) (n a i : nat) :
  (a <= i)%nat -> (i < a + run_length stop a n)%nat -> stop i = true ->
  (a + run_length stop a n)%nat = S i.
Proof.
  revert a. induction n as [|n IH]; intros a Hai; simpl; [ lia | ].
  destruct (stop a) eqn:Ha.
  - intros Hlt _. lia.
  - intros Hlt Hi. destruct (decide (i = a)) as [->|Hne]; [ congruence | ].
    rewrite <- (IH (S a)); [ lia | lia | lia | exact Hi ].
Qed.

Lemma run_length_full (stop : nat -> bool) (n a : nat) :
  (forall i, (a <= i < a + n)%nat -> stop i = false) ->
  run_length stop a n = n.
Proof.
  revert a. induction n as [|n IH]; intros a Hall; simpl; [ reflexivity | ].
  rewrite (Hall a) by lia. f_equal. apply IH. intros i Hi. apply Hall. lia.
Qed.

Lemma run_length_pos (stop : nat -> bool) (n a : nat) :
  (0 < n)%nat -> (0 < run_length stop a n)%nat.
Proof. destruct n; simpl; [ lia | ]. destruct (stop a); lia. Qed.

(** ** Binary64: order and truncation *)

Section FloatOrder.

(** The comparison of binary64 numbers is antisymmetric, and fails only
    on NaN. *)
Lemma SFcompare_antisym (x y : spec_float) :
  SFcompare y x = option_map CompOpp (SFcompare x y).
Proof.
  destruct x as [sx|sx| |sx mx ex], y as [sy|sy| |sy my ey]; simpl;
    try destruct sx; try destruct sy; simpl; try reflexivity.
  - rewrite (Z.compare_antisym ex ey).
    destruct (ex ?= ey)%Z; simpl; try reflexivity.
    rewrite !Pos.compare_cont_spec. simpl.
    rewrite (Pos.compare_antisym mx my). destruct (mx ?= my)%positive; reflexivity.
  - rewrite (Z.compare_antisym ex ey).
    destruct (ex ?= ey)%Z; simpl; try reflexivity.
    rewrite !Pos.compare_cont_spec. simpl.
    rewrite (Pos.compare_antisym mx my). destruct (mx ?= my)%positive; reflexivity.
Qed.

Lemma SFleb_trans (x y z : spec_float) :
  SFleb x y = true -> SFleb y z = true -> SFleb x z = true.
Proof.
  unfold SFleb.
  destruct x as [sx|sx| |sx mx ex], y as [sy|sy| |sy my ey],
           z as [sz|sz| |sz mz ez]; simpl;
    try destruct sx; try destruct sy; try destruct sz; simpl;
    try congruence; try reflexivity.
  all: rewrite ?Pos.compare_cont_spec; simpl.
  all: destruct (Z.compare_spec ex ey), (Z.compare_spec ey ez),
         (Z.compare_spec ex ez); simpl; try congruence; try lia.
  all: destruct (Pos.compare_spec mx my), (Pos.compare_spec my mz),
         (Pos.compare_spec mx mz); simpl; try congruence; try lia.
Qed.

Lemma ltb_leb (a b : float) : (a <? b)%float = true -> (a <=? b)%float = true.
Proof.
  rewrite ltb_spec, leb_spec. unfold SFltb, SFleb.
  destruct (SFcompare _ _) as [[]|]; congruence.
Qed.


Lemma SFcompare_None (x y : spec_float) :
  SFcompare x y = None -> x = S754_nan \/ y = S754_nan.
Proof.
  destruct x as [sx|sx| |sx mx ex], y as [sy|sy| |sy my ey]; simpl;
    try discriminate; auto.
Qed.

Lemma not_ltb_leb (a b : float) :
  Prim2SF a <> S754_nan -> Prim2SF b <> S754_nan ->
  (b <? a)%float = false -> (a <=? b)%float = true.
Proof.
  intros Ha Hb. rewrite ltb_spec, leb_spec. unfold SFltb, SFleb.
  rewrite (SFcompare_antisym (Prim2SF a) (Prim2SF b)).
  destruct (SFcompare (Prim2SF a) (Prim2SF b)) as [[]|] eqn:E; simpl;
    try congruence.
  apply SFcompare_None in E. tauto.
Qed.

Lemma leb_trans (a b c : float) :
  (a <=? b)%float = true -> (b <=? c)%float = true -> (a <=? c)%float = true.
Proof. rewrite !leb_spec. apply SFleb_trans. Qed.

End FloatOrder.

(** Rounding keeps the sign. *)
Lemma binary_round_aux_sign (s : bool) (m e : Z) (l : location) :
  match binary_round_aux prec emax s m e l with
  | S754_zero s' | S754_infinity s' | S754_finite s' _ _ => s' = s
  | S754_nan => True
  end.
Proof.
  unfold binary_round_aux.
  destruct (shr_fexp prec emax m e l) as [mrs' e'].
  destruct (shr_fexp prec emax _ e' loc_Exact) as [mrs'' e''].
  destruct (shr_m mrs''); try exact I; try reflexivity.
  destruct (_ <=? _)%Z; reflexivity.
Qed.

(** A budget that is not positive, divided by a positive time step,
    truncates to a step count that is not positive. *)
Lemma py_int_div_nonpos (x y : float) (n : Z) :
  (x <=? 0)%float = true -> (0 <? y)%float = true ->
  py_int (x / y) = Ok n -> (n <= 0)%Z.
Proof.
  unfold py_int. rewrite leb_spec, ltb_spec, div_spec.
  change (Prim2SF 0) with (S754_zero false).
  unfold SFleb, SFltb, SF64div, SFdiv.
  destruct (Prim2SF x) as [sx|sx| |sx mx ex], (Prim2SF y) as [sy|sy| |sy my ey];
    simpl; try destruct sx; try destruct sy; simpl; try discriminate;
    try (intros _ _ [= <-]; lia).
  intros _ _.
  destruct (SFdiv_core_binary prec emax (Z.pos mx) ex (Z.pos my) ey)
    as [[mz ez] lz].
  pose proof (binary_round_aux_sign true mz ez lz) as Hs.
  destruct (binary_round_aux prec emax true mz ez lz) as [s|s| |s m e];
    try discriminate; subst s.
  - intros [= <-]. lia.
  - intros [= <-]. destruct (0 <=? e)%Z eqn:He.
    + assert (0 <= 2 ^ e)%Z by (apply Z.pow_nonneg; lia).
      assert (0 <= Z.pos m * 2 ^ e)%Z by (apply Z.mul_nonneg_nonneg; lia). lia.
    + assert (0 < 2 ^ (- e))%Z by (apply Z.pow_pos_nonneg; lia).
      assert (0 <= Z.pos m / 2 ^ (- e))%Z by (apply Z.div_pos; lia). lia.
Qed.

(** ** Coordinate conversion *)

Section ConversionFacts.
Import RealSemantics.
Local Open Scope R_scope.

(** Over the reals the round trip multiplies every coordinate by the
    product of the two constants, which is not 1. *)
Lemma round_trip_R_factor (x y z : R) :
  round_trip_R x y z = [0.999998 * x; 0.999998 * y; 0.999998 * z].
Proof.
  unfold round_trip_R, swap_scale, t_mul, Mul_R.
  unfold meters_per_unit_R, units_per_meter_R.
  replace (x * 0.0254 * 39.37) with (0.999998 * x) by lra.
  replace (y * 0.0254 * 39.37) with (0.999998 * y) by lra.
  replace (z * 0.0254 * 39.37) with (0.999998 * z) by lra.
  reflexivity.
Qed.

(** So the relative error of a non-zero coordinate is two millionths,
    whatever the coordinate: the deviation is in the constants, not in
    the rounding. *)
Lemma round_trip_R_error (x : R) :
  x <> 0 -> Rabs (0.999998 * x - x) > 1e-6 * Rabs x.
Proof.
  intros Hx.
  replace (0.999998 * x - x) with (- (0.000002 * x)) by lra.
  rewrite Rabs_Ropp, Rabs_mult.
  assert (0 < Rabs x) by (apply Rabs_pos_lt; exact Hx).
  rewrite (Rabs_pos_eq 0.000002) by lra.
  nra.
Qed.

End ConversionFacts.

(** C5 (the code departs from the claim). On the position of the module's
    own self-test, [1000, 500, 128], converting to simulation space and
    back returns [999.998, 499.999, 127.999744] in binary64: every
    coordinate is off by two millionths of its value, more than the
    relative tolerance 1e-6 allows. [units_per_meter = 39.37] is not
    the inverse of [meters_per_unit = 0.0254]. *)
Theorem round_trip_exceeds_tolerance :
  exists r : list float,
    round_trip cs2_default [1000; 500; 128]%float = Ok r /\
    r = [999.99799999999993; 499.99899999999997; 127.99974399999999]%float /\
    Forall2 (fun a b => within_rel_tol 1e-6 a b = false)
      r [1000; 500; 128]%float.
Proof.
  eexists. split; [ vm_compute; reflexivity | ].
  split; [ reflexivity | ].
  repeat constructor.
Qed.

(** ** Direction conversion *)

Section DirectionFacts.
Context {np : NumPy}.
Variable CS2_PHYSICS : PhysicsConfig.
Local Open Scope float_scope.

(** C8 (as amended). In binary64, and whatever the library's cosine and
    sine are: the conversion of the direction computed from pitch and
    yaw exchanges its second and third components and does nothing
    else. The converted vector has the same three components, in the
    order [(x, z, y)]; converting twice gives the direction back; no
    conversion factor is applied to it, and whatever is computed from
    the components without regard to their order, as the exact
    Euclidean length is, has the same value on both vectors. The factor
    enters with the speed: every component of the velocity the grenade
    is given is the binary64 product of the converted component and
    [speed * meters_per_unit]. *)
Theorem direction_conversion_permutes_components
  (pitch yaw : float) (throw_type : ThrowType) :
  let d := direction_cs2 pitch yaw in
  let speed_bullet :=
    get_throw_speed CS2_PHYSICS throw_type * meters_per_unit CS2_PHYSICS in
  tolist (direction_bullet d)
  = [np_cos (np_radians pitch) * np_cos (np_radians yaw);
     np_sin (np_radians pitch);
     np_cos (np_radians pitch) * np_sin (np_radians yaw)]
  /\ tolist (direction_bullet d) ≡ₚ tolist d
  /\ direction_bullet (direction_bullet d) = d
  /\ (forall (T : Type) (magnitude : list float -> T),
        (forall l l' : list float, l ≡ₚ l' -> magnitude l = magnitude l') ->
        magnitude (tolist (direction_bullet d)) = magnitude (tolist d))
  /\ tolist (initial_velocity CS2_PHYSICS pitch yaw throw_type)
     = map (fun c => c * speed_bullet) (tolist (direction_bullet d)).
Proof.
  intros d speed_bullet. subst d speed_bullet.
  unfold initial_velocity, velocity_bullet, direction_bullet, direction_cs2.
  cbn [tolist map t_cos t_sin t_radians Trig_float].
  unfold t_mul, Mul_float.
  split; [ reflexivity | ].
  split; [ apply perm_skip, perm_swap | ].
  split; [ reflexivity | ].
  split; [ | reflexivity ].
  intros T magnitude Horder. apply Horder, perm_skip, perm_swap.
Qed.

End DirectionFacts.

(** ** Search strategies *)

Section StrategyFacts.
Context {np : NumPy}.
Variable St : Type.
Variable physics_simulate_throw :
  list float -> float -> float -> ThrowType -> float ->
  M St (list (list float) * Info).
Variable self : SmokeFinder.

(** C10. Whatever the engine, the finder's settings, the target, the
    throw type and [max_results], [find_smokes] with [GENETIC] or
    [HYBRID] is the same computation as with [GRID_SEARCH]: from the
    same store it returns the same list and leaves the same store. *)
Theorem genetic_and_hybrid_are_grid_search
  (target_pos : list float) (throw_type : ThrowType) (max_results : Z)
  (strategy : SearchStrategy) (s : St) :
  find_smokes St physics_simulate_throw self target_pos throw_type
    strategy max_results s
  = find_smokes St physics_simulate_throw self target_pos throw_type
      GRID_SEARCH max_results s.
Proof.
  destruct strategy; unfold find_smokes.
  - reflexivity.
  - unfold _genetic_search. reflexivity.
  - unfold _hybrid_search. reflexivity.
Qed.

End StrategyFacts.

(** ** Bodies, time steps and the log *)

Section FrameFacts.
Context {engine : Bullet}.

(** A time step keeps every body, and moves the dynamic ones. *)
Lemma advance_all_lookup (bs : gmap nat Body) (i : nat) :
  advance_all bs !! i
  = (fun b => if is_static b then b else move b (bullet_advance bs i b))
      <$> (bs !! i).
Proof.
  unfold advance_all. rewrite map_lookup_imap.
  destruct (bs !! i); reflexivity.
Qed.

Lemma evolve_S (k : nat) (bs : gmap nat Body) :
  evolve (S k) bs = advance_all (evolve k bs).
Proof. reflexivity. Qed.

Lemma evolve_is_Some (k : nat) (bs : gmap nat Body) (i : nat) :
  is_Some (bs !! i) -> is_Some (evolve k bs !! i).
Proof.
  induction k as [|k IH]; intros Hi; [ exact Hi | ].
  rewrite evolve_S, advance_all_lookup.
  destruct (IH Hi) as [b ->]. eexists. reflexivity.
Qed.

Lemma iter_stepped_bodies (id k : nat) (w : World) :
  bodies (Nat.iter k (stepped id) w) = evolve k (bodies w).
Proof.
  induction k as [|k IH]; [ reflexivity | ].
  simpl. rewrite IH. reflexivity.
Qed.

Lemma iter_stepped_swap (id k : nat) (w : World) :
  Nat.iter k (stepped id) (stepped id w) = Nat.iter (S k) (stepped id) w.
Proof. symmetry. apply Nat.iter_succ_r. Qed.

Lemma same_frame_refl (m : gmap nat Body) : same_frame m m.
Proof. intros i. destruct (m !! i); auto. Qed.

Lemma is_static_mass (a b : Body) :
  baseMass a = baseMass b -> is_static a = is_static b.
Proof. unfold is_static. intros ->. reflexivity. Qed.

Lemma same_frame_trans (m1 m2 m3 : gmap nat Body) :
  same_frame m1 m2 -> same_frame m2 m3 -> same_frame m1 m3.
Proof.
  intros H12 H23 i. specialize (H12 i). specialize (H23 i).
  destruct (m1 !! i) as [a|], (m2 !! i) as [b|], (m3 !! i) as [c|];
    try contradiction; auto.
  destruct H12 as [Hm12 Hs12], H23 as [Hm23 Hs23]. split.
  - congruence.
  - intros Hc. rewrite <- (Hs23 Hc). apply Hs12.
    rewrite (is_static_mass b c Hm23). exact Hc.
Qed.

Lemma advance_all_same_frame (bs : gmap nat Body) :
  same_frame (advance_all bs) bs.
Proof.
  intros i. rewrite advance_all_lookup.
  destruct (bs !! i) as [b|]; simpl; [ | exact I ].
  destruct (is_static b) eqn:Hs; split; auto; discriminate.
Qed.

Lemma evolve_same_frame (k : nat) (bs : gmap nat Body) :
  same_frame (evolve k bs) bs.
Proof.
  induction k as [|k IH]; [ apply same_frame_refl | ].
  rewrite evolve_S.
  eapply same_frame_trans; [ apply advance_all_same_frame | exact IH ].
Qed.

(** Adding a body under a fresh id, stepping, and removing it again
    leaves the bodies that were there, up to motion. *)
Lemma delete_evolve_insert_same_frame (k id : nat) (g : Body)
  (bs : gmap nat Body) :
  bs !! id = None ->
  same_frame (delete id (evolve k (<[id := g]> bs))) bs.
Proof.
  intros Hfresh i. destruct (decide (id = i)) as [<-|Hne].
  - rewrite lookup_delete_eq, Hfresh. exact I.
  - rewrite lookup_delete_ne by exact Hne.
    pose proof (evolve_same_frame k (<[id := g]> bs) i) as Hf.
    rewrite lookup_insert_ne in Hf by exact Hne. exact Hf.
Qed.

(** What two tables that hold the same bodies up to motion share. *)
Lemma same_frame_dom (m1 m2 : gmap nat Body) :
  same_frame m1 m2 -> dom m1 = dom m2.
Proof.
  intros Hf. apply set_eq. intros i. rewrite !elem_of_dom.
  specialize (Hf i). unfold is_Some.
  destruct (m1 !! i) as [a|], (m2 !! i) as [c|]; try contradiction.
  - split; eauto.
  - split; intros [x Hx]; discriminate.
Qed.

Lemma same_frame_filter_static (m1 m2 : gmap nat Body) :
  same_frame m1 m2 ->
  filter (fun ib : nat * Body => is_static ib.2 = true) m1
  = filter (fun ib : nat * Body => is_static ib.2 = true) m2.
Proof.
  intros Hf. apply map_eq. intros i. apply option_eq. intros b.
  rewrite !map_lookup_filter_Some. cbn [snd]. specialize (Hf i).
  destruct (m1 !! i) as [a|], (m2 !! i) as [c|]; try contradiction;
    [ | naive_solver ].
  destruct Hf as [Hm Hs]. split; intros [[= ->] Hb].
  - rewrite (is_static_mass b c Hm) in Hb.
    rewrite (Hs Hb). auto.
  - rewrite (Hs Hb). auto.
Qed.

Lemma same_frame_dynamic_size (m1 m2 : gmap nat Body) :
  same_frame m1 m2 ->
  size (filter (fun ib : nat * Body => is_static ib.2 = false) m1)
  = size (filter (fun ib : nat * Body => is_static ib.2 = false) m2).
Proof.
  intros Hf. rewrite <- !size_dom. f_equal.
  apply dom_filter_L. intros i. rewrite elem_of_dom. unfold is_Some.
  specialize (Hf i). split.
  - intros [c Hc]. apply map_lookup_filter_Some in Hc as [Hc Hdyn].
    cbn [snd] in Hdyn. rewrite Hc in Hf.
    destruct (m1 !! i) as [a|]; [ | contradiction ].
    destruct Hf as [Hm _]. exists a. split; [ reflexivity | ].
    cbn [snd]. rewrite (is_static_mass a c Hm). exact Hdyn.
  - intros (a & Ha & Hdyn). cbn [snd] in Hdyn. rewrite Ha in Hf.
    destruct (m2 !! i) as [c|] eqn:Hc; [ | contradiction ].
    destruct Hf as [Hm _]. exists c. apply map_lookup_filter_Some.
    split; [ exact Hc | ].
    cbn [snd]. rewrite <- (is_static_mass a c Hm). exact Hdyn.
Qed.

End FrameFacts.

(** *** Counting calls in the log *)

Lemma count_cons (f : Call -> bool) (c : Call) (t : list Call) :
  length (filter (fun c => f c = true) (c :: t))
  = if f c then S (length (filter (fun c => f c = true) t))
    else length (filter (fun c => f c = true) t).
Proof.
  rewrite filter_cons. destruct (f c); reflexivity.
Qed.

Lemma steps_taken_cons (c : Call) (t : list Call) :
  steps_taken (c :: t)
  = if is_step c then S (steps_taken t) else steps_taken t.
Proof. apply (count_cons is_step). Qed.

Lemma created_cons (c : Call) (t : list Call) :
  created (c :: t) = if is_create c then S (created t) else created t.
Proof. apply (count_cons is_create). Qed.

Lemma removed_cons (c : Call) (t : list Call) :
  removed (c :: t) = if is_remove c then S (removed t) else removed t.
Proof. apply (count_cons is_remove). Qed.

Ltac count_calls :=
  rewrite ?steps_taken_cons, ?created_cons, ?removed_cons;
  cbn [is_step is_create is_remove].

Section ReturnFacts.
Context {np : NumPy} {engine : Bullet}.
Variable CS2_PHYSICS : PhysicsConfig.

Lemma iter_stepped_counts (id k : nat) (w : World) :
  let w' := Nat.iter k (stepped id) w in
  steps_taken (trace w') = (k + steps_taken (trace w))%nat
  /\ created (trace w') = created (trace w)
  /\ removed (trace w') = removed (trace w).
Proof.
  induction k as [|k IH]; [ repeat split | ].
  destruct IH as (Hs & Hc & Hr). cbn zeta.
  change (Nat.iter (S k) (stepped id) w)
    with (stepped id (Nat.iter k (stepped id) w)).
  cbn [stepped trace]. count_calls.
  rewrite Hs, Hc, Hr. repeat split.
Qed.

Lemma world_at_return_counts (w : World) (x y z pitch yaw : float)
  (throw_type : ThrowType) (k : nat) :
  let w' := world_at_return CS2_PHYSICS w x y z pitch yaw throw_type k in
  steps_taken (trace w') = (k + steps_taken (trace w))%nat
  /\ created (trace w') = S (created (trace w))
  /\ removed (trace w') = S (removed (trace w)).
Proof.
  cbn zeta. unfold world_at_return. cbn [trace].
  destruct (iter_stepped_counts (fresh (dom (bodies w))) k
              (world_at_launch CS2_PHYSICS w x y z pitch yaw throw_type))
    as (Hs & Hc & Hr).
  count_calls. rewrite Hs, Hc, Hr.
  unfold world_at_launch. cbn [trace]. count_calls.
  repeat split.
Qed.

Lemma world_at_return_frame (w : World) (x y z pitch yaw : float)
  (throw_type : ThrowType) (k : nat) :
  same_frame (bodies (world_at_return CS2_PHYSICS w x y z pitch yaw throw_type k))
    (bodies w).
Proof.
  unfold world_at_return. cbn [bodies]. rewrite iter_stepped_bodies.
  unfold world_at_launch. cbn [bodies]. unfold launched.
  apply delete_evolve_insert_same_frame.
  apply not_elem_of_dom, is_fresh.
Qed.

End ReturnFacts.
(** ** The run of [simulate_throw] on an engine that does not fail *)

Section RunFacts.
Context {np : NumPy} {engine : Bullet}.
Variable CS2_PHYSICS : PhysicsConfig.
Hypothesis no_fault : forall (c : Call) (w : World), bullet_fault c w = false.

(** On such an engine every call succeeds and is logged. *)
Lemma call_ok (c : Call) (w : World) : call c w = (Ok tt, log c w).
Proof. unfold call. rewrite no_fault. reflexivity. Qed.

Lemma createCollisionShape_ok (r : float) (w : World) :
  createCollisionShape r w
  = (Ok (shapes w),
     {| bodies := bodies w; shapes := S (shapes w);
        trace := CreateCollisionShape :: trace w |}).
Proof. unfold createCollisionShape, bind. rewrite call_ok. reflexivity. Qed.

Lemma createVisualShape_ok (r : float) (c : list float) (w : World) :
  createVisualShape r c w
  = (Ok (shapes w),
     {| bodies := bodies w; shapes := S (shapes w);
        trace := CreateVisualShape :: trace w |}).
Proof. unfold createVisualShape, bind. rewrite call_ok. reflexivity. Qed.

Lemma createMultiBody_ok (m : float) (c v : nat) (x y z : float) (w : World) :
  let id := fresh (dom (bodies w)) in
  createMultiBody m c v [x; y; z] w
  = (Ok id,
     {| bodies := <[id := {| baseMass := m;
                             basePosition := (x, y, z);
                             linearVelocity := (0, 0, 0)%float;
                             restitution := None;
                             lateralFriction := None;
                             linearDamping := None;
                             angularDamping := None |}]> (bodies w);
        shapes := shapes w;
        trace := CreateMultiBody id :: trace w |}).
Proof. unfold createMultiBody, bind. rewrite call_ok. reflexivity. Qed.

Lemma update_body_ok (c : Call) (id : nat) (f : Body -> Body) (b : Body)
  (w : World) :
  bodies w !! id = Some b ->
  bind (call c) (fun _ => update_body id f) w
  = (Ok tt, {| bodies := <[id := f b]> (bodies w); shapes := shapes w;
               trace := c :: trace w |}).
Proof.
  intros Hb. unfold bind, update_body. rewrite call_ok.
  cbn [log bodies]. rewrite Hb. reflexivity.
Qed.

Lemma query_ok {A} (c : Call) (id : nat) (f : Body -> A) (b : Body) (w : World) :
  bodies w !! id = Some b ->
  bind (call c) (fun _ => query id f) w = (Ok (f b), log c w).
Proof.
  intros Hb. unfold bind, query. rewrite call_ok.
  cbn [log bodies]. rewrite Hb. reflexivity.
Qed.

Lemma removeBody_ok (id : nat) (w : World) :
  removeBody id w
  = (Ok tt, {| bodies := delete id (bodies w); shapes := shapes w;
               trace := RemoveBody id :: trace w |}).
Proof. unfold removeBody, bind. rewrite call_ok. reflexivity. Qed.

(** One iteration: a time step and two queries; the iteration breaks
    exactly when the stop condition holds on the speed it read. *)
Lemma loop_body_ok (id i : nat) (st : LoopState) (w : World) :
  is_Some (bodies w !! id) ->
  exists st' : LoopState,
    loop_body CS2_PHYSICS id i st w
    = (Ok (if (speed_of (advance_all (bodies w)) id
               <? 10 * meters_per_unit CS2_PHYSICS)%float && (50 <? i)%nat
           then Break else Continue, st'), stepped id w)
    /\ ls_step st' = Some i
    /\ length (ls_trajectory_cs2 st') = S (length (ls_trajectory_cs2 st)).
Proof.
  intros [b Hb].
  assert (Hb' : advance_all (bodies w) !! id
                = Some (if is_static b then b
                        else move b (bullet_advance (bodies w) id b)))
    by (rewrite advance_all_lookup, Hb; reflexivity).
  set (b' := if is_static b then b else move b (bullet_advance (bodies w) id b)) in Hb'.
  unfold loop_body, stepSimulation, getBasePositionAndOrientation,
    getBaseVelocity, query, bind, lift. cbn beta.
  destruct (basePosition b') as [[px py] pz] eqn:Hp.
  repeat first [ rewrite call_ok | rewrite Hb' | rewrite Hp
               | progress cbn [log set_bodies bodies shapes trace tolist
                                 convert_bullet_to_cs2 swap_scale] ].
  unfold speed_of. rewrite Hb'.
  match goal with
  | |- context [if ?c then ret (Break, ?s) else ret (Continue, _)] =>
      exists s; destruct c
  end; unfold ret, stepped; cbn [ls_step ls_trajectory_cs2];
    (split; [ reflexivity | split; [ reflexivity | ] ]);
    rewrite length_app; simpl; lia.
Qed.

(** The loop from index [a]: it returns, after [run_length] iterations,
    with [step] bound to the last index it ran (if it ran at all) and
    one trajectory sample per iteration. *)
Lemma loop_run (id : nat) (bs0 : gmap nat Body) :
  is_Some (bs0 !! id) ->
  forall (n a : nat) (st : LoopState) (w : World),
    bodies w = evolve a bs0 ->
    let k := run_length (at_rest CS2_PHYSICS bs0 id) a n in
    exists st' : LoopState,
      for_loop (seq a n) (loop_body CS2_PHYSICS id) st w
      = (Ok st', Nat.iter k (stepped id) w)
      /\ ls_step st' = match k with
                       | O => ls_step st
                       | S j => Some (a + j)%nat
                       end
      /\ length (ls_trajectory_cs2 st') = (length (ls_trajectory_cs2 st) + k)%nat.
Proof.
  intros Hid n. induction n as [|n IH]; intros a st w Hw; simpl.
  - exists st. repeat split. lia.
  - assert (Hidw : is_Some (bodies w !! id))
      by (rewrite Hw; apply evolve_is_Some, Hid).
    destruct (loop_body_ok id a st w Hidw) as (st1 & Hrun & Hstep & Hlen).
    unfold bind. rewrite Hrun.
    assert (Hspeed : speed_of (advance_all (bodies w)) id
                     = speed_in_iteration bs0 id a)
      by (unfold speed_in_iteration; rewrite evolve_S, Hw; reflexivity).
    rewrite Hspeed. fold (at_rest CS2_PHYSICS bs0 id a).
    destruct (at_rest CS2_PHYSICS bs0 id a).
    + exists st1. split; [ reflexivity | ]. split.
      * rewrite Hstep. f_equal. lia.
      * rewrite Hlen. lia.
    + assert (Hw1 : bodies (stepped id w) = evolve (S a) bs0)
        by (rewrite evolve_S, <- Hw; reflexivity).
      destruct (IH (S a) st1 (stepped id w) Hw1) as (st2 & Hrun2 & Hstep2 & Hlen2).
      exists st2. rewrite Hrun2, iter_stepped_swap.
      split; [ reflexivity | ]. split.
      * rewrite Hstep2.
        destruct (run_length (at_rest CS2_PHYSICS bs0 id) (S a) n);
          [ rewrite Hstep; f_equal; lia | f_equal; lia ].
      * rewrite Hlen2, Hlen. lia.
Qed.

(** The whole call on a three-coordinate start. With [k] the number of
    iterations of the loop: the call leaves [world_at_return k]; it
    raises [UnboundLocalError] when [k = 0] and otherwise returns [k]
    samples. *)
Lemma simulate_throw_run (w : World) (x y z pitch yaw : float)
  (throw_type : ThrowType) (max_time : float) (n : Z) :
  py_int (max_time / time_step CS2_PHYSICS) = Ok n ->
  let id := fresh (dom (bodies w)) in
  let bs0 := launched CS2_PHYSICS w x y z pitch yaw throw_type in
  let k := iterations (at_rest CS2_PHYSICS bs0 id) (Z.to_nat n) in
  let w' := world_at_return CS2_PHYSICS w x y z pitch yaw throw_type k in
  match k with
  | O =>
      simulate_throw CS2_PHYSICS [x; y; z] pitch yaw throw_type max_time w
      = (Raise UnboundLocalError, w')
  | S j =>
      exists (trajectory : list (list float)) (info : Info),
        simulate_throw CS2_PHYSICS [x; y; z] pitch yaw throw_type max_time w
        = (Ok (trajectory, info), w')
        /\ length trajectory = k
        /\ trajectory_points info = k
        /\ simulation_time info
           = (float_of_nat j * time_step CS2_PHYSICS)%float
        /\ final_velocity info
           = (speed_of (evolve k bs0) id / meters_per_unit CS2_PHYSICS)%float
  end.
Proof.
  intros Hn id bs0 k w'.
  assert (Hid : is_Some (bs0 !! id)).
  { unfold bs0, launched. fold id. rewrite lookup_insert_eq. eexists; reflexivity. }
  destruct (loop_run id bs0 Hid (Z.to_nat n) 0
              {| ls_trajectory_bullet := [];
                 ls_trajectory_cs2 := [];
                 ls_bounces := 0;
                 ls_last_velocity_mag :=
                   (get_throw_speed CS2_PHYSICS throw_type
                    * meters_per_unit CS2_PHYSICS)%float;
                 ls_step := None |}
              (world_at_launch CS2_PHYSICS w x y z pitch yaw throw_type) eq_refl)
    as (st' & Hloop & Hstep & Hlen).
  rewrite <- iterations_run_length in Hloop, Hstep, Hlen. fold k in Hloop, Hstep, Hlen.
  destruct (evolve_is_Some k bs0 id Hid) as [b Hb].
  assert (Hbw : bodies (Nat.iter k (stepped id)
                          (world_at_launch CS2_PHYSICS w x y z pitch yaw throw_type)) !! id
                = Some b)
    by (rewrite iter_stepped_bodies; exact Hb).
  unfold simulate_throw.
  cbn [convert_cs2_to_bullet length Nat.eqb negb swap_scale lift].
  erewrite bind_ok by reflexivity.
  erewrite bind_ok by apply createCollisionShape_ok.
  erewrite bind_ok by apply createVisualShape_ok.
  erewrite bind_ok by apply createMultiBody_ok.
  cbn [bodies shapes trace].
  erewrite bind_ok
    by (unfold changeDynamics; apply update_body_ok; cbn [bodies];
        apply lookup_insert_eq).
  erewrite bind_ok
    by (unfold resetBaseVelocity; apply update_body_ok; cbn [bodies];
        apply lookup_insert_eq).
  cbn [bodies shapes trace baseMass basePosition linearVelocity restitution
         lateralFriction linearDamping angularDamping].
  rewrite !insert_insert_eq.
  erewrite bind_ok by (rewrite Hn; reflexivity).
  fold id.
  erewrite bind_ok by exact Hloop.
  erewrite bind_ok
    by (unfold getBasePositionAndOrientation; apply query_ok; exact Hbw).
  destruct (basePosition b) as [[px py] pz] eqn:Hp.
  cbn [tolist convert_bullet_to_cs2 swap_scale].
  erewrite bind_ok by reflexivity.
  erewrite bind_ok
    by (unfold getBaseVelocity; apply query_ok; cbn [log bodies]; exact Hbw).
  erewrite bind_ok by apply removeBody_ok.
  cbn [log bodies shapes trace].
  destruct k as [|j] eqn:Hk.
  - rewrite Hstep. erewrite bind_raise by reflexivity. reflexivity.
  - rewrite Hstep. erewrite bind_ok by reflexivity.
    eexists _, _. split; [ reflexivity | ].
    cbn [trajectory_points simulation_time final_velocity].
    repeat split.
    + rewrite Hlen. reflexivity.
    + rewrite Hlen. reflexivity.
    + unfold speed_of. rewrite Hb. reflexivity.
Qed.

(** A start position that has not three coordinates is rejected before
    the engine is touched. *)
Lemma simulate_throw_bad_start (w : World) (start_pos : list float)
  (pitch yaw : float) (throw_type : ThrowType) (max_time : float) :
  length start_pos <> 3%nat ->
  simulate_throw CS2_PHYSICS start_pos pitch yaw throw_type max_time w
  = (Raise ValueError, w).
Proof.
  intros Hlen. unfold simulate_throw.
  apply bind_raise. unfold lift, convert_cs2_to_bullet.
  destruct start_pos as [|x [|y [|z [|t l]]]]; try reflexivity.
  contradiction Hlen. reflexivity.
Qed.

(** The world a call leaves, whatever its result. *)
Lemma simulate_throw_world (w : World) (x y z pitch yaw : float)
  (throw_type : ThrowType) (max_time : float) (n : Z) :
  py_int (max_time / time_step CS2_PHYSICS) = Ok n ->
  (simulate_throw CS2_PHYSICS [x; y; z] pitch yaw throw_type max_time w).2
  = world_at_return CS2_PHYSICS w x y z pitch yaw throw_type
      (iterations
         (at_rest CS2_PHYSICS
            (launched CS2_PHYSICS w x y z pitch yaw throw_type)
            (fresh (dom (bodies w))))
         (Z.to_nat n)).
Proof.
  intros Hn.
  pose proof (simulate_throw_run w x y z pitch yaw throw_type max_time n Hn)
    as Hrun.
  cbn zeta in Hrun.
  destruct (iterations _ _) as [|j].
  - rewrite Hrun. reflexivity.
  - destruct Hrun as (traj & info & Hrun & _). rewrite Hrun. reflexivity.
Qed.

(** C1 (as amended). Take any call of [simulate_throw] on an engine none
    of whose operations fails, with a time budget whose quotient by the
    time step is a finite number (so that [int(max_time / time_step)] is
    defined). Whatever the start position, pitch, yaw and throw type, and
    whether the call returns a result or ends with an error, the world
    it leaves holds the bodies it held before: the same ids, every
    static body exactly as it was, as many dynamic bodies as before, and
    as many bodies removed during the call as created. *)
Theorem simulate_throw_removes_its_body (w : World) (start_pos : list float)
  (pitch yaw : float) (throw_type : ThrowType) (max_time : float) (n : Z) :
  py_int (max_time / time_step CS2_PHYSICS) = Ok n ->
  let w' := (simulate_throw CS2_PHYSICS start_pos pitch yaw throw_type
               max_time w).2 in
  dom (bodies w') = dom (bodies w)
  /\ static_bodies w' = static_bodies w
  /\ size (dynamic_bodies w') = size (dynamic_bodies w)
  /\ (created (trace w') - created (trace w)
      = removed (trace w') - removed (trace w))%nat.
Proof.
  intros Hn w'.
  destruct (decide (length start_pos = 3%nat)) as [Hlen|Hlen].
  - destruct start_pos as [|x [|y [|z [|t l]]]]; try discriminate Hlen.
    subst w'. rewrite (simulate_throw_world w x y z _ _ _ _ n Hn).
    set (k := iterations _ _).
    pose proof (world_at_return_frame CS2_PHYSICS w x y z pitch yaw throw_type k) as Hf.
    destruct (world_at_return_counts CS2_PHYSICS w x y z pitch yaw throw_type k)
      as (_ & Hc & Hr).
    split; [ apply same_frame_dom, Hf | ].
    split; [ apply same_frame_filter_static, Hf | ].
    split; [ apply same_frame_dynamic_size, Hf | ].
    rewrite Hc, Hr. lia.
  - subst w'. rewrite simulate_throw_bad_start by exact Hlen.
    cbn [snd]. repeat split. lia.
Qed.

(** With a budget that is not positive the loop does not run: the call
    creates the grenade, removes it, and then reads [step], which no
    iteration has bound. *)
Lemma nonpositive_budget_run (w : World)
  (x y z pitch yaw : float) (throw_type : ThrowType) (max_time : float)
  (n : Z) :
  (max_time <=? 0)%float = true ->
  (0 <? time_step CS2_PHYSICS)%float = true ->
  py_int (max_time / time_step CS2_PHYSICS) = Ok n ->
  simulate_throw CS2_PHYSICS [x; y; z] pitch yaw throw_type max_time w
  = (Raise UnboundLocalError,
     world_at_return CS2_PHYSICS w x y z pitch yaw throw_type 0).
Proof.
  intros Hneg Hts Hn.
  assert (Hn0 : (n <= 0)%Z) by (eapply py_int_div_nonpos; eassumption).
  pose proof (simulate_throw_run w x y z pitch yaw throw_type max_time n Hn)
    as Hrun.
  cbn zeta in Hrun.
  replace (Z.to_nat n) with 0%nat in Hrun by lia.
  exact Hrun.
Qed.

(** C2 (as amended). If [simulate_throw] is called with a time budget
    [max_time <= 0] (on a three-coordinate start, with a positive time
    step and a finite quotient, on an engine that does not fail), the
    call is not rejected before it touches the engine: it creates one
    body and removes that body again, takes no time step, and leaves
    the body table exactly as it was. *)
Theorem simulate_throw_nonpositive_budget (w : World)
  (x y z pitch yaw : float) (throw_type : ThrowType) (max_time : float)
  (n : Z) :
  (max_time <=? 0)%float = true ->
  (0 <? time_step CS2_PHYSICS)%float = true ->
  py_int (max_time / time_step CS2_PHYSICS) = Ok n ->
  let w' := (simulate_throw CS2_PHYSICS [x; y; z] pitch yaw throw_type
               max_time w).2 in
  bodies w' = bodies w
  /\ steps_taken (trace w') = steps_taken (trace w)
  /\ created (trace w') = S (created (trace w))
  /\ removed (trace w') = S (removed (trace w)).
Proof.
  intros Hneg Hts Hn w'. subst w'.
  rewrite (nonpositive_budget_run w x y z pitch yaw throw_type max_time n
             Hneg Hts Hn).
  cbn [snd].
  destruct (world_at_return_counts CS2_PHYSICS w x y z pitch yaw throw_type 0)
    as (Hs & Hc & Hr).
  split; [ | split; [ exact Hs | split; [ exact Hc | exact Hr ] ] ].
  unfold world_at_return, world_at_launch, launched.
  change (Nat.iter 0 ?f ?a) with a. cbn [bodies].
  rewrite delete_insert_eq. apply delete_id.
  apply not_elem_of_dom, is_fresh.
Qed.

(** C6 (as amended). The loop of [simulate_throw] takes one time step per
    iteration and runs at most [int(max_time / time_step)] iterations:
    the quotient truncated, not rounded up. It runs exactly that many
    unless the stop condition of line 212 held in its last iteration; if
    the stop condition holds in no iteration, it runs them all. [k] is
    the number of time steps the call adds to the log. *)
Theorem simulation_loop_step_count (w : World)
  (x y z pitch yaw : float) (throw_type : ThrowType) (max_time : float)
  (n : Z) :
  py_int (max_time / time_step CS2_PHYSICS) = Ok n ->
  let id := fresh (dom (bodies w)) in
  let bs0 := launched CS2_PHYSICS w x y z pitch yaw throw_type in
  let w' := (simulate_throw CS2_PHYSICS [x; y; z] pitch yaw throw_type
               max_time w).2 in
  let k := (steps_taken (trace w') - steps_taken (trace w))%nat in
  (k <= Z.to_nat n)%nat
  /\ ((k < Z.to_nat n)%nat -> at_rest CS2_PHYSICS bs0 id (k - 1) = true)
  /\ ((forall i : nat, (i < Z.to_nat n)%nat ->
                       at_rest CS2_PHYSICS bs0 id i = false) ->
      k = Z.to_nat n).
Proof.
  intros Hn id bs0 w' k.
  assert (Hk : k = run_length (at_rest CS2_PHYSICS bs0 id) 0 (Z.to_nat n)).
  { subst k w'. rewrite (simulate_throw_world w x y z _ _ _ _ n Hn).
    destruct (world_at_return_counts CS2_PHYSICS w x y z pitch yaw throw_type
                (iterations (at_rest CS2_PHYSICS bs0 id) (Z.to_nat n)))
      as (Hs & _).
    fold id bs0. rewrite Hs, iterations_run_length. lia. }
  rewrite Hk. split; [ apply run_length_le | ]. split.
  - intros Hlt. apply (run_length_early _ _ 0) in Hlt. exact Hlt.
  - intros Hall. apply run_length_full. intros i Hi. apply Hall. lia.
Qed.

(** C7 (as amended). The loop exits early exactly when, in an iteration
    [i] (counted from 0), the speed is below [10 * meters_per_unit] and
    [i > 50], that is when at least 52 steps have been taken: an
    iteration in which both hold is the last one, and a loop that stops
    before its budget is used up stopped in such an iteration. *)
Theorem simulation_loop_early_exit (w : World)
  (x y z pitch yaw : float) (throw_type : ThrowType) (max_time : float)
  (n : Z) :
  py_int (max_time / time_step CS2_PHYSICS) = Ok n ->
  let id := fresh (dom (bodies w)) in
  let bs0 := launched CS2_PHYSICS w x y z pitch yaw throw_type in
  let w' := (simulate_throw CS2_PHYSICS [x; y; z] pitch yaw throw_type
               max_time w).2 in
  let k := (steps_taken (trace w') - steps_taken (trace w))%nat in
  (forall i : nat,
     (i < k)%nat ->
     (speed_in_iteration bs0 id i <? 10 * meters_per_unit CS2_PHYSICS)%float
     = true ->
     (50 < i)%nat ->
     k = S i)
  /\ ((k < Z.to_nat n)%nat ->
      (speed_in_iteration bs0 id (k - 1)
       <? 10 * meters_per_unit CS2_PHYSICS)%float = true
      /\ (50 < k - 1)%nat).
Proof.
  intros Hn id bs0 w' k.
  assert (Hk : k = run_length (at_rest CS2_PHYSICS bs0 id) 0 (Z.to_nat n)).
  { subst k w'. rewrite (simulate_throw_world w x y z _ _ _ _ n Hn).
    destruct (world_at_return_counts CS2_PHYSICS w x y z pitch yaw throw_type
                (iterations (at_rest CS2_PHYSICS bs0 id) (Z.to_nat n)))
      as (Hs & _).
    fold id bs0. rewrite Hs, iterations_run_length. lia. }
  rewrite Hk. split.
  - intros i Hi Hspeed Hsteps.
    apply (run_length_last (at_rest CS2_PHYSICS bs0 id) (Z.to_nat n) 0 i);
      [ lia | exact Hi | ].
    unfold at_rest. rewrite Hspeed. apply Nat.ltb_lt in Hsteps.
    rewrite Hsteps. reflexivity.
  - intros Hlt. apply (run_length_early _ _ 0) in Hlt.
    unfold at_rest in Hlt. cbn [Nat.add] in Hlt.
    apply andb_true_iff in Hlt as [Hspeed Hsteps].
    split; [ exact Hspeed | apply Nat.ltb_lt, Hsteps ].
Qed.

Lemma get_throw_speed_unknown (throw_type : ThrowType) :
  throw_speeds CS2_PHYSICS !! throw_type = None ->
  get_throw_speed CS2_PHYSICS throw_type = 900%float.
Proof. intros Hmiss. unfold get_throw_speed. rewrite Hmiss. reflexivity. Qed.

Lemma get_throw_speed_with (throw_type : ThrowType) (v : float) :
  get_throw_speed (with_throw_speed CS2_PHYSICS throw_type v) throw_type = v.
Proof.
  unfold get_throw_speed, with_throw_speed. cbn [throw_speeds].
  rewrite lookup_insert_eq. reflexivity.
Qed.

Lemma simulate_throw_unknown_as_900 (start_pos : list float)
  (pitch yaw : float) (throw_type : ThrowType) (max_time : float) :
  throw_speeds CS2_PHYSICS !! throw_type = None ->
  simulate_throw CS2_PHYSICS start_pos pitch yaw throw_type max_time
  = simulate_throw (with_throw_speed CS2_PHYSICS throw_type 900)
      start_pos pitch yaw throw_type max_time.
Proof.
  intros Hmiss. unfold simulate_throw.
  rewrite get_throw_speed_with, (get_throw_speed_unknown _ Hmiss).
  reflexivity.
Qed.

(** C9 (as amended). A throw type with no entry in the speed table is not
    rejected: [get_throw_speed] answers 900.0 for it, [simulate_throw]
    does exactly what it does on the table with that entry added, and
    with a budget of at least one time step, on an engine that does not
    fail, it runs the simulation and returns a trajectory. *)
Theorem unknown_throw_type_defaults_to_900 (w : World)
  (x y z pitch yaw : float) (throw_type : ThrowType) (max_time : float)
  (n : Z) :
  throw_speeds CS2_PHYSICS !! throw_type = None ->
  py_int (max_time / time_step CS2_PHYSICS) = Ok n ->
  (0 < n)%Z ->
  get_throw_speed CS2_PHYSICS throw_type = 900%float
  /\ simulate_throw CS2_PHYSICS [x; y; z] pitch yaw throw_type max_time w
     = simulate_throw (with_throw_speed CS2_PHYSICS throw_type 900)
         [x; y; z] pitch yaw throw_type max_time w
  /\ exists (trajectory : list (list float)) (info : Info) (w' : World),
       simulate_throw CS2_PHYSICS [x; y; z] pitch yaw throw_type max_time w
       = (Ok (trajectory, info), w')
       /\ (0 < trajectory_points info)%nat
       /\ steps_taken (trace w')
          = (trajectory_points info + steps_taken (trace w))%nat.
Proof.
  intros Hmiss Hn Hpos.
  split; [ apply get_throw_speed_unknown, Hmiss | ].
  split; [ rewrite (simulate_throw_unknown_as_900 _ _ _ _ _ Hmiss);
           reflexivity | ].
  pose proof (simulate_throw_run w x y z pitch yaw
                throw_type max_time n Hn) as Hrun.
  cbn zeta in Hrun.
  set (k := iterations _ _) in Hrun.
  assert (Hk : (0 < k)%nat).
  { subst k. rewrite iterations_run_length. apply run_length_pos. lia. }
  destruct k as [|j] eqn:Ek; [ lia | ].
  destruct Hrun as (traj & info & Hrun & _ & Hpts & _).
  eexists traj, info, _. split; [ exact Hrun | ].
  rewrite Hpts. split; [ lia | ].
  destruct (world_at_return_counts CS2_PHYSICS w x y z pitch yaw throw_type (S j))
    as (Hs & _).
  exact Hs.
Qed.

End RunFacts.
(** ** Sorting and slicing *)

Section SortFacts.

Lemma insert_by_accuracy_Forall (P : SmokePosition.t -> Prop)
  (s : SmokePosition.t) (l : list SmokePosition.t) :
  P s -> Forall P l -> Forall P (insert_by_accuracy s l).
Proof.
  intros Hs Hl. induction Hl as [|s' l Hs' Hl IH]; simpl.
  - repeat constructor; exact Hs.
  - destruct (_ <? _)%float; repeat constructor; assumption.
Qed.

Lemma sort_by_accuracy_Forall (P : SmokePosition.t -> Prop)
  (l : list SmokePosition.t) :
  Forall P l -> Forall P (sort_by_accuracy l).
Proof.
  unfold sort_by_accuracy. induction 1 as [|s l Hs Hl IH]; simpl.
  - constructor.
  - apply insert_by_accuracy_Forall; assumption.
Qed.




Lemma slice_to_Forall {T} (P : T -> Prop) (l : list T) (k : Z) :
  Forall P l -> Forall P (slice_to l k).
Proof. intros Hl. unfold slice_to. destruct (0 <=? k)%Z; apply Forall_take, Hl. Qed.



End SortFacts.

(** ** The grid search *)

Section GridFacts.
Context {np : NumPy}.
Variable St : Type.
Variable physics_simulate_throw :
  list float -> float -> float -> ThrowType -> float ->
  M St (list (list float) * Info).
Local Open Scope float_scope.






(** The search as a loop over the abscissas [np.arange] returned, or
    the exception it raised. *)
Lemma grid_search_unfold (tx ty tz : float) (throw_type : ThrowType)
  (max_results : Z) (s : St) :
  _grid_search St physics_simulate_throw SmokeFinder_init [tx; ty; tz]
    throw_type max_results s
  = match np_arange (tx - 500) (tx + 500) 100 with
    | Ok xs =>
        match for_each xs
                (grid_row St physics_simulate_throw SmokeFinder_init
                   [tx; ty; tz] [tx; ty; 72] throw_type) [] s with
        | (Ok found, s') =>
            (Ok (slice_to (sort_by_accuracy found) max_results), s')
        | (Raise e, s') => (Raise e, s')
        end
    | Raise e => (Raise e, s)
    end.
Proof.
  unfold _grid_search.
  cbn [setitem length Nat.ltb Nat.leb lift list_insert insert].
  erewrite bind_ok by reflexivity.
  cbn [getitem lookup list_lookup lift search_radius grid_step
         SmokeFinder_init].
  erewrite bind_ok by reflexivity.
  destruct (np_arange (tx - 500) (tx + 500) 100) as [xs|e].
  - erewrite bind_ok by reflexivity. unfold bind, ret.
    destruct (for_each xs _ [] s) as [[found|e] s']; reflexivity.
  - erewrite bind_raise by reflexivity. reflexivity.
Qed.




End GridFacts.

Section SpyFacts.
Context {np : NumPy}.
Variable answer : Candidate -> Res (list (list float) * Info).
Local Open Scope float_scope.

(** Whatever the recorded call answers, the candidate adds that one call
    to the record. *)
Lemma try_candidate_calls (target_pos throw_pos : list float)
  (base_yaw : float) (throw_type : ThrowType) (pitch : float)
  (solutions : list SmokePosition.t) (calls : list Candidate) :
  exists solutions' : list SmokePosition.t,
    try_candidate (list Candidate) (Spy.simulate_throw answer)
      SmokeFinder_init target_pos throw_pos base_yaw throw_type pitch
      solutions calls
    = (Ok solutions',
       calls ++ [(throw_pos, pitch, base_yaw, throw_type, 2.0)]).
Proof.
  unfold try_candidate, try_except_pass, bind, lift, Spy.simulate_throw.
  destruct (answer _) as [[trajectory info]|e]; [ | eauto ].
  destruct (np_sub _ _) as [diff|e]; [ | eauto ].
  destruct (_ <? _); unfold ret; eauto.
Qed.

Lemma grid_point_calls (tx ty tz : float) (throw_type : ThrowType)
  (x y : float) (solutions : list SmokePosition.t) (calls : list Candidate) :
  exists solutions' : list SmokePosition.t,
    grid_point (list Candidate) (Spy.simulate_throw answer) SmokeFinder_init
      [tx; ty; tz] [tx; ty; 72] throw_type x y solutions calls
    = (Ok solutions',
       calls ++
       map (fun pitch =>
              ([x; y; 72], pitch, np_degrees (np_arctan2 (ty - y) (tx - x)),
               throw_type, 2.0))
         (np_linspace (-20) 60 10)).
Proof.
  unfold grid_point.
  cbn [getitem lookup list_lookup lift np_sub length Nat.eqb zip_with].
  repeat (erewrite bind_ok by reflexivity).
  destruct (for_each_appends
              (fun pitch =>
                 [([x; y; 72], pitch,
                   np_degrees (np_arctan2 (ty - y) (tx - x)),
                   throw_type, 2.0)])
              (try_candidate (list Candidate) (Spy.simulate_throw answer)
                 SmokeFinder_init [tx; ty; tz] [x; y; 72]
                 (np_degrees (np_arctan2 (ty - y) (tx - x))) throw_type)
              (np_linspace (-20) 60 10)
              (fun pitch acc log =>
                 try_candidate_calls [tx; ty; tz] [x; y; 72] _ throw_type
                   pitch acc log)
              solutions calls) as (solutions' & Hrun).
  exists solutions'. rewrite <- flat_map_singleton. exact Hrun.
Qed.

(** C4 (as amended). Run on a [physics] object that records the calls of
    [simulate_throw] it receives, and whatever the calls answer (a
    result or an exception): when [np.arange] finds a length for each
    axis, the length being [ceil(((centre + 500) - (centre - 500)) / 100)]
    with every operation rounded to binary64, the grid search returns
    and has made exactly the calls of [grid_candidates], in that order.
    The centre is the target with height 72; [x] and [y] each take
    that many values [centre - 500], [centre - 500 + 100], ..., as
    [arange_values] computes them, the throw position keeping the
    centre's height; the yaw is [degrees(atan2(dy, dx))] from the grid
    point to the target; the pitch runs over [np.linspace(-20, 60, 10)];
    every call has a time budget of 2 seconds. The length is 10 on a
    centre like 500, where the axis is the specification's half-open
    interval; it is 11, the last value being [centre + 500] itself, on
    a centre like 524.4. *)
Theorem grid_search_enumerates_the_candidates
  (tx ty tz : float) (throw_type : ThrowType) (max_results : Z)
  (nx ny : nat) (calls : list Candidate) :
  arange_length (tx - 500) (tx + 500) 100 = Ok nx ->
  arange_length (ty - 500) (ty + 500) 100 = Ok ny ->
  exists solutions : list SmokePosition.t,
    _grid_search (list Candidate) (Spy.simulate_throw answer)
      SmokeFinder_init [tx; ty; tz] throw_type max_results calls
    = (Ok solutions,
       calls ++
       grid_candidates (arange_values (tx - 500) 100 nx)
         (arange_values (ty - 500) 100 ny) tx ty throw_type).
Proof.
  intros Hnx Hny.
  assert (Hxs : np_arange (tx - 500) (tx + 500) 100
                = Ok (arange_values (tx - 500) 100 nx))
    by (unfold np_arange; rewrite Hnx; reflexivity).
  assert (Hys : np_arange (ty - 500) (ty + 500) 100
                = Ok (arange_values (ty - 500) 100 ny))
    by (unfold np_arange; rewrite Hny; reflexivity).
  rewrite grid_search_unfold, Hxs.
  assert (Hrow : forall (x : float) (acc : list SmokePosition.t)
                        (log : list Candidate),
    exists acc' : list SmokePosition.t,
      grid_row (list Candidate) (Spy.simulate_throw answer) SmokeFinder_init
        [tx; ty; tz] [tx; ty; 72] throw_type x acc log
      = (Ok acc',
         log ++
         flat_map (fun y =>
           map (fun pitch =>
                  ([x; y; 72], pitch,
                   np_degrees (np_arctan2 (ty - y) (tx - x)),
                   throw_type, 2.0))
             (np_linspace (-20) 60 10))
           (arange_values (ty - 500) 100 ny))).
  { intros x acc log. unfold grid_row.
    cbn [getitem lookup list_lookup lift search_radius grid_step
           SmokeFinder_init].
    erewrite bind_ok by reflexivity.
    erewrite bind_ok by (rewrite Hys; reflexivity).
    apply for_each_appends. intros y acc0 log0.
    apply grid_point_calls. }
  destruct (for_each_appends _ _ (arange_values (tx - 500) 100 nx)
              Hrow [] calls) as (found & Hrun).
  rewrite Hrun. eexists. reflexivity.
Qed.

End SpyFacts.
Section KeepFacts.
Context {St A B : Type}.
Variable P : St -> Prop.

Lemma keeps_ret (a : A) : keeps P (ret a).
Proof. intros w Hw. exact Hw. Qed.

Lemma keeps_lift (r : Res A) : keeps P (lift r).
Proof. intros w Hw. exact Hw. Qed.

Lemma keeps_bind (c : M St A) (k : A -> M St B) :
  keeps P c -> (forall a, keeps P (k a)) -> keeps P (bind c k).
Proof.
  intros Hc Hk w Hw. unfold bind. specialize (Hc w Hw).
  destruct (c w) as [[a|e] w1]; cbn [snd] in Hc.
  - apply Hk, Hc.
  - exact Hc.
Qed.

End KeepFacts.

Lemma keeps_for_loop {St X S} (P : St -> Prop) (xs : list X)
  (body : X -> S -> M St (Ctl * S)) :
  (forall x s, keeps P (body x s)) -> forall s, keeps P (for_loop xs body s).
Proof.
  intros Hbody. induction xs as [|x xs IH]; intros s; simpl.
  - apply keeps_ret.
  - apply keeps_bind; [ apply Hbody | ].
    intros [[] s']; [ apply IH | apply keeps_ret ].
Qed.

Lemma keeps_for_each {St X S} (P : St -> Prop) (xs : list X)
  (body : X -> S -> M St S) :
  (forall x s, keeps P (body x s)) -> forall s, keeps P (for_each xs body s).
Proof.
  intros Hbody. induction xs as [|x xs IH]; intros s; simpl.
  - apply keeps_ret.
  - apply keeps_bind; [ apply Hbody | exact IH ].
Qed.

Lemma keeps_try_except_pass {St S} (P : St -> Prop) (body : M St S)
  (unchanged : S) :
  keeps P body -> keeps P (try_except_pass body unchanged).
Proof.
  intros Hbody w Hw. unfold try_except_pass. specialize (Hbody w Hw).
  destruct (body w) as [[r|e] w1]; exact Hbody.
Qed.

Section SurviveFacts.
Context {engine : Bullet}.

Lemma survives_refl (m : gmap nat Body) : survives m m.
Proof. intros i a Ha. exists a. auto. Qed.

Lemma survives_trans (m1 m2 m3 : gmap nat Body) :
  survives m1 m2 -> survives m2 m3 -> survives m1 m3.
Proof.
  intros H12 H23 i a Ha.
  destruct (H12 i a Ha) as (b & Hb & Hmb & Hsb).
  destruct (H23 i b Hb) as (c & Hc & Hmc & Hsc).
  exists c. split; [ exact Hc | ]. split; [ congruence | ].
  intros Hs. rewrite <- (Hsb Hs). apply Hsc.
  rewrite (Hsb Hs). exact Hs.
Qed.

Lemma survives_advance_all (m : gmap nat Body) : survives m (advance_all m).
Proof.
  intros i a Ha. rewrite advance_all_lookup, Ha.
  cbn [fmap option_fmap option_map].
  eexists. split; [ reflexivity | ].
  destruct (is_static a) eqn:Hs;
    (split; [ reflexivity | intros Hf ]);
    first [ reflexivity | discriminate Hf ].
Qed.

Lemma survives_insert_new (m m' : gmap nat Body) (g : nat) (b : Body) :
  m !! g = None -> survives m m' -> survives m (<[g := b]> m').
Proof.
  intros Hg Hs i a Ha.
  assert (g <> i) by congruence.
  rewrite lookup_insert_ne by assumption. apply Hs, Ha.
Qed.

Lemma survives_delete_new (m m' : gmap nat Body) (g : nat) :
  m !! g = None -> survives m m' -> survives m (delete g m').
Proof.
  intros Hg Hs i a Ha.
  assert (g <> i) by congruence.
  rewrite lookup_delete_ne by assumption. apply Hs, Ha.
Qed.

Variables (w0 : World) (g : nat).
Hypothesis g_new : bodies w0 !! g = None.

Lemma keeps_call (c : Call) : keeps (within w0 g) (call c).
Proof.
  intros w Hw. unfold call. destruct (bullet_fault c w); exact Hw.
Qed.

Lemma keeps_update_body (f : Body -> Body) :
  keeps (within w0 g) (update_body g f).
Proof.
  intros w [Hs Hd]. unfold update_body.
  destruct (bodies w !! g) as [b|] eqn:Hb; [ | split; assumption ].
  split; cbn [snd set_bodies bodies].
  - apply survives_insert_new; assumption.
  - rewrite dom_insert_L. apply union_subseteq. split; [ | exact Hd ].
    apply union_subseteq_r.
Qed.

Lemma keeps_stepSimulation : keeps (within w0 g) stepSimulation.
Proof.
  apply keeps_bind; [ apply keeps_call | ].
  intros _ w [Hs Hd]. split; cbn [snd set_bodies bodies].
  - eapply survives_trans; [ exact Hs | apply survives_advance_all ].
  - assert (Hdom : dom (advance_all (bodies w)) = dom (bodies w)).
    { apply set_eq. intros i. rewrite !elem_of_dom, advance_all_lookup.
      unfold is_Some. destruct (bodies w !! i); cbn; split; intros [x Hx];
        try discriminate; eauto. }
    rewrite Hdom. exact Hd.
Qed.

Lemma keeps_query {X} (c : Call) (f : Body -> X) :
  keeps (within w0 g) (bind (call c) (fun _ => query g f)).
Proof.
  apply keeps_bind; [ apply keeps_call | ].
  intros _ w Hw. unfold query. destruct (bodies w !! g); exact Hw.
Qed.

Lemma keeps_removeBody : keeps (within w0 g) (removeBody g).
Proof.
  apply keeps_bind; [ apply keeps_call | ].
  intros _ w [Hs Hd]. split; cbn [snd set_bodies bodies].
  - apply survives_delete_new; assumption.
  - rewrite dom_delete_L. etransitivity; [ | exact Hd ].
    apply subseteq_difference_l. reflexivity.
Qed.

End SurviveFacts.

Lemma hoare_bind {A B} (P : World -> Prop) (c : M World A)
  (k : A -> M World B) (Q : A -> World -> Prop) (Q' : B -> World -> Prop)
  (R : World -> Prop) :
  hoare P c Q R -> (forall a, hoare (Q a) (k a) Q' R) ->
  hoare P (bind c k) Q' R.
Proof.
  intros Hc Hk w Hw. unfold bind. specialize (Hc w Hw).
  destruct (c w) as [[a|e] w1]; [ apply Hk, Hc | exact Hc ].
Qed.

Lemma hoare_keeps {A} (P : World -> Prop) (c : M World A) :
  keeps P c -> hoare P c (fun _ => P) P.
Proof.
  intros Hc w Hw. specialize (Hc w Hw).
  destruct (c w) as [[a|e] w1]; exact Hc.
Qed.

Lemma hoare_snd {A} (P : World -> Prop) (c : M World A) (R : World -> Prop) :
  hoare P c (fun _ => R) R -> forall w, P w -> R (c w).2.
Proof.
  intros Hc w Hw. specialize (Hc w Hw).
  destruct (c w) as [[a|e] w1]; exact Hc.
Qed.

Section ThrowInvariant.
Context {np : NumPy} {engine : Bullet}.
Variable CS2_PHYSICS : PhysicsConfig.
Variable w0 : World.

Let g : nat := fresh (dom (bodies w0)).

Lemma fresh_body_new : bodies w0 !! g = None.
Proof. apply not_elem_of_dom, is_fresh. Qed.

Lemma untouched_within (w : World) : untouched w0 w -> within w0 g w.
Proof.
  intros Hw. unfold within. rewrite Hw. split.
  - apply survives_refl.
  - apply union_subseteq_l.
Qed.

Lemma hoare_new_shape_call (c : Call) :
  hoare (untouched w0) (bind (call c) (fun _ => new_shape))
    (fun _ => untouched w0) (within w0 g).
Proof.
  intros w Hw. unfold bind, call.
  destruct (bullet_fault c w); [ apply untouched_within, Hw | exact Hw ].
Qed.

Lemma hoare_createMultiBody (mass : float) (collision visual : nat)
  (position : list float) :
  hoare (untouched w0) (createMultiBody mass collision visual position)
    (fun id w' => id = g /\ within w0 g w') (within w0 g).
Proof.
  intros w Hw. unfold createMultiBody.
  destruct position as [|x [|y [|z [|]]]];
    try (apply untouched_within, Hw).
  unfold bind, call. rewrite Hw. fold g.
  destruct (bullet_fault (CreateMultiBody g) w);
    [ apply untouched_within, Hw | ].
  split; [ reflexivity | ].
  split; cbn [set_bodies bodies log]; rewrite Hw.
  - apply survives_insert_new; [ apply fresh_body_new | apply survives_refl ].
  - rewrite dom_insert_L. apply union_subseteq. split.
    + apply union_subseteq_r.
    + apply union_subseteq_l.
Qed.

Lemma keeps_loop_body (step : nat) (st : LoopState) :
  keeps (within w0 g) (loop_body CS2_PHYSICS g step st).
Proof.
  unfold loop_body.
  apply keeps_bind; [ apply keeps_stepSimulation | intros _ ].
  apply keeps_bind; [ apply keeps_query | intros pos ].
  apply keeps_bind; [ apply keeps_lift | intros pos_cs2 ].
  apply keeps_bind; [ apply keeps_query | intros vel ].
  match goal with |- keeps _ (if ?c then _ else _) => destruct c end;
    apply keeps_ret.
Qed.

Lemma simulate_throw_within (start_pos : list float) (pitch yaw : float)
  (throw_type : ThrowType) (max_time : float) :
  within w0 g
    (simulate_throw CS2_PHYSICS start_pos pitch yaw throw_type max_time w0).2.
Proof.
  apply (hoare_snd (untouched w0)); [ | reflexivity ].
  unfold simulate_throw.
  eapply hoare_bind.
  { intros w Hw. unfold lift.
    destruct (convert_cs2_to_bullet CS2_PHYSICS start_pos);
      [ exact Hw | apply untouched_within, Hw ]. }
  intros start_bullet.
  eapply hoare_bind; [ apply hoare_new_shape_call | intros shape ].
  eapply hoare_bind; [ apply hoare_new_shape_call | intros visual ].
  eapply hoare_bind; [ apply hoare_createMultiBody | intros id ].
  intros w [-> Hw]. revert w Hw. apply hoare_keeps.
  apply keeps_bind.
  { apply keeps_bind; [ apply keeps_call | intros _ ].
    apply keeps_update_body, fresh_body_new. }
  intros _. apply keeps_bind.
  { apply keeps_bind; [ apply keeps_call | intros _ ].
    apply keeps_update_body, fresh_body_new. }
  intros _. apply keeps_bind; [ apply keeps_lift | intros num_steps ].
  apply keeps_bind; [ apply keeps_for_loop, keeps_loop_body | intros st ].
  apply keeps_bind; [ apply keeps_query | intros pos ].
  apply keeps_bind; [ apply keeps_lift | intros pos_cs2 ].
  apply keeps_bind; [ apply keeps_query | intros vel ].
  apply keeps_bind; [ apply keeps_removeBody, fresh_body_new | intros _ ].
  apply keeps_bind; [ apply keeps_lift | intros step ].
  apply keeps_ret.
Qed.

End ThrowInvariant.

Section ResultShape.
Context {np : NumPy} {engine : Bullet}.
Variable CS2_PHYSICS : PhysicsConfig.
Variable g : nat.

Lemma hoare_loop_body (a : nat) (st : LoopState) :
  hoare (loop_invariant CS2_PHYSICS g a st) (loop_body CS2_PHYSICS g a st)
    (fun r w' => loop_invariant CS2_PHYSICS g (S a) r.2 w') (fun _ => True).
Proof.
  intros w (Hlen & Hall & Hb & Hstep & Hlast).
  unfold loop_body, stepSimulation, getBasePositionAndOrientation,
    getBaseVelocity, query, bind, call, lift.
  destruct (bullet_fault StepSimulation w); [ exact I | ].
  cbn [set_bodies log bodies shapes trace].
  match goal with
  | |- context [bullet_fault (GetBasePositionAndOrientation g) ?w1] =>
      destruct (bullet_fault (GetBasePositionAndOrientation g) w1)
  end; [ exact I | ].
  cbn [set_bodies log bodies shapes trace].
  destruct (advance_all (bodies w) !! g) as [b|] eqn:Hg; [ | exact I ].
  destruct (basePosition b) as [[px py] pz] eqn:Hp.
  cbn [tolist convert_bullet_to_cs2].
  match goal with
  | |- context [bullet_fault (GetBaseVelocity g) ?w1] =>
      destruct (bullet_fault (GetBaseVelocity g) w1)
  end; [ exact I | ].
  cbn [set_bodies log bodies shapes trace]. rewrite Hg.
  match goal with
  | |- context [if ?c then ret (Break, ?s) else ret (Continue, _)] =>
      assert (Hs : loop_invariant CS2_PHYSICS g (S a) s
                     (log (GetBaseVelocity g)
                        (log (GetBasePositionAndOrientation g)
                           (set_bodies (advance_all (bodies w))
                              (log StepSimulation w)))));
      [ | destruct c; exact Hs ]
  end.
  unfold loop_invariant.
  cbn [ls_trajectory_cs2 ls_bounces ls_step log set_bodies bodies].
  split; [ rewrite length_app, Hlen; simpl; lia | ].
  split.
  { apply Forall_app. split; [ exact Hall | ].
    constructor; [ reflexivity | constructor ]. }
  split.
  { match goal with |- context [if ?c then _ else _] => destruct c end; lia. }
  split; [ reflexivity | ].
  intros _. exists b. split; [ exact Hg | ].
  rewrite last_snoc. unfold sample_of. rewrite Hp. reflexivity.
Qed.

Lemma hoare_loop (n : nat) :
  forall (a : nat) (st : LoopState),
    hoare (loop_invariant CS2_PHYSICS g a st)
      (for_loop (seq a n) (loop_body CS2_PHYSICS g) st)
      (fun st' w' => exists a', (a <= a' <= a + n)%nat
                                /\ loop_invariant CS2_PHYSICS g a' st' w')
      (fun _ => True).
Proof.
  induction n as [|n IH]; intros a st; simpl.
  - intros w Hw. exists a. split; [ lia | exact Hw ].
  - eapply hoare_bind; [ apply hoare_loop_body | ].
    intros [[] st1]; cbn [snd].
    + intros w Hw. specialize (IH (S a) st1 w Hw).
      destruct (for_loop _ _ _ w) as [[st2|e] w2]; [ | exact I ].
      destruct IH as (a' & Ha' & Hinv). exists a'. split; [ lia | exact Hinv ].
    + intros w Hw. exists (S a). split; [ lia | exact Hw ].
Qed.

Lemma hoare_any {A} (c : M World A) :
  hoare (fun _ => True) c (fun _ _ => True) (fun _ => True).
Proof. intros w _. destruct (c w) as [[a|e] w']; exact I. Qed.

End ResultShape.

Section ResultShapeOfThrow.
Context {np : NumPy} {engine : Bullet}.
Variable CS2_PHYSICS : PhysicsConfig.

(** Whatever the engine does: a result that [simulate_throw] returns is
    well formed. *)
Lemma simulate_throw_returns_well_formed (start_pos : list float)
  (pitch yaw : float) (throw_type : ThrowType) (max_time : float) :
  hoare (fun _ => True)
    (simulate_throw CS2_PHYSICS start_pos pitch yaw throw_type max_time)
    (fun r _ => well_formed_result CS2_PHYSICS r.1 r.2) (fun _ => True).
Proof.
  unfold simulate_throw.
  eapply hoare_bind; [ apply hoare_any | intros start_bullet; cbn beta ].
  eapply hoare_bind; [ apply hoare_any | intros shape; cbn beta ].
  eapply hoare_bind; [ apply hoare_any | intros visual; cbn beta ].
  eapply hoare_bind; [ apply hoare_any | intros id; cbn beta ].
  eapply hoare_bind; [ apply hoare_any | intros ?; cbn beta ].
  eapply hoare_bind; [ apply hoare_any | intros ?; cbn beta ].
  eapply hoare_bind; [ apply hoare_any | intros num_steps; cbn beta ].
  eapply hoare_bind.
  { intros w _. apply (hoare_loop CS2_PHYSICS id (Z.to_nat num_steps) 0).
    unfold loop_invariant. cbn [ls_trajectory_cs2 ls_bounces ls_step length].
    split; [ reflexivity | ]. split; [ constructor | ].
    split; [ lia | ]. split; [ reflexivity | ].
    intros H. contradiction H. reflexivity. }
  intros st w (k & _ & Hlen & Hall & Hb & Hstep & Hlast).
  unfold getBasePositionAndOrientation, getBaseVelocity, removeBody, query,
    bind, call, lift, ret.
  destruct (bullet_fault (GetBasePositionAndOrientation id) w); [ exact I | ].
  cbn [set_bodies log bodies shapes trace].
  destruct (bodies w !! id) as [b|] eqn:Hid; [ | exact I ].
  destruct (basePosition b) as [[px py] pz] eqn:Hp.
  cbn [tolist convert_bullet_to_cs2].
  match goal with
  | |- context [bullet_fault (GetBaseVelocity id) ?w1] =>
      destruct (bullet_fault (GetBaseVelocity id) w1)
  end; [ exact I | ].
  cbn [set_bodies log bodies shapes trace]. rewrite Hid.
  match goal with
  | |- context [bullet_fault (RemoveBody id) ?w1] =>
      destruct (bullet_fault (RemoveBody id) w1)
  end; [ exact I | ].
  destruct (ls_step st) as [step|] eqn:Hst; [ | exact I ].
  destruct k as [|j]; [ discriminate Hstep | ].
  injection Hstep as <-.
  destruct Hlast as (b' & Hb' & Hlast); [ discriminate | ].
  assert (b' = b) by congruence. subst b'.
  unfold well_formed_result.
  cbn [fst snd trajectory_points final_position bounces simulation_time].
  rewrite Hlen. repeat split; try assumption; try lia.
  - rewrite Hlast. unfold sample_of. rewrite Hp. reflexivity.
  - replace (S step - 1)%nat with step by lia. reflexivity.
Qed.

End ResultShapeOfThrow.

Section MoreLoopFacts.
Context {St A S : Type}.

(** [for_each_invariant] with the body's obligation restricted to the
    elements of the list. *)
Lemma for_each_invariant_In (P : S -> Prop) (body : A -> S -> M St S)
  (xs : list A) :
  (forall (x : A) (acc : S) (s : St),
      In x xs -> P acc ->
      exists (acc' : S) (s' : St), body x acc s = (Ok acc', s') /\ P acc') ->
  forall (acc : S) (s : St),
    P acc ->
    exists (acc' : S) (s' : St),
      for_each xs body acc s = (Ok acc', s') /\ P acc'.
Proof.
  induction xs as [|x xs IH]; intros Hbody acc s Hacc; simpl.
  - exists acc, s. split; [ reflexivity | exact Hacc ].
  - destruct (Hbody x acc s (or_introl eq_refl) Hacc)
      as (acc1 & s1 & Hrun & Hacc1).
    rewrite (bind_ok _ _ _ _ _ Hrun). apply IH; [ | exact Hacc1 ].
    intros x' acc' s' Hin. apply Hbody. right. exact Hin.
Qed.

End MoreLoopFacts.

Section FinderFacts.
Context {np : NumPy}.
Variable St : Type.
Variable physics_simulate_throw :
  list float -> float -> float -> ThrowType -> float ->
  M St (list (list float) * Info).
Variable self : SmokeFinder.
Local Open Scope float_scope.


(** ** What the search keeps of the store *)

Section Keeps.
Variable P : St -> Prop.
(** The search calls [simulate_throw] with a budget of two seconds. *)
Hypothesis physics_keeps :
  forall (start_pos : list float) (pitch yaw : float)
         (throw_type : ThrowType),
    keeps P (physics_simulate_throw start_pos pitch yaw throw_type 2.0).

Lemma keeps_try_candidate (target_pos throw_pos : list float)
  (base_yaw : float) (throw_type : ThrowType) (pitch : float)
  (solutions : list SmokePosition.t) :
  keeps P
    (try_candidate St physics_simulate_throw self target_pos throw_pos
       base_yaw throw_type pitch solutions).
Proof.
  unfold try_candidate. apply keeps_try_except_pass.
  apply keeps_bind; [ apply physics_keeps | intros [trajectory info] ].
  apply keeps_bind; [ apply keeps_lift | intros diff ].
  destruct (_ <? _); apply keeps_ret.
Qed.

Lemma keeps_grid_search (target_pos : list float) (throw_type : ThrowType)
  (max_results : Z) :
  keeps P
    (_grid_search St physics_simulate_throw self target_pos throw_type
       max_results).
Proof.
  unfold _grid_search.
  apply keeps_bind; [ apply keeps_lift | intros center ].
  apply keeps_bind; [ apply keeps_lift | intros c0 ].
  apply keeps_bind; [ apply keeps_lift | intros xs ].
  apply keeps_bind; [ | intros found; apply keeps_ret ].
  apply keeps_for_each. intros x solutions.
  unfold grid_row.
  apply keeps_bind; [ apply keeps_lift | intros c1 ].
  apply keeps_bind; [ apply keeps_lift | intros ys ].
  apply keeps_for_each. intros y solutions1.
  unfold grid_point.
  apply keeps_bind; [ apply keeps_lift | intros c2 ].
  apply keeps_bind; [ apply keeps_lift | intros delta ].
  apply keeps_bind; [ apply keeps_lift | intros d1 ].
  apply keeps_bind; [ apply keeps_lift | intros d0 ].
  apply keeps_for_each. intros pitch solutions2.
  apply keeps_try_candidate.
Qed.

Lemma keeps_find_smokes (target_pos : list float) (throw_type : ThrowType)
  (strategy : SearchStrategy) (max_results : Z) :
  keeps P
    (find_smokes St physics_simulate_throw self target_pos throw_type
       strategy max_results).
Proof.
  unfold find_smokes.
  apply keeps_bind; [ | intros solutions; apply keeps_ret ].
  destruct strategy; apply keeps_grid_search.
Qed.

End Keeps.

(** ** Where the solutions come from *)

Lemma try_candidate_from_the_grid (xs ys : list float)
  (tx ty tz x y : float) (throw_type : ThrowType) (pitch : float)
  (solutions : list SmokePosition.t) (s : St) :
  In x xs ->
  In y ys ->
  In pitch (np_linspace (-20) 60 10) ->
  Forall (from_the_grid xs ys tx ty tz throw_type) solutions ->
  exists (solutions' : list SmokePosition.t) (s' : St),
    try_candidate St physics_simulate_throw self [tx; ty; tz] [x; y; 72]
      (np_degrees (np_arctan2 (ty - y) (tx - x))) throw_type pitch solutions s
    = (Ok solutions', s')
    /\ Forall (from_the_grid xs ys tx ty tz throw_type) solutions'.
Proof.
  intros Hx Hy Hp Hsol.
  unfold try_candidate, try_except_pass, bind, lift.
  destruct (physics_simulate_throw _ _ _ _ _ s)
    as [[[trajectory info]|e] s1]; [ | eauto ].
  destruct (np_sub (final_position info) [tx; ty; tz]) as [diff|e];
    [ | eauto ].
  destruct (_ <? _); unfold ret; [ | eauto ].
  eexists _, _. split; [ reflexivity | ].
  apply Forall_app. split; [ exact Hsol | ].
  constructor; [ | constructor ].
  exists x, y, pitch. cbn. repeat split; assumption.
Qed.

(** On the axes [np.arange] returned the search returns, and what it
    found comes from their grid. *)
Lemma grid_search_from_the_grid (xs ys : list float) (tx ty tz : float)
  (throw_type : ThrowType) (s : St) :
  np_arange (tx - search_radius self) (tx + search_radius self)
    (grid_step self) = Ok xs ->
  np_arange (ty - search_radius self) (ty + search_radius self)
    (grid_step self) = Ok ys ->
  exists (found : list SmokePosition.t) (s' : St),
    Forall (from_the_grid xs ys tx ty tz throw_type) found
    /\ forall max_results : Z,
        _grid_search St physics_simulate_throw self [tx; ty; tz] throw_type
          max_results s
        = (Ok (slice_to (sort_by_accuracy found) max_results), s').
Proof.
  intros Hxs Hys. unfold _grid_search.
  cbn [setitem length Nat.ltb Nat.leb lift list_insert insert].
  cbn [getitem lookup list_lookup lift].
  destruct (for_each_invariant_In
              (Forall (from_the_grid xs ys tx ty tz throw_type))
              (grid_row St physics_simulate_throw self [tx; ty; tz]
                 [tx; ty; 72] throw_type) xs)
    with (acc := @nil SmokePosition.t) (s := s)
    as (found & s' & Hrun & Hfound).
  - intros x acc s0 Hx Hacc. unfold grid_row.
    cbn [getitem lookup list_lookup lift].
    erewrite bind_ok by reflexivity.
    erewrite bind_ok by (rewrite Hys; reflexivity).
    apply for_each_invariant_In; [ | exact Hacc ].
    intros y acc1 s1 Hy Hacc1. unfold grid_point.
    cbn [getitem lookup list_lookup lift np_sub length Nat.eqb zip_with].
    repeat (erewrite bind_ok by reflexivity).
    apply for_each_invariant_In; [ | exact Hacc1 ].
    intros pitch acc2 s2 Hp Hacc2.
    apply try_candidate_from_the_grid; assumption.
  - apply List.Forall_nil.
  - exists found, s'. split; [ exact Hfound | ].
    intros k. erewrite bind_ok by reflexivity.
    erewrite bind_ok by reflexivity.
    erewrite bind_ok by (rewrite Hxs; reflexivity).
    erewrite bind_ok by exact Hrun. reflexivity.
Qed.

End FinderFacts.

(** ** More on [simulate_throw] *)

Section ThrowOnAnyEngine.
Context {np : NumPy} {engine : Bullet}.
Variable CS2_PHYSICS : PhysicsConfig.

(** X1. A start position that has not exactly three coordinates is
    rejected with [ValueError] before the engine is asked for anything:
    the world, its log included, is what it was. *)
Theorem simulate_throw_rejects_malformed_start (w : World)
  (start_pos : list float) (pitch yaw : float) (throw_type : ThrowType)
  (max_time : float) :
  length start_pos <> 3%nat ->
  simulate_throw CS2_PHYSICS start_pos pitch yaw throw_type max_time w
  = (Raise ValueError, w).
Proof.
  intros Hlen. unfold simulate_throw.
  apply bind_raise. unfold lift, convert_cs2_to_bullet.
  destruct start_pos as [|x [|y [|z [|t l]]]]; try reflexivity.
  contradiction Hlen. reflexivity.
Qed.

(** X2. On every engine, whichever of its operations fail, with every
    input and however the call ends: each body the world held before
    the call is still there with its mass, each static body exactly as
    it was, and the world holds at most one body more, under the id the
    grenade was given. *)
Theorem simulate_throw_spares_the_other_bodies (w : World)
  (start_pos : list float) (pitch yaw : float) (throw_type : ThrowType)
  (max_time : float) :
  let w' := (simulate_throw CS2_PHYSICS start_pos pitch yaw throw_type
               max_time w).2 in
  survives (bodies w) (bodies w')
  /\ dom (bodies w') ⊆ dom (bodies w) ∪ {[ fresh (dom (bodies w)) ]}.
Proof. apply simulate_throw_within. Qed.

(** X3. On every engine: a result that [simulate_throw] returns is well
    formed. The trajectory has at least one sample, every sample has
    three coordinates, [trajectory_points] is the number of samples, the
    final position is the last sample, the bounce count lies between 0
    and the number of samples, and [simulation_time] is the number of
    samples less one, times the time step. *)
Theorem simulate_throw_result_well_formed (w w' : World)
  (start_pos : list float) (pitch yaw : float) (throw_type : ThrowType)
  (max_time : float) (trajectory : list (list float)) (info : Info) :
  simulate_throw CS2_PHYSICS start_pos pitch yaw throw_type max_time w
  = (Ok (trajectory, info), w') ->
  well_formed_result CS2_PHYSICS trajectory info.
Proof.
  intros Hrun.
  pose proof (simulate_throw_returns_well_formed CS2_PHYSICS start_pos pitch
                yaw throw_type max_time w I) as H.
  rewrite Hrun in H. exact H.
Qed.

End ThrowOnAnyEngine.

Section ThrowOnHealthyEngine.
Context {np : NumPy} {engine : Bullet}.
Variable CS2_PHYSICS : PhysicsConfig.
Hypothesis no_fault : forall (c : Call) (w : World), bullet_fault c w = false.

(** X4. On an engine none of whose operations fails, with a positive
    step budget, [simulate_throw] returns; its trajectory has one sample
    for each time step the engine took, at most as many as the budget,
    and the result is well formed. *)
Theorem simulate_throw_returns_a_sample_per_step (w : World)
  (x y z pitch yaw : float) (throw_type : ThrowType) (max_time : float)
  (n : Z) :
  py_int (max_time / time_step CS2_PHYSICS) = Ok n ->
  (0 < n)%Z ->
  exists (trajectory : list (list float)) (info : Info) (w' : World),
    simulate_throw CS2_PHYSICS [x; y; z] pitch yaw throw_type max_time w
    = (Ok (trajectory, info), w')
    /\ steps_taken (trace w')
       = (length trajectory + steps_taken (trace w))%nat
    /\ (length trajectory <= Z.to_nat n)%nat
    /\ well_formed_result CS2_PHYSICS trajectory info.
Proof.
  intros Hn Hpos.
  pose proof (simulate_throw_run CS2_PHYSICS no_fault w x y z pitch yaw
                throw_type max_time n Hn) as Hrun.
  cbn zeta in Hrun.
  set (k := iterations _ _) in Hrun.
  assert (Hk : k = run_length
                     (at_rest CS2_PHYSICS
                        (launched CS2_PHYSICS w x y z pitch yaw throw_type)
                        (fresh (dom (bodies w)))) 0 (Z.to_nat n))
    by apply iterations_run_length.
  assert (Hk0 : (0 < k)%nat) by (rewrite Hk; apply run_length_pos; lia).
  assert (Hkn : (k <= Z.to_nat n)%nat) by (rewrite Hk; apply run_length_le).
  destruct k as [|j]; [ lia | ].
  destruct Hrun as (trajectory & info & Hrun & Hlen & _).
  eexists trajectory, info, _. split; [ exact Hrun | ].
  split.
  { destruct (world_at_return_counts CS2_PHYSICS w x y z pitch yaw throw_type
                (S j)) as (Hs & _).
    rewrite Hs, Hlen. reflexivity. }
  split; [ rewrite Hlen; exact Hkn | ].
  pose proof (simulate_throw_returns_well_formed CS2_PHYSICS [x; y; z] pitch
                yaw throw_type max_time w I) as H.
  rewrite Hrun in H. exact H.
Qed.

End ThrowOnHealthyEngine.

(** ** More on the search *)

Section SearchOnAnyPhysics.
Context {np : NumPy}.
Variable St : Type.
Variable physics_simulate_throw :
  list float -> float -> float -> ThrowType -> float ->
  M St (list (list float) * Info).
Variable self : SmokeFinder.
Local Open Scope float_scope.

Lemma find_smokes_is_grid_search (target_pos : list float)
  (throw_type : ThrowType) (strategy : SearchStrategy) (max_results : Z)
  (s : St) :
  find_smokes St physics_simulate_throw self target_pos throw_type strategy
    max_results s
  = _grid_search St physics_simulate_throw self target_pos throw_type
      max_results s.
Proof.
  unfold find_smokes, _genetic_search, _hybrid_search, bind, ret.
  destruct strategy;
    destruct (_grid_search St physics_simulate_throw self target_pos
                throw_type max_results s) as [[r|e] s']; reflexivity.
Qed.

(** X5. Whatever the simulations do, and for every radius, step and
    accuracy bound of the finder: when [np.arange] returns the two axes
    of the grid around a three-coordinate target (it raises when the
    length it computes is NaN or infinite), [find_smokes] returns, and
    each solution it returns was thrown from a point of that grid at
    height 72, with a pitch of the sweep and the yaw that points from
    that grid point to the target, and carries the requested throw type
    and the target. *)
Theorem find_smokes_solutions_come_from_the_grid (xs ys : list float)
  (tx ty tz : float) (throw_type : ThrowType) (strategy : SearchStrategy)
  (max_results : Z) (s : St) :
  np_arange (tx - search_radius self) (tx + search_radius self)
    (grid_step self) = Ok xs ->
  np_arange (ty - search_radius self) (ty + search_radius self)
    (grid_step self) = Ok ys ->
  exists (solutions : list SmokePosition.t) (s' : St),
    find_smokes St physics_simulate_throw self [tx; ty; tz] throw_type
      strategy max_results s = (Ok solutions, s')
    /\ Forall (from_the_grid xs ys tx ty tz throw_type) solutions.
Proof.
  intros Hxs Hys.
  destruct (grid_search_from_the_grid St physics_simulate_throw self
              xs ys tx ty tz throw_type s Hxs Hys)
    as (found & s' & Hfound & Hrun).
  exists (slice_to (sort_by_accuracy found) max_results), s'.
  split; [ rewrite find_smokes_is_grid_search; apply Hrun | ].
  apply slice_to_Forall, sort_by_accuracy_Forall, Hfound.
Qed.

(** X6. When [np.arange] returns the two axes of the grid, asking for
    fewer results gives a prefix of what asking for more gives: for
    [0 <= k <= k'] the [k] results are the first [k] of the [k']
    results, and the two searches leave the same store. *)
Theorem find_smokes_fewer_results_are_a_prefix (xs ys : list float)
  (tx ty tz : float) (throw_type : ThrowType) (strategy : SearchStrategy)
  (k k' : Z) (s : St) :
  np_arange (tx - search_radius self) (tx + search_radius self)
    (grid_step self) = Ok xs ->
  np_arange (ty - search_radius self) (ty + search_radius self)
    (grid_step self) = Ok ys ->
  (0 <= k <= k')%Z ->
  exists (few many : list SmokePosition.t) (s' : St),
    find_smokes St physics_simulate_throw self [tx; ty; tz] throw_type
      strategy k s = (Ok few, s')
    /\ find_smokes St physics_simulate_throw self [tx; ty; tz] throw_type
         strategy k' s = (Ok many, s')
    /\ few = take (Z.to_nat k) many.
Proof.
  intros Hxs Hys Hk.
  destruct (grid_search_from_the_grid St physics_simulate_throw self
              xs ys tx ty tz throw_type s Hxs Hys)
    as (found & s' & _ & Hrun).
  eexists _, _, s'.
  split; [ rewrite find_smokes_is_grid_search; apply Hrun | ].
  split; [ rewrite find_smokes_is_grid_search; apply Hrun | ].
  unfold slice_to.
  replace (0 <=? k)%Z with true by (symmetry; apply Z.leb_le; lia).
  replace (0 <=? k')%Z with true by (symmetry; apply Z.leb_le; lia).
  rewrite take_take. f_equal. lia.
Qed.

(** X7. A target with fewer than three coordinates makes the search
    raise [IndexError] (at [center[2] = 72]) before any simulation: the
    store is untouched. *)
Theorem find_smokes_short_target (target_pos : list float)
  (throw_type : ThrowType) (strategy : SearchStrategy) (max_results : Z)
  (s : St) :
  (length target_pos < 3)%nat ->
  find_smokes St physics_simulate_throw self target_pos throw_type strategy
    max_results s = (Raise IndexError, s).
Proof.
  intros Hlen. rewrite find_smokes_is_grid_search. unfold _grid_search.
  apply bind_raise. unfold lift, setitem.
  replace (2 <? length target_pos)%nat with false
    by (symmetry; apply Nat.ltb_ge; lia).
  reflexivity.
Qed.

(** X8. A target with more than three coordinates makes the search
    raise [ValueError] at the first grid point, when the target is
    subtracted from the three-coordinate throw position, before any
    simulation; provided [np.arange] returns the two axes and neither
    is empty. *)
Theorem find_smokes_long_target (tx ty tz t4 : float) (rest : list float)
  (x y : float) (xs ys : list float)
  (throw_type : ThrowType) (strategy : SearchStrategy) (max_results : Z)
  (s : St) :
  np_arange (tx - search_radius self) (tx + search_radius self)
    (grid_step self) = Ok (x :: xs) ->
  np_arange (ty - search_radius self) (ty + search_radius self)
    (grid_step self) = Ok (y :: ys) ->
  find_smokes St physics_simulate_throw self (tx :: ty :: tz :: t4 :: rest)
    throw_type strategy max_results s = (Raise ValueError, s).
Proof.
  intros Hx Hy. rewrite find_smokes_is_grid_search. unfold _grid_search.
  cbn [setitem length Nat.ltb Nat.leb lift list_insert insert].
  erewrite bind_ok by reflexivity.
  cbn [getitem lookup list_lookup lift].
  erewrite bind_ok by reflexivity.
  erewrite bind_ok by (rewrite Hx; reflexivity).
  apply bind_raise.
  cbn [for_each]. apply bind_raise. unfold grid_row.
  cbn [getitem lookup list_lookup lift].
  erewrite bind_ok by reflexivity.
  erewrite bind_ok by (rewrite Hy; reflexivity).
  cbn [for_each]. apply bind_raise. unfold grid_point.
  cbn [getitem lookup list_lookup lift].
  erewrite bind_ok by reflexivity.
  apply bind_raise. unfold lift, np_sub.
  cbn [length Nat.eqb]. destruct rest; reflexivity.
Qed.

End SearchOnAnyPhysics.

Section SearchOnTheEngine.
Context {np : NumPy} {engine : Bullet}.
Variable CS2_PHYSICS : PhysicsConfig.
Variable self : SmokeFinder.

(** X9. A search that runs its simulations on the engine, whichever of
    the engine's operations fail and whatever the target: each body the
    world held before the search is still there afterwards with its
    mass, and each static body exactly as it was. *)
Theorem find_smokes_spares_the_bodies (w : World) (target_pos : list float)
  (throw_type : ThrowType) (strategy : SearchStrategy) (max_results : Z) :
  let w' := (find_smokes World (simulate_throw CS2_PHYSICS) self target_pos
               throw_type strategy max_results w).2 in
  survives (bodies w) (bodies w').
Proof.
  apply (keeps_find_smokes World (simulate_throw CS2_PHYSICS) self
           (fun w' => survives (bodies w) (bodies w')));
    [ | apply survives_refl ].
  intros start_pos pitch yaw tt w1 Hw1.
  eapply survives_trans; [ exact Hw1 | ].
  apply (simulate_throw_within CS2_PHYSICS w1).
Qed.

Hypothesis no_fault : forall (c : Call) (w : World), bullet_fault c w = false.

Lemma simulate_throw_same_frame (w : World) (start_pos : list float)
  (pitch yaw : float) (throw_type : ThrowType) (max_time : float) (n : Z) :
  py_int (max_time / time_step CS2_PHYSICS) = Ok n ->
  same_frame
    (bodies (simulate_throw CS2_PHYSICS start_pos pitch yaw throw_type
               max_time w).2)
    (bodies w).
Proof.
  intros Hn.
  destruct (decide (length start_pos = 3%nat)) as [Hlen|Hlen].
  - destruct start_pos as [|x [|y [|z [|t l]]]]; try discriminate Hlen.
    rewrite (simulate_throw_world CS2_PHYSICS no_fault w x y z _ _ _ _ n Hn).
    apply world_at_return_frame.
  - rewrite simulate_throw_bad_start by exact Hlen. apply same_frame_refl.
Qed.

(** X10. On an engine none of whose operations fails, and with a time
    step for which [int(2.0 / time_step)] is defined, a whole search
    leaves no grenade behind: the world holds the same ids as before,
    every static body exactly as it was, and as many dynamic bodies. *)
Theorem find_smokes_leaves_no_grenade (w : World) (target_pos : list float)
  (throw_type : ThrowType) (strategy : SearchStrategy) (max_results : Z)
  (n : Z) :
  py_int (2.0 / time_step CS2_PHYSICS) = Ok n ->
  let w' := (find_smokes World (simulate_throw CS2_PHYSICS) self target_pos
               throw_type strategy max_results w).2 in
  dom (bodies w') = dom (bodies w)
  /\ static_bodies w' = static_bodies w
  /\ size (dynamic_bodies w') = size (dynamic_bodies w).
Proof.
  intros Hn w'.
  assert (Hf : same_frame (bodies w') (bodies w)).
  { apply (keeps_find_smokes World (simulate_throw CS2_PHYSICS) self
             (fun w1 => same_frame (bodies w1) (bodies w)));
      [ | apply same_frame_refl ].
    intros start_pos pitch yaw tt w1 Hw1.
    eapply same_frame_trans; [ | exact Hw1 ].
    apply (simulate_throw_same_frame w1 start_pos pitch yaw tt 2.0 n Hn). }
  split; [ apply same_frame_dom, Hf | ].
  split; [ apply same_frame_filter_static, Hf | ].
  apply same_frame_dynamic_size, Hf.
Qed.

End SearchOnTheEngine.

(** ** More on the coordinate conversion *)

Section MoreConversionFacts.
Variable CS2_PHYSICS : PhysicsConfig.
Local Open Scope float_scope.

(** X11. Both converters are defined exactly on the positions of three
    coordinates, where they return three coordinates; on every other
    list they raise [ValueError]. *)
Theorem converters_take_three_coordinates (position : list float) :
  match convert_cs2_to_bullet CS2_PHYSICS position with
  | Ok r => length position = 3%nat /\ length r = 3%nat
  | Raise e => e = ValueError /\ length position <> 3%nat
  end
  /\ match convert_bullet_to_cs2 CS2_PHYSICS position with
     | Ok r => length position = 3%nat /\ length r = 3%nat
     | Raise e => e = ValueError /\ length position <> 3%nat
     end.
Proof.
  destruct position as [|x [|y [|z [|t l]]]]; cbn;
    (split; split; first [ reflexivity | discriminate ]).
Qed.

(** X12. For every configuration, the round trip through simulation
    space puts each coordinate back on its own axis and multiplies it by
    [meters_per_unit] and then by [units_per_meter]: the axis exchange
    of one converter undoes that of the other, and only the two scale
    factors remain. *)
Theorem round_trip_scales_each_coordinate (position : list float) :
  round_trip CS2_PHYSICS position
  = if (length position =? 3)%nat
    then Ok (map (fun c => c * meters_per_unit CS2_PHYSICS
                           * units_per_meter CS2_PHYSICS) position)
    else Raise ValueError.
Proof.
  unfold round_trip.
  destruct position as [|x [|y [|z [|t l]]]]; reflexivity.
Qed.

End MoreConversionFacts.

(** ** More on sorting and slicing *)

Section MoreFloatOrder.

Lemma ltb_not_leb (a b : float) :
  (a <? b)%float = true -> (b <=? a)%float = false.
Proof.
  rewrite ltb_spec, leb_spec. unfold SFltb, SFleb.
  rewrite (SFcompare_antisym (Prim2SF a) (Prim2SF b)).
  destruct (SFcompare (Prim2SF a) (Prim2SF b)) as [[]|]; simpl; congruence.
Qed.

Lemma eqb_leb (a b : float) :
  (a =? b)%float = true ->
  (a <=? b)%float = true /\ (b <=? a)%float = true.
Proof.
  rewrite FloatAxioms.eqb_spec, !leb_spec. unfold SFeqb, SFleb.
  rewrite (SFcompare_antisym (Prim2SF a) (Prim2SF b)).
  destruct (SFcompare (Prim2SF a) (Prim2SF b)) as [[]|]; simpl;
    try discriminate. auto.
Qed.

Lemma leb_antisym_eqb (a b : float) :
  (a <=? b)%float = true -> (b <=? a)%float = true -> (a =? b)%float = true.
Proof.
  rewrite FloatAxioms.eqb_spec, !leb_spec. unfold SFeqb, SFleb.
  rewrite (SFcompare_antisym (Prim2SF a) (Prim2SF b)).
  destruct (SFcompare (Prim2SF a) (Prim2SF b)) as [[]|]; simpl; congruence.
Qed.

Lemma leb_refl_l (a b : float) :
  (a <=? b)%float = true -> (a <=? a)%float = true.
Proof.
  rewrite !leb_spec. unfold SFleb.
  destruct (Prim2SF a) as [sa|sa| |sa ma ea], (Prim2SF b) as [sb|sb| |sb mb eb];
    simpl; try destruct sa; simpl; try congruence;
    rewrite ?Z.compare_refl, ?Pos.compare_cont_refl; reflexivity.
Qed.

Lemma leb_refl_r (a b : float) :
  (a <=? b)%float = true -> (b <=? b)%float = true.
Proof.
  rewrite !leb_spec. unfold SFleb.
  destruct (Prim2SF a) as [sa|sa| |sa ma ea], (Prim2SF b) as [sb|sb| |sb mb eb];
    simpl; try destruct sa; try destruct sb; simpl; try congruence;
    rewrite ?Z.compare_refl, ?Pos.compare_cont_refl; reflexivity.
Qed.

(** Below a number equal to [c] is not equal to [c]. *)
Lemma ltb_eqb_neq (a b c : float) :
  (a <? b)%float = true -> (b =? c)%float = true -> (a =? c)%float = false.
Proof.
  intros Hlt Hbc. destruct (a =? c)%float eqn:Hac; [ | reflexivity ].
  apply eqb_leb in Hbc as [Hbc _]. apply eqb_leb in Hac as [_ Hca].
  pose proof (leb_trans _ _ _ Hbc Hca) as Hba.
  rewrite (ltb_not_leb _ _ Hlt) in Hba. discriminate Hba.
Qed.

End MoreFloatOrder.

Section MoreSortFacts.

Lemma insert_by_accuracy_Permutation (s : SmokePosition.t)
  (l : list SmokePosition.t) :
  insert_by_accuracy s l ≡ₚ s :: l.
Proof.
  induction l as [|s' l IH]; simpl; [ reflexivity | ].
  destruct (_ <? _)%float; [ | reflexivity ].
  rewrite IH. apply Permutation_swap.
Qed.

Lemma insert_by_accuracy_ties (a : float) (s : SmokePosition.t)
  (l : list SmokePosition.t) :
  List.filter (fun t => (SmokePosition.accuracy t =? a)%float)
    (insert_by_accuracy s l)
  = List.filter (fun t => (SmokePosition.accuracy t =? a)%float) (s :: l).
Proof.
  induction l as [|s' l IH]; [ reflexivity | ].
  cbn [insert_by_accuracy].
  destruct (SmokePosition.accuracy s' <? SmokePosition.accuracy s)%float
    eqn:Hlt; [ | reflexivity ].
  cbn [List.filter] in *. rewrite IH.
  destruct (SmokePosition.accuracy s =? a)%float eqn:Hs; [ | reflexivity ].
  rewrite (ltb_eqb_neq _ _ _ Hlt Hs). reflexivity.
Qed.

(** X13. Sorting by accuracy loses and invents nothing, and is stable:
    the sorted list is a permutation of the solutions found, and the
    solutions of any one accuracy come in the order in which the search
    found them. *)
Theorem sort_by_accuracy_is_a_stable_permutation
  (solutions : list SmokePosition.t) :
  sort_by_accuracy solutions ≡ₚ solutions
  /\ forall a : float,
       List.filter (fun t => (SmokePosition.accuracy t =? a)%float)
         (sort_by_accuracy solutions)
       = List.filter (fun t => (SmokePosition.accuracy t =? a)%float)
           solutions.
Proof.
  unfold sort_by_accuracy. split.
  - induction solutions as [|s l IH]; simpl; [ reflexivity | ].
    rewrite insert_by_accuracy_Permutation, IH. reflexivity.
  - intros a. induction solutions as [|s l IH]; [ reflexivity | ].
    cbn [foldr]. rewrite insert_by_accuracy_ties.
    cbn [List.filter]. rewrite IH. reflexivity.
Qed.

Lemma every_nth_from_lookup {A} (n : nat) (l : list A) :
  forall skip i : nat,
    every_nth_from (S n) skip l !! i = l !! (skip + S n * i)%nat.
Proof.
  induction l as [|x l IH]; intros skip i; [ reflexivity | ].
  destruct skip as [|skip]; cbn [every_nth_from].
  - destruct i as [|i].
    + replace (0 + S n * 0)%nat with 0%nat by lia. reflexivity.
    + replace (0 + S n * S i)%nat with (S (S n - 1 + S n * i)) by lia.
      change ((x :: every_nth_from (S n) (S n - 1) l) !! S i)
        with (every_nth_from (S n) (S n - 1) l !! i).
      rewrite IH. reflexivity.
  - rewrite IH. reflexivity.
Qed.

Lemma every_nth_from_length {A} (n : nat) (l : list A) :
  forall skip : nat,
    (skip <= n)%nat ->
    length (every_nth_from (S n) skip l)
    = ((length l + n - skip) / S n)%nat.
Proof.
  induction l as [|x l IH]; intros skip Hskip.
  - cbn [every_nth_from length]. symmetry. apply Nat.div_small. lia.
  - destruct skip as [|skip]; cbn [every_nth_from length].
    + rewrite IH by lia.
      replace (S (length l) + n - 0)%nat with (1 * S n + length l)%nat by lia.
      rewrite Nat.div_add_l by lia.
      replace (length l + n - (S n - 1))%nat with (length l) by lia.
      reflexivity.
    + rewrite IH by lia. f_equal.
Qed.

(** X14. The trajectory a solution stores, [trajectory[::10]], holds the
    samples 0, 10, 20, ... of the simulated trajectory: its entry [i] is
    the entry [10 * i], and its length is the length divided by 10,
    rounded up. *)
Theorem decimate10_keeps_every_tenth {A} (trajectory : list A) :
  (forall i : nat, decimate10 trajectory !! i = trajectory !! (10 * i)%nat)
  /\ length (decimate10 trajectory) = ((length trajectory + 9) / 10)%nat.
Proof.
  unfold decimate10. split.
  - intros i. apply (every_nth_from_lookup 9).
  - rewrite (every_nth_from_length 9) by lia. f_equal. lia.
Qed.

End MoreSortFacts.

(** ** utils.py *)

Section UtilsFacts.
Local Open Scope float_scope.

Lemma leb_not_ltb_eqb (a b : float) :
  (a <=? b) = true -> (a <? b) = false -> (a =? b) = true.
Proof.
  rewrite FloatAxioms.eqb_spec, leb_spec, ltb_spec.
  unfold SFeqb, SFleb, SFltb.
  destruct (SFcompare (Prim2SF a) (Prim2SF b)) as [[]|]; congruence.
Qed.

Lemma eqb_sym (a b : float) : (a =? b) = true -> (b =? a) = true.
Proof.
  intros H. apply eqb_leb in H as [H1 H2]. apply leb_antisym_eqb; assumption.
Qed.

(** X15. [clamp_angle] with bounds [min_angle <= max_angle] returns a
    number between the bounds for every angle, also for NaN (which it
    sends to a bound) and for the infinities. *)
Theorem clamp_angle_within_bounds (angle min_angle max_angle : float) :
  (min_angle <=? max_angle) = true ->
  let r := CS2CoordinateConverter.clamp_angle angle min_angle max_angle in
  (min_angle <=? r) = true /\ (r <=? max_angle) = true.
Proof.
  intros Hb. cbn zeta.
  unfold CS2CoordinateConverter.clamp_angle, py_max, py_min.
  pose proof (leb_refl_l _ _ Hb) as Hlo.
  pose proof (leb_refl_r _ _ Hb) as Hhi.
  destruct (angle <? max_angle) eqn:Ha.
  - destruct (min_angle <? angle) eqn:Hl.
    + split; apply ltb_leb; assumption.
    + split; assumption.
  - destruct (min_angle <? max_angle) eqn:Hl; split; assumption.
Qed.

(** X16. [clamp_angle] leaves an angle that lies between the bounds as
    it is: the result compares equal to the angle. *)
Theorem clamp_angle_fixes_angles_in_range (angle min_angle max_angle : float) :
  (min_angle <=? angle) = true ->
  (angle <=? max_angle) = true ->
  (CS2CoordinateConverter.clamp_angle angle min_angle max_angle =? angle)
  = true.
Proof.
  intros Hl Hh.
  unfold CS2CoordinateConverter.clamp_angle, py_max, py_min.
  pose proof (leb_refl_r _ _ Hl) as Hrefl.
  destruct (angle <? max_angle) eqn:Ha.
  - destruct (min_angle <? angle) eqn:Hla.
    + apply leb_antisym_eqb; exact Hrefl.
    + apply leb_not_ltb_eqb; assumption.
  - pose proof (leb_not_ltb_eqb _ _ Hh Ha) as Heq.
    destruct (min_angle <? max_angle) eqn:Hlm.
    + apply eqb_sym, Heq.
    + apply leb_antisym_eqb; [ exact Hl | ].
      apply eqb_leb in Heq as [Hamax _].
      eapply leb_trans; [ exact Hamax | ].
      pose proof (leb_trans _ _ _ Hl Hh) as Hlh.
      pose proof (leb_not_ltb_eqb _ _ Hlh Hlm) as Heq'.
      apply eqb_leb in Heq' as [_ Hml]. exact Hml.
Qed.

(** A coordinate passes the test of [validate_position] when its
    magnitude is at most 10000 or when it is NaN. *)
Lemma coordinate_passes (c : float) :
  (10000 <? PrimFloat.abs c) = false
  <-> (PrimFloat.abs c <=? 10000) = true \/ Prim2SF c = S754_nan.
Proof.
  split.
  - intros H. destruct (Prim2SF c) as [s|s| |s m e] eqn:Hc; auto; left;
      (apply not_ltb_leb; [ rewrite abs_spec, Hc; discriminate
                          | discriminate | exact H ]).
  - intros [H|H].
    + destruct (10000 <? PrimFloat.abs c) eqn:Hlt; [ | reflexivity ].
      rewrite (ltb_not_leb _ _ Hlt) in H. discriminate H.
    + rewrite ltb_spec, abs_spec, H. reflexivity.
Qed.

Lemma validate_coords_Forall (coords : list float) :
  validate_coords coords = true
  <-> Forall (fun c => (PrimFloat.abs c <=? 10000) = true
                       \/ Prim2SF c = S754_nan) coords.
Proof.
  induction coords as [|c l IH]; simpl.
  - split; [ constructor | reflexivity ].
  - destruct (10000 <? PrimFloat.abs c) eqn:Hc.
    + split; [ discriminate | ].
      intros H. apply Forall_cons in H as [H _].
      apply coordinate_passes in H. congruence.
    + rewrite IH. split.
      * intros H. constructor; [ apply coordinate_passes, Hc | exact H ].
      * intros H. apply Forall_cons in H as [_ H]. exact H.
Qed.

(** X17. [validate_position] accepts exactly the lists of three
    coordinates each of which has a magnitude of at most 10000 or is
    NaN; and a position it accepts is one that [convert_cs2_to_bullet]
    converts, whatever the configuration. *)
Theorem validate_position_accepts (CS2_PHYSICS : PhysicsConfig)
  (position : list float) :
  (validate_position position = true
   <-> length position = 3%nat
       /\ Forall (fun c => (PrimFloat.abs c <=? 10000) = true
                           \/ Prim2SF c = S754_nan) position)
  /\ (validate_position position = true ->
      exists r : list float,
        convert_cs2_to_bullet CS2_PHYSICS position = Ok r).
Proof.
  assert (Hiff : validate_position position = true
                 <-> length position = 3%nat
                     /\ Forall (fun c => (PrimFloat.abs c <=? 10000) = true
                                         \/ Prim2SF c = S754_nan) position).
  { unfold validate_position.
    destruct (length position =? 3)%nat eqn:Hlen; cbn [negb].
    - apply Nat.eqb_eq in Hlen. rewrite validate_coords_Forall. tauto.
    - apply Nat.eqb_neq in Hlen. split; [ discriminate | tauto ]. }
  split; [ exact Hiff | ].
  intros H. apply Hiff in H as [Hlen _].
  destruct position as [|x [|y [|z [|t l]]]]; try discriminate Hlen.
  eexists. reflexivity.
Qed.

End UtilsFacts.

(** ** The test scene and the map cache *)

Section SceneOnAnyEngine.
Context {engine : Bullet}.
Variable CS2_PHYSICS : PhysicsConfig.
Variable w0 : World.

Lemma adds_static_refl : adds_static w0 w0.
Proof. split; [ reflexivity | auto ]. Qed.

Lemma keeps_adds_static_call (c : Call) : keeps (adds_static w0) (call c).
Proof. intros w Hw. unfold call. destruct (bullet_fault c w); exact Hw. Qed.

Lemma keeps_adds_static_shape (c : Call) :
  keeps (adds_static w0) (bind (call c) (fun _ => new_shape)).
Proof.
  apply keeps_bind; [ apply keeps_adds_static_call | ].
  intros _ w Hw. exact Hw.
Qed.

Lemma keeps_adds_static_createMultiBody (collision : nat)
  (visual : option nat) (position : option (list float)) :
  keeps (adds_static w0) (createMultiBody_opt 0 collision visual position).
Proof.
  intros w [Hsub Hnew]. unfold createMultiBody_opt, createMultiBody.
  destruct (default _ position) as [|x [|y [|z [|]]]];
    try (split; assumption).
  unfold bind, call.
  destruct (bullet_fault _ w); [ split; assumption | ].
  set (id := fresh (dom (bodies w))).
  assert (Hid : bodies w !! id = None) by apply not_elem_of_dom, is_fresh.
  split; cbn [snd set_bodies bodies log].
  - etransitivity; [ exact Hsub | ]. apply insert_subseteq, Hid.
  - intros i b. destruct (decide (id = i)) as [<-|Hne].
    + rewrite lookup_insert_eq. intros [= <-]. right. reflexivity.
    + rewrite lookup_insert_ne by exact Hne. apply Hnew.
Qed.

Lemma keeps_adds_static_add_obstacle (obs : Obstacle) (acc : list nat) :
  keeps (adds_static w0) (MapLoader.add_obstacle CS2_PHYSICS obs acc).
Proof.
  unfold MapLoader.add_obstacle.
  apply keeps_bind; [ apply keeps_lift | intros pos ].
  apply keeps_bind; [ apply keeps_adds_static_shape | intros col ].
  apply keeps_bind; [ apply keeps_adds_static_shape | intros vis ].
  apply keeps_bind; [ apply keeps_adds_static_createMultiBody | intros body ].
  apply keeps_ret.
Qed.

Lemma keeps_adds_static_load_test_scene :
  keeps (adds_static w0) (MapLoader.load_test_scene CS2_PHYSICS).
Proof.
  unfold MapLoader.load_test_scene.
  apply keeps_bind; [ apply keeps_adds_static_shape | intros plane ].
  apply keeps_bind; [ apply keeps_adds_static_createMultiBody | intros body ].
  apply keeps_for_each. intros obs acc. apply keeps_adds_static_add_obstacle.
Qed.

Lemma adds_static_dynamic_bodies (w : World) :
  adds_static w0 w -> dynamic_bodies w = dynamic_bodies w0.
Proof.
  intros [Hsub Hnew]. unfold dynamic_bodies. apply map_eq. intros i.
  apply option_eq. intros b. rewrite !map_lookup_filter_Some. cbn [snd].
  split.
  - intros [Hb Hs]. split; [ | exact Hs ].
    destruct (Hnew i b Hb) as [H|H]; [ exact H | congruence ].
  - intros [Hb Hs]. split; [ | exact Hs ].
    eapply lookup_weaken; eassumption.
Qed.

End SceneOnAnyEngine.

Section SceneTheorem.
Context {engine : Bullet}.
Variable CS2_PHYSICS : PhysicsConfig.

(** X18. On every engine, whichever of its operations fail and however
    the call ends, the loader's [load_test_scene] only adds static
    bodies: each body of the world stays exactly as it was, each body
    that is new has mass zero, and so the dynamic bodies are those that
    were there. *)
Theorem load_test_scene_adds_only_static_bodies (w : World) :
  let w' := (MapLoader.load_test_scene CS2_PHYSICS w).2 in
  bodies w ⊆ bodies w'
  /\ (forall (i : nat) (b : Body),
        bodies w' !! i = Some b ->
        bodies w !! i = Some b \/ is_static b = true)
  /\ dynamic_bodies w' = dynamic_bodies w.
Proof.
  cbn zeta.
  pose proof (keeps_adds_static_load_test_scene CS2_PHYSICS w w
                (adds_static_refl w)) as H.
  split; [ apply H | ]. split; [ apply H | ].
  apply adds_static_dynamic_bodies, H.
Qed.

End SceneTheorem.

Section SceneOnHealthyEngine.
Context {engine : Bullet}.
Variable CS2_PHYSICS : PhysicsConfig.
Hypothesis no_fault : forall (c : Call) (w : World), bullet_fault c w = false.

Lemma createCollisionShape_geom_ok (g : Geometry) (w : World) :
  createCollisionShape_geom g w
  = (Ok (shapes w),
     {| bodies := bodies w; shapes := S (shapes w);
        trace := CreateCollisionShape :: trace w |}).
Proof.
  unfold createCollisionShape_geom, bind. rewrite (call_ok no_fault).
  reflexivity.
Qed.

Lemma createVisualShape_geom_ok (g : Geometry) (c : list float) (w : World) :
  createVisualShape_geom g c w
  = (Ok (shapes w),
     {| bodies := bodies w; shapes := S (shapes w);
        trace := CreateVisualShape :: trace w |}).
Proof.
  unfold createVisualShape_geom, bind. rewrite (call_ok no_fault).
  reflexivity.
Qed.

(** A new static body: the world it leaves has it under a fresh id. *)
Lemma new_static_body (w0 : World) (acc : list nat) (collision : nat)
  (visual : option nat) (x y z : float) (w : World) :
  new_static_bodies w0 acc w -> adds_static w0 w ->
  exists (id : nat) (w' : World),
    createMultiBody 0 collision (default 0%nat visual) [x; y; z] w
    = (Ok id, w')
    /\ new_static_bodies w0 (acc ++ [id]) w'
    /\ adds_static w0 w'.
Proof.
  intros [Hdup Hacc] Hadd.
  rewrite (createMultiBody_ok no_fault). cbn zeta.
  set (id := fresh (dom (bodies w))).
  assert (Hid : bodies w !! id = None) by apply not_elem_of_dom, is_fresh.
  eexists id, _. split; [ reflexivity | ].
  split; [ split | ].
  - apply NoDup_app. split; [ exact Hdup | ].
    split; [ | apply NoDup_singleton ].
    intros a Ha Hin. apply list_elem_of_singleton in Hin. subst a.
    rewrite Forall_forall in Hacc.
    destruct (Hacc id Ha) as (_ & b & Hb & _). congruence.
  - apply Forall_app. split.
    + eapply Forall_impl; [ exact Hacc | ].
      intros a (Ha0 & b & Hb & Hs). split; [ exact Ha0 | ].
      exists b. split; [ | exact Hs ]. cbn [bodies].
      rewrite lookup_insert_ne by congruence. exact Hb.
    + constructor; [ | constructor ]. split.
      * destruct (bodies w0 !! id) as [b|] eqn:Hb; [ | reflexivity ].
        destruct Hadd as [Hsub _].
        pose proof (lookup_weaken _ _ _ _ Hb Hsub). congruence.
      * eexists. cbn [bodies]. rewrite lookup_insert_eq.
        split; reflexivity.
  - pose proof (keeps_adds_static_createMultiBody w0 collision visual
                  (Some [x; y; z]) w Hadd) as H.
    change (createMultiBody_opt 0 collision visual (Some [x; y; z]) w)
      with (createMultiBody 0 collision (default 0%nat visual) [x; y; z] w)
      in H.
    rewrite (createMultiBody_ok no_fault) in H. exact H.
Qed.

Lemma add_obstacle_ok (w0 : World) (obs : Obstacle) (acc : list nat)
  (w : World) :
  length (obs_pos obs) = 3%nat ->
  new_static_bodies w0 acc w -> adds_static w0 w ->
  exists (id : nat) (w' : World),
    MapLoader.add_obstacle CS2_PHYSICS obs acc w = (Ok (acc ++ [id]), w')
    /\ new_static_bodies w0 (acc ++ [id]) w'
    /\ adds_static w0 w'.
Proof.
  intros Hlen Hacc Hadd. unfold MapLoader.add_obstacle.
  destruct (obs_pos obs) as [|x [|y [|z [|t l]]]]; try discriminate Hlen.
  cbn [convert_cs2_to_bullet length Nat.eqb negb swap_scale lift].
  erewrite bind_ok by reflexivity.
  erewrite bind_ok by apply createCollisionShape_geom_ok.
  erewrite bind_ok by apply createVisualShape_geom_ok.
  unfold bind at 1, createMultiBody_opt, swap_scale.
  change (default ?d (Some ?v)) with v.
  match goal with
  | |- context [createMultiBody 0 ?c ?v [?a; ?b; ?d] ?w1] =>
      destruct (new_static_body w0 acc c (Some v) a b d w1)
        as (id & w' & Hrun & Hnew & Hadd')
  end.
  - exact Hacc.
  - exact Hadd.
  - exists id, w'.
    change (default 0%nat (Some ?v)) with v in Hrun.
    rewrite Hrun. split; [ reflexivity | ].
    split; assumption.
Qed.

Lemma add_obstacles_ok (w0 : World) (obstacles : list Obstacle) :
  Forall (fun obs => length (obs_pos obs) = 3%nat) obstacles ->
  forall (acc : list nat) (w : World),
    new_static_bodies w0 acc w -> adds_static w0 w ->
    exists (ids : list nat) (w' : World),
      for_each obstacles (MapLoader.add_obstacle CS2_PHYSICS) acc w
      = (Ok ids, w')
      /\ length ids = (length acc + length obstacles)%nat
      /\ new_static_bodies w0 ids w'
      /\ adds_static w0 w'.
Proof.
  induction 1 as [|obs obstacles Hobs _ IH]; intros acc w Hacc Hadd.
  - exists acc, w. cbn [for_each length].
    split; [ reflexivity | ]. split; [ lia | ]. split; assumption.
  - destruct (add_obstacle_ok w0 obs acc w Hobs Hacc Hadd)
      as (id & w1 & Hrun & Hacc1 & Hadd1).
    destruct (IH (acc ++ [id]) w1 Hacc1 Hadd1)
      as (ids & w' & Hrun' & Hlen & Hnew & Hadd').
    exists ids, w'. cbn [for_each]. erewrite bind_ok by exact Hrun.
    split; [ exact Hrun' | ]. split; [ | split; assumption ].
    rewrite Hlen, length_app. cbn. lia.
Qed.

Lemma load_test_scene_ok (w : World) :
  exists (ids : list nat) (w' : World),
    MapLoader.load_test_scene CS2_PHYSICS w = (Ok ids, w')
    /\ length ids = 5%nat
    /\ new_static_bodies w ids w'
    /\ adds_static w w'.
Proof.
  unfold MapLoader.load_test_scene.
  erewrite bind_ok by apply createCollisionShape_geom_ok.
  unfold bind at 1, createMultiBody_opt.
  change (default ?d (@None (list float))) with d.
  match goal with
  | |- context [createMultiBody 0 ?c _ [?a; ?b; ?d] ?w1] =>
      destruct (new_static_body w [] c None a b d w1)
        as (id & w' & Hrun & Hnew & Hadd)
  end.
  - split; [ constructor | constructor ].
  - split; cbn [bodies]; [ reflexivity | auto ].
  - rewrite Hrun.
    destruct (add_obstacles_ok w MapLoader.obstacles) with (acc := [id])
                                                           (w := w')
      as (ids & w'' & Hrun' & Hlen & Hnew' & Hadd'); try assumption.
    + repeat constructor.
    + exists ids, w''. split; [ exact Hrun' | ].
      split; [ rewrite Hlen; reflexivity | split; assumption ].
Qed.

(** X19. On an engine none of whose operations fails, the loader's
    [load_test_scene] returns five ids: distinct, none of them an id of
    the world before, each a static body of the world after. *)
Theorem load_test_scene_makes_five_static_bodies (w : World) :
  exists (ids : list nat) (w' : World),
    MapLoader.load_test_scene CS2_PHYSICS w = (Ok ids, w')
    /\ length ids = 5%nat
    /\ NoDup ids
    /\ Forall (fun id => bodies w !! id = None
                         /\ exists b, bodies w' !! id = Some b
                                      /\ is_static b = true) ids.
Proof.
  destruct (load_test_scene_ok w) as (ids & w' & Hrun & Hlen & [Hdup Hnew] & _).
  exists ids, w'. repeat split; assumption.
Qed.

End SceneOnHealthyEngine.

(** ** The engine object *)

Lemma keeps_for_each_In {St X S} (P : St -> Prop) (xs : list X)
  (body : X -> S -> M St S) :
  (forall x s, In x xs -> keeps P (body x s)) ->
  forall s, keeps P (for_each xs body s).
Proof.
  induction xs as [|x xs IH]; intros Hbody s; simpl.
  - apply keeps_ret.
  - apply keeps_bind; [ apply Hbody; left; reflexivity | ].
    intros s'. apply IH. intros x' s'' Hin. apply Hbody. right. exact Hin.
Qed.

Lemma in_world_run {A} (c : M World A) (e : Engine) (r : Res A) (w' : World) :
  c (world e) = (r, w') ->
  in_world c e = (r, {| world := w';
                        loaded_maps := loaded_maps e;
                        map_bodies := map_bodies e |}).
Proof. intros H. unfold in_world. rewrite H. reflexivity. Qed.

Section SurfaceFacts.
Context {engine : Bullet}.
Variable CS2_PHYSICS : PhysicsConfig.

(** [changeDynamics] on any body keeps what a body [id] has, for every
    property of bodies that setting the surface keeps. *)
Lemma keeps_body_changeDynamics (Q : Body -> Prop) (id id' : nat) :
  (forall b, Q b -> Q (with_surface CS2_PHYSICS b)) ->
  keeps (fun w => exists b, bodies w !! id = Some b /\ Q b)
    (changeDynamics_surface id' (grenade_restitution CS2_PHYSICS)
       (grenade_friction CS2_PHYSICS)).
Proof.
  intros HQ. unfold changeDynamics_surface.
  apply keeps_bind.
  { intros w Hw. unfold call. destruct (bullet_fault _ w); exact Hw. }
  intros _ w (b & Hb & Hq). unfold update_body.
  destruct (bodies w !! id') as [b'|] eqn:Hb'; [ | exists b; auto ].
  cbn [snd set_bodies bodies].
  destruct (decide (id' = id)) as [->|Hne].
  - rewrite lookup_insert_eq. eexists. split; [ reflexivity | ].
    assert (b' = b) by congruence. subst b'. apply (HQ b Hq).
  - rewrite lookup_insert_ne by exact Hne. exists b. auto.
Qed.

Lemma keeps_body_set_surface (Q : Body -> Prop) (id : nat) (ids : list nat) :
  (forall b, Q b -> Q (with_surface CS2_PHYSICS b)) ->
  keeps (fun w => exists b, bodies w !! id = Some b /\ Q b)
    (EnhancedPhysicsEngine.set_surface CS2_PHYSICS ids).
Proof.
  intros HQ. unfold EnhancedPhysicsEngine.set_surface.
  apply keeps_for_each. intros id' []. apply keeps_body_changeDynamics, HQ.
Qed.

(** The bodies of [w0] stay as they are when the surface is set on ids
    that [w0] does not know. *)
Lemma keeps_old_set_surface (w0 : World) (ids : list nat) :
  Forall (fun id => bodies w0 !! id = None) ids ->
  keeps (fun w => bodies w0 ⊆ bodies w)
    (EnhancedPhysicsEngine.set_surface CS2_PHYSICS ids).
Proof.
  intros Hnew. unfold EnhancedPhysicsEngine.set_surface.
  apply keeps_for_each_In. intros id [] Hin.
  rewrite Forall_forall in Hnew.
  assert (Hid : bodies w0 !! id = None)
    by (apply Hnew, list_elem_of_In, Hin).
  unfold changeDynamics_surface. apply keeps_bind.
  { intros w Hw. unfold call. destruct (bullet_fault _ w); exact Hw. }
  intros _ w Hw. unfold update_body.
  destruct (bodies w !! id) as [b|]; [ | exact Hw ].
  cbn [snd set_bodies bodies]. apply insert_subseteq_r; assumption.
Qed.


(** When the loop over [map_bodies] returns, every id it went through
    that is a body of the world has the configured surface; an id that
    is no body of the world is passed over. *)
Lemma set_surface_returns (ids : list nat) :
  forall w w' : World,
    EnhancedPhysicsEngine.set_surface CS2_PHYSICS ids w = (Ok tt, w') ->
    Forall (fun id => is_Some (bodies w !! id) ->
                      exists b, bodies w' !! id = Some b
                                /\ surfaced CS2_PHYSICS b) ids.
Proof.
  unfold EnhancedPhysicsEngine.set_surface.
  induction ids as [|id ids IH]; intros w w' Hrun; [ constructor | ].
  cbn [for_each] in Hrun. unfold bind at 1 in Hrun.
  destruct (changeDynamics_surface id _ _ w) as [[[]|e] w1] eqn:Hone;
    [ | discriminate Hrun ].
  constructor.
  - intros [b0 Hb0].
    assert (H1 : exists b, bodies w1 !! id = Some b
                           /\ surfaced CS2_PHYSICS b).
    { revert Hone. unfold changeDynamics_surface, bind, call, update_body.
      destruct (bullet_fault _ w); [ discriminate | ].
      cbn [log bodies]. rewrite Hb0.
      intros [= <-]. cbn [set_bodies bodies]. rewrite lookup_insert_eq.
      eexists. split; [ reflexivity | ]. split; reflexivity. }
    pose proof (keeps_body_set_surface (surfaced CS2_PHYSICS) id ids
                  (fun b _ => conj eq_refl eq_refl) w1 H1) as H.
    unfold EnhancedPhysicsEngine.set_surface in H. rewrite Hrun in H. exact H.
  - eapply Forall_impl; [ apply (IH w1 w' Hrun) | ].
    intros id' Hid' [b0 Hb0]. apply Hid'.
    pose proof (keeps_body_changeDynamics (fun _ => True) id' id
                  (fun _ _ => I) w (ex_intro _ b0 (conj Hb0 I))) as H.
    rewrite Hone in H. destruct H as (b1 & Hb1 & _). eauto.
Qed.

Hypothesis no_fault : forall (c : Call) (w : World), bullet_fault c w = false.

(** On an engine that does not fail, the loop returns, whatever the
    ids. *)
Lemma set_surface_ok (ids : list nat) :
  forall w : World,
    exists w' : World,
      EnhancedPhysicsEngine.set_surface CS2_PHYSICS ids w = (Ok tt, w').
Proof.
  unfold EnhancedPhysicsEngine.set_surface.
  induction ids as [|id ids IH]; intros w.
  - exists w. reflexivity.
  - cbn [for_each]. unfold bind at 1.
    unfold changeDynamics_surface at 1. unfold bind at 1.
    rewrite (call_ok no_fault). unfold update_body.
    destruct (bodies (log (ChangeDynamics id) w) !! id) as [b|]; apply IH.
Qed.

(** The engine's [load_test_scene] on an engine that does not fail. *)
Lemma engine_load_test_scene_ok (e : Engine) :
  exists e' : Engine,
    EnhancedPhysicsEngine.load_test_scene CS2_PHYSICS e = (Ok true, e')
    /\ length (map_bodies e') = 5%nat
    /\ new_static_bodies (world e) (map_bodies e') (world e')
    /\ has_scene CS2_PHYSICS e'
    /\ bodies (world e) ⊆ bodies (world e')
    /\ loaded_maps e' = loaded_maps e.
Proof.
  destruct (load_test_scene_ok CS2_PHYSICS no_fault (world e))
    as (ids & w1 & Hscene & Hlen & [Hdup Hnew] & [Hsub _]).
  destruct (set_surface_ok ids w1) as [w2 Hsurf].
  unfold EnhancedPhysicsEngine.load_test_scene.
  erewrite bind_ok by (apply in_world_run; exact Hscene).
  unfold set_map_bodies at 1.
  erewrite bind_ok by reflexivity.
  erewrite bind_ok by (apply in_world_run; cbn [world]; exact Hsurf).
  eexists. split; [ reflexivity | ].
  cbn [map_bodies world loaded_maps].
  split; [ exact Hlen | ]. split; [ | split; [ | split; [ | reflexivity ] ] ].
  - split; [ exact Hdup | ].
    rewrite Forall_forall in Hnew. apply Forall_forall. intros id Hid.
    destruct (Hnew id Hid) as (Hid0 & b & Hb & Hs).
    split; [ exact Hid0 | ].
    pose proof (keeps_body_set_surface (fun b => is_static b = true) id ids
                  (fun b H => H) w1 (ex_intro _ b (conj Hb Hs))) as H.
    rewrite Hsurf in H. exact H.
  - split.
    + destruct ids; [ discriminate Hlen | discriminate ].
    + pose proof (set_surface_returns ids w1 w2 Hsurf) as Hdone.
      rewrite Forall_forall in Hnew, Hdone. apply Forall_forall.
      intros id Hid. apply (Hdone id Hid).
      destruct (Hnew id Hid) as (_ & b & Hb & _). eauto.
  - pose proof (keeps_old_set_surface (world e) ids) as H.
    specialize (H (Forall_impl _ _ _ Hnew (fun id H => proj1 H)) w1 Hsub).
    rewrite Hsurf in H. exact H.
Qed.

End SurfaceFacts.

Section EngineObjectTheorems.
Context {engine : Bullet}.
Variable CS2_PHYSICS : PhysicsConfig.
Variable path : string -> string.
Variable path_exists : string -> bool.
Variable load_glb_file : string -> M World (option (list nat)).

(** X21. A map name that [load_map] of the loader has answered is in
    the cache with that answer: the next [load_map] of the same name
    returns the same ids and touches neither the world nor the cache.
    This holds on every engine, whatever the file system holds and
    whatever the mesh loader does. *)
Theorem load_map_answers_again_from_the_cache (map_name : string)
  (e e' : Engine) (ids : list nat) :
  MapLoader.load_map CS2_PHYSICS path path_exists load_glb_file map_name e
  = (Ok ids, e') ->
  loaded_maps e' !! map_name = Some ids
  /\ MapLoader.load_map CS2_PHYSICS path path_exists load_glb_file map_name e'
     = (Ok ids, e').
Proof.
  intros Hrun.
  assert (Hcache : loaded_maps e' !! map_name = Some ids).
  { revert Hrun. unfold MapLoader.load_map.
    destruct (loaded_maps e !! map_name) as [cached|] eqn:Hc.
    - intros [= <- <-]. exact Hc.
    - unfold bind.
      destruct (in_world _ e) as [[found|err] e1]; [ | discriminate ].
      destruct (match found with
                | Some result => ret result
                | None => in_world (MapLoader.load_test_scene CS2_PHYSICS)
                end e1) as [[result|err] e2]; [ | discriminate ].
      intros [= <- <-]. cbn [loaded_maps]. apply lookup_insert_eq. }
  split; [ exact Hcache | ].
  unfold MapLoader.load_map. rewrite Hcache. reflexivity.
Qed.

Hypothesis no_fault : forall (c : Call) (w : World), bullet_fault c w = false.

(** X20. On an engine none of whose operations fails, the engine's
    [load_test_scene] returns [True] and leaves [map_bodies] with five
    distinct ids, none of them known before, each a static body of the
    world with the restitution and the friction of the configuration;
    the bodies the world held stay exactly as they were. *)
Theorem engine_load_test_scene_sets_up_the_scene (e : Engine) :
  exists e' : Engine,
    EnhancedPhysicsEngine.load_test_scene CS2_PHYSICS e = (Ok true, e')
    /\ length (map_bodies e') = 5%nat
    /\ NoDup (map_bodies e')
    /\ Forall (fun id => bodies (world e) !! id = None
                         /\ exists b, bodies (world e') !! id = Some b
                                      /\ is_static b = true
                                      /\ surfaced CS2_PHYSICS b)
         (map_bodies e')
    /\ bodies (world e) ⊆ bodies (world e').
Proof.
  destruct (engine_load_test_scene_ok CS2_PHYSICS no_fault e)
    as (e' & Hrun & Hlen & [Hdup Hnew] & [_ Hsurf] & Hsub & _).
  exists e'. split; [ exact Hrun | ]. split; [ exact Hlen | ].
  split; [ exact Hdup | ]. split; [ | exact Hsub ].
  rewrite Forall_forall in Hnew, Hsurf. apply Forall_forall. intros id Hid.
  destruct (Hnew id Hid) as (Hid0 & b & Hb & Hs).
  destruct (Hsurf id Hid) as (b' & Hb' & Hsf).
  assert (b' = b) by congruence. subst b'.
  split; [ exact Hid0 | ]. exists b. auto.
Qed.


End EngineObjectTheorems.

(** ** The route [/find_smokes] *)

Section RankedResults.
Context {np : NumPy}.
Variable St : Type.
Variable physics_simulate_throw :
  list float -> float -> float -> ThrowType -> float ->
  M St (list (list float) * Info).


End RankedResults.

Section RouteFacts.
Context {np : NumPy} {engine : Bullet}.
Variable CS2_PHYSICS : PhysicsConfig.

Lemma keeps_spared_simulate_throw (e0 : Engine) (start_pos : list float)
  (pitch yaw : float) (throw_type : ThrowType) (max_time : float) :
  keeps (spared e0)
    (EnhancedPhysicsEngine.simulate_throw CS2_PHYSICS start_pos pitch yaw
       throw_type max_time).
Proof.
  intros e (Hs & Hl & Hm).
  unfold EnhancedPhysicsEngine.simulate_throw, in_world.
  pose proof (simulate_throw_within CS2_PHYSICS (world e) start_pos pitch yaw
                throw_type max_time) as [Hw _].
  destruct (simulate_throw CS2_PHYSICS start_pos pitch yaw throw_type
              max_time (world e)) as [r w'].
  cbn [snd] in *. split; [ | split; assumption ].
  cbn [world]. eapply survives_trans; eassumption.
Qed.

Lemma answer_spares (request_json : option RequestData) (e : Engine) :
  spared e (Server.answer CS2_PHYSICS request_json e).2.
Proof.
  assert (He : spared e e) by (split; [ apply survives_refl | auto ]).
  unfold Server.answer.
  destruct (Server.parse request_json)
    as [err|[[target_pos throw_type] strategy]]; [ exact He | ].
  pose proof (keeps_find_smokes Engine
                (fun start_pos pitch yaw tt max_time =>
                   EnhancedPhysicsEngine.simulate_throw CS2_PHYSICS
                     start_pos pitch yaw tt max_time)
                SmokeFinder_init (spared e)
                (fun start_pos pitch yaw tt =>
                   keeps_spared_simulate_throw e start_pos pitch yaw tt _)
                target_pos throw_type strategy 10 e He) as H.
  destruct (find_smokes _ _ _ _ _ _ _ e) as [[solutions|err] e']; exact H.
Qed.

Lemma ThrowType_by_name_unknown (name : string) :
  name <> "LEFT_CLICK"%string -> name <> "BOTH_CLICKS"%string ->
  name <> "RIGHT_CLICK"%string ->
  ThrowType_by_name name = None.
Proof.
  intros H1 H2 H3. unfold ThrowType_by_name.
  apply String.eqb_neq in H1, H2, H3. rewrite H1, H2, H3. reflexivity.
Qed.

(** X23. Once the engine exists, a request whose [throw_type] is none of
    the three member names is answered with status 500 and the
    [KeyError] of that name, before any search: the engine object, its
    world and the world's call log are exactly what they were. (The
    fallback speed of 900 of [get_throw_speed] is out of the route's
    reach.) *)
Theorem route_rejects_unknown_throw_type (data : RequestData)
  (target_pos : list float) (name : string) (e : Engine) :
  req_target_pos data = Some target_pos ->
  req_throw_type data = Some name ->
  name <> "LEFT_CLICK"%string -> name <> "BOTH_CLICKS"%string ->
  name <> "RIGHT_CLICK"%string ->
  Server.find_smokes CS2_PHYSICS (Some data) (Some e)
  = (Ok (error_response (KeyError name)), Some e).
Proof.
  intros Ht Hn H1 H2 H3.
  unfold Server.find_smokes, Server.answer, Server.parse.
  rewrite Ht, Hn.
  change (default "LEFT_CLICK"%string (Some name)) with name. cbn zeta.
  rewrite (ThrowType_by_name_unknown name H1 H2 H3). reflexivity.
Qed.


Hypothesis no_fault : forall (c : Call) (w : World), bullet_fault c w = false.

(** X25. On an engine none of whose operations fails, the first request
    creates the engine whatever the request holds, also when the answer
    is an error: afterwards [/health] reports it, and the engine object
    has the test scene, five static bodies with the configured surface,
    which the search of that request has left as they were. *)
Theorem first_request_sets_up_the_engine (request_json : option RequestData) :
  exists (r : Response) (e' : Engine),
    Server.find_smokes CS2_PHYSICS request_json None = (Ok r, Some e')
    /\ Server.health (Some e') = true
    /\ length (map_bodies e') = 5%nat
    /\ Forall (fun id => exists b, bodies (world e') !! id = Some b
                                   /\ is_static b = true
                                   /\ surfaced CS2_PHYSICS b)
         (map_bodies e').
Proof.
  destruct (engine_load_test_scene_ok CS2_PHYSICS no_fault
              EnhancedPhysicsEngine.connected)
    as (e1 & Hinit & Hlen & [_ Hnew] & [_ Hsurf] & _).
  unfold Server.find_smokes, EnhancedPhysicsEngine.__init__.
  erewrite bind_ok by exact Hinit. unfold ret.
  pose proof (answer_spares request_json e1) as Hsp.
  destruct (Server.answer CS2_PHYSICS request_json e1) as [r e'] eqn:Hans.
  exists r, e'. split; [ reflexivity | ]. split; [ reflexivity | ].
  destruct Hsp as (Hsv & _ & Hmb). cbn [snd] in Hsv, Hmb. rewrite Hmb.
  split; [ exact Hlen | ].
  rewrite Forall_forall in Hnew, Hsurf. apply Forall_forall. intros id Hid.
  destruct (Hnew id Hid) as (_ & b & Hb & Hs).
  destruct (Hsurf id Hid) as (b' & Hb' & Hsf).
  assert (b' = b) by congruence. subst b'.
  destruct (Hsv id b Hb) as (c & Hc & _ & Hsame).
  exists c. split; [ exact Hc | ]. rewrite (Hsame Hs). auto.
Qed.

End RouteFacts.

(** ** Loading a map *)

Lemma keeps_try_except {St A} (P : St -> Prop) (body : M St A)
  (handler : Exn -> M St A) :
  keeps P body -> (forall e, keeps P (handler e)) ->
  keeps P (try_except body handler).
Proof.
  intros Hbody Hhandler s Hs. unfold try_except. specialize (Hbody s Hs).
  destruct (body s) as [[a|e] s1]; cbn [snd] in Hbody;
    [ exact Hbody | apply Hhandler, Hbody ].
Qed.

Lemma keeps_in_world {A} (P : World -> Prop) (c : M World A) :
  keeps P c -> keeps (fun e => P (world e)) (in_world c).
Proof.
  intros Hc e He. unfold in_world. specialize (Hc (world e) He).
  destruct (c (world e)) as [r w']. exact Hc.
Qed.

Section LoadMapFacts.
Context {engine : Bullet}.
Variable CS2_PHYSICS : PhysicsConfig.
Variable path : string -> string.
Variable path_exists : string -> bool.
Variable load_glb_file : string -> M World (option (list nat)).
Variable w0 : World.
Hypothesis load_glb_file_adds_static :
  forall filepath : string, keeps (adds_static w0) (load_glb_file filepath).

Lemma keeps_adds_static_load_obj_file (filepath : string) :
  keeps (adds_static w0) (MapLoader.load_obj_file path_exists filepath).
Proof.
  unfold MapLoader.load_obj_file.
  destruct (negb (path_exists filepath)); [ apply keeps_ret | ].
  apply keeps_try_except; [ | intros e; apply keeps_ret ].
  apply keeps_bind; [ apply keeps_adds_static_shape | intros col ].
  apply keeps_bind; [ apply keeps_adds_static_createMultiBody | intros b ].
  apply keeps_ret.
Qed.

Lemma keeps_adds_static_try_formats
  (fs : list (string * MapLoader.LoaderFunc)) :
  keeps (adds_static w0)
    (MapLoader.try_formats path path_exists load_glb_file fs).
Proof.
  induction fs as [|[filename l] fs IH]; cbn [MapLoader.try_formats].
  - apply keeps_ret.
  - destruct (path_exists (path filename)); [ | exact IH ].
    apply keeps_bind.
    + destruct l; cbn [MapLoader.loader_func];
        [ apply load_glb_file_adds_static
        | apply keeps_adds_static_load_obj_file ].
    + intros [[|id ids]|]; first [ exact IH | apply keeps_ret ].
Qed.

Lemma keeps_adds_static_load_map (map_name : string) :
  keeps (fun e => adds_static w0 (world e))
    (MapLoader.load_map CS2_PHYSICS path path_exists load_glb_file map_name).
Proof.
  intros e He. unfold MapLoader.load_map.
  destruct (loaded_maps e !! map_name) as [cached|]; [ exact He | ].
  revert e He.
  change (keeps (fun e => adds_static w0 (world e))
            (bind (in_world (MapLoader.try_formats path path_exists
                               load_glb_file (MapLoader.formats map_name)))
               (fun found =>
                  bind (match found with
                        | Some result => ret result
                        | None =>
                            in_world (MapLoader.load_test_scene CS2_PHYSICS)
                        end)
                    (fun result e' =>
                       (Ok result,
                        {| world := world e';
                           loaded_maps :=
                             <[map_name := result]> (loaded_maps e');
                           map_bodies := map_bodies e' |}))))).
  apply keeps_bind.
  { apply (keeps_in_world (adds_static w0)), keeps_adds_static_try_formats. }
  intros found. apply keeps_bind.
  - destruct found; [ apply keeps_ret | ].
    apply (keeps_in_world (adds_static w0)),
      keeps_adds_static_load_test_scene.
  - intros result e He. exact He.
Qed.

End LoadMapFacts.

Section LoadMapTheorem.
Context {engine : Bullet}.
Variable CS2_PHYSICS : PhysicsConfig.
Variable path : string -> string.
Variable path_exists : string -> bool.
Variable load_glb_file : string -> M World (option (list nat)).

(** X26. With a mesh loader that only ever adds static bodies, the
    loader's [load_map] only adds static bodies, whichever format it
    finds and also when it falls back to the test scene: on every
    engine, whichever of its operations fail and however the call ends,
    each body of the world stays exactly as it was, each new body is
    static, and the dynamic bodies are those that were there. *)
Theorem load_map_adds_only_static_bodies (map_name : string) (e : Engine) :
  (forall (w0 : World) (filepath : string),
      keeps (adds_static w0) (load_glb_file filepath)) ->
  let e' := (MapLoader.load_map CS2_PHYSICS path path_exists load_glb_file
               map_name e).2 in
  bodies (world e) ⊆ bodies (world e')
  /\ (forall (i : nat) (b : Body),
        bodies (world e') !! i = Some b ->
        bodies (world e) !! i = Some b \/ is_static b = true)
  /\ dynamic_bodies (world e') = dynamic_bodies (world e).
Proof.
  intros Hglb. cbn zeta.
  pose proof (keeps_adds_static_load_map CS2_PHYSICS path path_exists
                load_glb_file (world e) (Hglb (world e)) map_name e
                (adds_static_refl (world e))) as H.
  split; [ apply H | ]. split; [ apply H | ].
  apply adds_static_dynamic_bodies, H.
Qed.

End LoadMapTheorem.

(** ** The unit conversions of utils.py *)

Section UnitsFacts.
Import CS2CoordinateConverter.
Local Open Scope float_scope.

(** X27. In binary64 [METERS_PER_UNIT] is the rounded reciprocal
    0.025400050800101603 of [UNITS_PER_METER = 39.37], and the two unit
    conversions of [CS2CoordinateConverter] are inverse to each other
    up to rounding only: five metres are 196.85 units (rounded), which
    are 5.000000000000001 metres, not 5; the vector [[5, 1, 0.5]] comes
    back with its first coordinate changed, while the units
    [[1000, 500, 128]] come back as they were. *)
Theorem unit_conversions_round_in_binary64 :
  METERS_PER_UNIT = 0.025400050800101603
  /\ meters_to_units 5 = 196.84999999999999
  /\ units_to_meters (meters_to_units 5) = 5.0000000000000009
  /\ (units_to_meters (meters_to_units 5) =? 5) = false
  /\ vector_units_to_meters (vector_meters_to_units [5; 1; 0.5])
     = [5.0000000000000009; 1; 0.5]
  /\ vector_meters_to_units (vector_units_to_meters [1000; 500; 128])
     = [1000; 500; 128].
Proof. vm_compute. repeat split. Qed.

End UnitsFacts.

(** ** A call that returns has removed its grenade *)

Lemma hoare_weaken {A} (P : World -> Prop) (c : M World A)
  (Q Q' : A -> World -> Prop) (R R' : World -> Prop) :
  hoare P c Q R ->
  (forall a w, Q a w -> Q' a w) -> (forall w, R w -> R' w) ->
  hoare P c Q' R'.
Proof.
  intros Hc HQ HR w Hw. specialize (Hc w Hw).
  destruct (c w) as [[a|e] w']; [ apply HQ, Hc | apply HR, Hc ].
Qed.

Lemma same_frame_delete (g : nat) (m m' : gmap nat Body) :
  same_frame m m' -> same_frame (delete g m) (delete g m').
Proof.
  intros H i. destruct (decide (g = i)) as [<-|Hne].
  - rewrite !lookup_delete_eq. exact I.
  - rewrite !lookup_delete_ne by exact Hne. apply H.
Qed.

Section ReturnedThrow.
Context {np : NumPy} {engine : Bullet}.
Variable CS2_PHYSICS : PhysicsConfig.
Variable w0 : World.

Lemma keeps_but_for_call (g : nat) (c : Call) :
  keeps (but_for w0 g) (call c).
Proof. intros w Hw. unfold call. destruct (bullet_fault c w); exact Hw. Qed.

Lemma keeps_but_for_update_body (g : nat) (f : Body -> Body) :
  keeps (but_for w0 g) (update_body g f).
Proof.
  intros w Hw. unfold update_body.
  destruct (bodies w !! g) as [b|]; [ | exact Hw ].
  unfold but_for. cbn [snd set_bodies bodies].
  rewrite delete_insert_eq. exact Hw.
Qed.

Lemma keeps_but_for_query {X} (g : nat) (c : Call) (f : Body -> X) :
  keeps (but_for w0 g) (bind (call c) (fun _ => query g f)).
Proof.
  apply keeps_bind; [ apply keeps_but_for_call | ].
  intros _ w Hw. unfold query. destruct (bodies w !! g); exact Hw.
Qed.

Lemma keeps_but_for_stepSimulation (g : nat) :
  keeps (but_for w0 g) stepSimulation.
Proof.
  apply keeps_bind; [ apply keeps_but_for_call | ].
  intros _ w Hw. unfold but_for. cbn [snd set_bodies bodies].
  eapply same_frame_trans; [ | exact Hw ].
  apply same_frame_delete, advance_all_same_frame.
Qed.

Lemma keeps_but_for_loop_body (g step : nat) (st : LoopState) :
  keeps (but_for w0 g) (loop_body CS2_PHYSICS g step st).
Proof.
  unfold loop_body.
  apply keeps_bind; [ apply keeps_but_for_stepSimulation | intros _ ].
  apply keeps_bind; [ apply keeps_but_for_query | intros pos ].
  apply keeps_bind; [ apply keeps_lift | intros pos_cs2 ].
  apply keeps_bind; [ apply keeps_but_for_query | intros vel ].
  match goal with |- keeps _ (if ?c then _ else _) => destruct c end;
    apply keeps_ret.
Qed.

(** Whatever the engine does: when [simulate_throw] returns, the world
    holds the bodies it held, up to motion. *)
Lemma simulate_throw_returned_frame (start_pos : list float)
  (pitch yaw : float) (throw_type : ThrowType) (max_time : float) :
  hoare (untouched w0)
    (simulate_throw CS2_PHYSICS start_pos pitch yaw throw_type max_time)
    (fun _ w' => same_frame (bodies w') (bodies w0)) (fun _ => True).
Proof.
  set (g := fresh (dom (bodies w0))).
  assert (Hshape : forall c : Call,
             hoare (untouched w0) (bind (call c) (fun _ => new_shape))
               (fun _ => untouched w0) (fun _ => True)).
  { intros c w Hw. unfold bind, call.
    destruct (bullet_fault c w); [ exact I | exact Hw ]. }
  unfold simulate_throw.
  eapply hoare_bind with (Q := fun _ => untouched w0).
  { intros w Hw. unfold lift.
    destruct (convert_cs2_to_bullet CS2_PHYSICS start_pos);
      [ exact Hw | exact I ]. }
  intros start_bullet.
  eapply hoare_bind; [ apply Hshape | intros shape ].
  eapply hoare_bind; [ apply Hshape | intros visual ].
  eapply hoare_bind with (Q := fun id w => id = g /\ but_for w0 g w).
  { intros w Hw. unfold createMultiBody.
    destruct start_bullet as [|x [|y [|z [|]]]]; try exact I.
    unfold bind, call. rewrite Hw. fold g.
    destruct (bullet_fault (CreateMultiBody g) w); [ exact I | ].
    split; [ reflexivity | ].
    unfold but_for. cbn [set_bodies bodies log]. rewrite Hw.
    rewrite delete_insert_eq, delete_id by apply fresh_body_new.
    apply same_frame_refl. }
  intros id w [-> Hw]. revert w Hw.
  assert (Hk : forall {A} (c : M World A),
             keeps (but_for w0 g) c ->
             hoare (but_for w0 g) c (fun _ => but_for w0 g) (fun _ => True)).
  { intros A c Hc. eapply hoare_weaken;
      [ apply hoare_keeps, Hc | auto | auto ]. }
  eapply hoare_bind.
  { apply Hk. apply keeps_bind; [ apply keeps_but_for_call | intros _ ].
    apply keeps_but_for_update_body. }
  intros ?. cbn beta. eapply hoare_bind.
  { apply Hk. apply keeps_bind; [ apply keeps_but_for_call | intros _ ].
    apply keeps_but_for_update_body. }
  intros ?. cbn beta.
  eapply hoare_bind; [ apply Hk, keeps_lift | intros num_steps ].
  eapply hoare_bind;
    [ apply Hk, keeps_for_loop, keeps_but_for_loop_body | intros st ].
  eapply hoare_bind; [ apply Hk, keeps_but_for_query | intros pos ].
  eapply hoare_bind; [ apply Hk, keeps_lift | intros pos_cs2 ].
  eapply hoare_bind; [ apply Hk, keeps_but_for_query | intros vel ].
  eapply hoare_bind with (Q := fun _ w => same_frame (bodies w) (bodies w0)).
  { intros w Hw. unfold removeBody, bind, call.
    destruct (bullet_fault (RemoveBody g) w); [ exact I | ].
    cbn [set_bodies bodies log]. exact Hw. }
  intros ?. cbn beta.
  eapply hoare_bind with (Q := fun _ w => same_frame (bodies w) (bodies w0)).
  { intros w Hw. unfold lift. destruct (ls_step st); [ exact Hw | exact I ]. }
  intros step w Hw. exact Hw.
Qed.

End ReturnedThrow.

Section ReturnedThrowTheorem.
Context {np : NumPy} {engine : Bullet}.
Variable CS2_PHYSICS : PhysicsConfig.

(** X28. On every engine, whichever of its operations fail: a call of
    [simulate_throw] that returns a result has removed its grenade. The
    world it leaves holds the same ids as before, every static body
    exactly as it was, and as many dynamic bodies. *)
Theorem simulate_throw_that_returns_leaves_no_grenade (w w' : World)
  (start_pos : list float) (pitch yaw : float) (throw_type : ThrowType)
  (max_time : float) (trajectory : list (list float)) (info : Info) :
  simulate_throw CS2_PHYSICS start_pos pitch yaw throw_type max_time w
  = (Ok (trajectory, info), w') ->
  dom (bodies w') = dom (bodies w)
  /\ static_bodies w' = static_bodies w
  /\ size (dynamic_bodies w') = size (dynamic_bodies w).
Proof.
  intros Hrun.
  pose proof (simulate_throw_returned_frame CS2_PHYSICS w start_pos pitch yaw
                throw_type max_time w eq_refl) as Hf.
  rewrite Hrun in Hf.
  split; [ apply same_frame_dom, Hf | ].
  split; [ apply same_frame_filter_static, Hf | ].
  apply same_frame_dynamic_size, Hf.
Qed.

End ReturnedThrowTheorem.

(* ===================================================================== *)
(** * Concrete runs                                                      *)
(* ===================================================================== *)

(** The theorems above at concrete inputs, and the inputs on which the
    specification's wording fails, on the reference instances: the test
    scene, a throw from [(0, 0, 200)] with pitch 30 and yaw 45. *)

Section Examples.
Import Reference.
#[local] Existing Instance numpy.
Local Open Scope float_scope.

(** *** The libraries *)

Example reference_pitch_sweep :
  np_linspace (-20) 60 10
  = [-20; -11.111111111111111; -2.2222222222222214; 6.6666666666666679;
     15.555555555555557; 24.444444444444443; 33.333333333333336;
     42.222222222222229; 51.111111111111114; 60].
Proof. vm_compute. reflexivity. Qed.

(** Around the centre 500 [np.arange] gives the ten values of the
    specification's half-open interval. *)
Example reference_grid_axis :
  np_arange (500 - 500) (500 + 500) 100
  = Ok [0; 100; 200; 300; 400; 500; 600; 700; 800; 900]
  /\ spec_axis 500 = [0; 100; 200; 300; 400; 500; 600; 700; 800; 900].
Proof. vm_compute. split; reflexivity. Qed.

(** Around the centre 524.4 the quotient that gives the length is
    10.000000000000002, and [np.arange] gives eleven values, the last
    one the end of the interval itself. *)
Example rounded_grid_axis :
  ((524.4 + 500 - (524.4 - 500)) / 100 = 10.000000000000002)
  /\ np_arange (524.4 - 500) (524.4 + 500) 100
     = Ok [24.399999999999977; 124.39999999999998; 224.39999999999998;
           324.39999999999998; 424.39999999999998; 524.39999999999998;
           624.39999999999998; 724.39999999999998; 824.39999999999998;
           924.39999999999998; 1024.4]
  /\ (1024.4 =? 524.4 + 500) = true.
Proof. vm_compute. repeat split. Qed.

(** [np.arange] raises on a coordinate that is NaN or infinite. *)
Example grid_axis_of_nan_and_infinity :
  np_arange (nan - 500) (nan + 500) 100 = Raise ValueError
  /\ np_arange (infinity - 500) (infinity + 500) 100 = Raise ValueError
  /\ np_arange 0 infinity 100 = Raise OverflowError.
Proof. vm_compute. repeat split. Qed.

(** *** Body lifetime *)

Lemma simulate_throw_removes_its_body_witness :
  let w' := (simulate_throw (engine := drifting) cs2_default [0; 0; 200]
               30 45 LEFT_CLICK 2 test_scene).2 in
  dom (bodies w') = dom (bodies test_scene)
  /\ static_bodies w' = static_bodies test_scene
  /\ size (dynamic_bodies w') = size (dynamic_bodies test_scene)
  /\ (created (trace w') - created (trace test_scene)
      = removed (trace w') - removed (trace test_scene))%nat.
Proof.
  apply (simulate_throw_removes_its_body (engine := drifting) cs2_default
           (fun _ _ => eq_refl) test_scene [0; 0; 200] 30 45 LEFT_CLICK 2
           240).
  vm_compute. reflexivity.
Defined.

(** C1 as stated fails. On an engine whose third time step fails, the
    call ends with [pybullet.error] and the grenade it created is still
    in the world: one dynamic body where there was none, one body created
    and none removed. [simulate_throw] has no [try ... finally]. *)
Lemma failed_step_leaves_the_grenade :
  let r := simulate_throw (engine := failing) cs2_default [0; 0; 200]
             30 45 LEFT_CLICK 2 test_scene in
  r.1 = Raise PyBulletError
  /\ size (dynamic_bodies test_scene) = 0%nat
  /\ size (dynamic_bodies r.2) = 1%nat
  /\ created (trace r.2) = 1%nat
  /\ removed (trace r.2) = 0%nat.
Proof. vm_compute. repeat split. Qed.

(** The same happens without any failure of the engine when the budget
    is not a finite number: [int(nan)] raises after the body has been
    created. *)
Example nan_budget_leaves_the_grenade :
  let r := simulate_throw (engine := drifting) cs2_default [0; 0; 200]
             30 45 LEFT_CLICK (0 / 0) test_scene in
  r.1 = Raise ValueError
  /\ size (dynamic_bodies r.2) = 1%nat
  /\ removed (trace r.2) = 0%nat.
Proof. vm_compute. repeat split. Qed.

(** *** A budget that is not positive *)

Lemma simulate_throw_nonpositive_budget_witness :
  let w' := (simulate_throw (engine := drifting) cs2_default [0; 0; 200]
               30 45 LEFT_CLICK (-1) test_scene).2 in
  bodies w' = bodies test_scene
  /\ steps_taken (trace w') = steps_taken (trace test_scene)
  /\ created (trace w') = S (created (trace test_scene))
  /\ removed (trace w') = S (removed (trace test_scene)).
Proof.
  apply (simulate_throw_nonpositive_budget (engine := drifting) cs2_default
           (fun _ _ => eq_refl) test_scene 0 0 200 30 45 LEFT_CLICK (-1)
           (-120)).
  - reflexivity.
  - reflexivity.
  - vm_compute. reflexivity.
Defined.

(** C2 as stated fails. With a budget of 0 the call is not rejected with
    [ValueError] before any work: it creates a body in the engine (and
    removes it), and ends with [UnboundLocalError]. *)
Lemma zero_budget_creates_a_body :
  let r := simulate_throw (engine := drifting) cs2_default [0; 0; 200]
             30 45 LEFT_CLICK 0 test_scene in
  r.1 = Raise UnboundLocalError
  /\ created (trace r.2) = 1%nat
  /\ removed (trace r.2) = 1%nat
  /\ steps_taken (trace r.2) = 0%nat.
Proof. vm_compute. repeat split. Qed.

(** *** The number of iterations *)

Lemma simulation_loop_step_count_witness :
  let id := fresh (dom (bodies test_scene)) in
  let bs0 := launched cs2_default test_scene 0 0 200 30 45 LEFT_CLICK in
  let w' := (simulate_throw (engine := sticky) cs2_default [0; 0; 200]
               30 45 LEFT_CLICK 2 test_scene).2 in
  let k := (steps_taken (trace w') - steps_taken (trace test_scene))%nat in
  (k <= Z.to_nat 240)%nat
  /\ ((k < Z.to_nat 240)%nat ->
      at_rest (engine := sticky) cs2_default bs0 id (k - 1) = true)
  /\ ((forall i : nat, (i < Z.to_nat 240)%nat ->
                       at_rest (engine := sticky) cs2_default bs0 id i
                       = false) ->
      k = Z.to_nat 240).
Proof.
  apply (simulation_loop_step_count (engine := sticky) cs2_default
           (fun _ _ => eq_refl) test_scene 0 0 200 30 45 LEFT_CLICK 2 240).
  vm_compute. reflexivity.
Defined.

(** C6 as stated fails. With a budget of 1/64 s, that is 1.875 time
    steps, the bound of the specification is [ceil(1.875) = 2]
    iterations, the stop condition does not hold in the first iteration,
    and the loop runs [int(1.875) = 1] iteration. *)
Lemma loop_runs_floor_not_ceiling :
  let r := simulate_throw (engine := drifting) cs2_default [0; 0; 200]
             30 45 LEFT_CLICK 0.015625 test_scene in
  py_ceil (0.015625 / time_step cs2_default) = Ok 2%Z
  /\ at_rest (engine := drifting) cs2_default
       (launched cs2_default test_scene 0 0 200 30 45 LEFT_CLICK)
       (fresh (dom (bodies test_scene))) 0 = false
  /\ steps_taken (trace r.2) = 1%nat.
Proof. vm_compute. repeat split. Qed.

(** *** The early exit *)

Lemma simulation_loop_early_exit_witness :
  let id := fresh (dom (bodies test_scene)) in
  let bs0 := launched cs2_default test_scene 0 0 200 30 45 LEFT_CLICK in
  let w' := (simulate_throw (engine := sticky) cs2_default [0; 0; 200]
               30 45 LEFT_CLICK 2 test_scene).2 in
  let k := (steps_taken (trace w') - steps_taken (trace test_scene))%nat in
  (forall i : nat,
     (i < k)%nat ->
     (speed_in_iteration (engine := sticky) bs0 id i
      <? 10 * meters_per_unit cs2_default) = true ->
     (50 < i)%nat ->
     k = S i)
  /\ ((k < Z.to_nat 240)%nat ->
      (speed_in_iteration (engine := sticky) bs0 id (k - 1)
       <? 10 * meters_per_unit cs2_default) = true
      /\ (50 < k - 1)%nat).
Proof.
  apply (simulation_loop_early_exit (engine := sticky) cs2_default
           (fun _ _ => eq_refl) test_scene 0 0 200 30 45 LEFT_CLICK 2 240).
  vm_compute. reflexivity.
Defined.

(** C7 as stated fails. In an engine that stops the grenade at once, the
    speed is below the threshold from the first step on. After iteration
    49, 50 steps have elapsed: the specification's condition holds and a
    loop that exits on it takes 50 steps. The code's condition
    [step > 50] does not hold there, and the loop takes 52 steps. *)
Lemma at_rest_exit_takes_52_steps :
  let r := simulate_throw (engine := sticky) cs2_default [0; 0; 200]
             30 45 LEFT_CLICK 2 test_scene in
  let bs0 := launched cs2_default test_scene 0 0 200 30 45 LEFT_CLICK in
  let id := fresh (dom (bodies test_scene)) in
  spec_at_rest (engine := sticky) cs2_default bs0 id 49 = true
  /\ iterations (spec_at_rest (engine := sticky) cs2_default bs0 id) 240
     = 50%nat
  /\ at_rest (engine := sticky) cs2_default bs0 id 49 = false
  /\ steps_taken (trace r.2) = 52%nat.
Proof. vm_compute. repeat split. Qed.

(** *** A throw type without a speed *)

Lemma unknown_throw_type_defaults_to_900_witness :
  get_throw_speed partial_config RIGHT_CLICK = 900
  /\ simulate_throw (engine := drifting) partial_config [0; 0; 200] 30 45
       RIGHT_CLICK 2 test_scene
     = simulate_throw (engine := drifting)
         (with_throw_speed partial_config RIGHT_CLICK 900)
         [0; 0; 200] 30 45 RIGHT_CLICK 2 test_scene
  /\ exists (trajectory : list (list float)) (info : Info) (w' : World),
       simulate_throw (engine := drifting) partial_config [0; 0; 200] 30 45
         RIGHT_CLICK 2 test_scene
       = (Ok (trajectory, info), w')
       /\ (0 < trajectory_points info)%nat
       /\ steps_taken (trace w')
          = (trajectory_points info + steps_taken (trace test_scene))%nat.
Proof.
  apply (unknown_throw_type_defaults_to_900 (engine := drifting)
           partial_config (fun _ _ => eq_refl) test_scene 0 0 200 30 45
           RIGHT_CLICK 2 240).
  - reflexivity.
  - vm_compute. reflexivity.
  - reflexivity.
Defined.

(** C9 as stated fails. With a speed table that has no entry for
    [RIGHT_CLICK], a throw of that type is not rejected: the call runs
    all 240 steps and returns, the grenade flying at 900 units per
    second. *)
Lemma unknown_throw_type_is_simulated :
  let r := simulate_throw (engine := drifting) partial_config [0; 0; 200]
             30 45 RIGHT_CLICK 2 test_scene in
  throw_speeds partial_config !! RIGHT_CLICK = None
  /\ (exists (trajectory : list (list float)) (info : Info),
        r.1 = Ok (trajectory, info)
        /\ trajectory_points info = 240%nat
        /\ final_velocity info = 900)
  /\ steps_taken (trace r.2) = 240%nat.
Proof.
  vm_compute. split; [ reflexivity | ]. split; [ | reflexivity ].
  eexists _, _. repeat split.
Qed.

(** *** The search *)

(** The scenario of the specification: target [(500, 500, 50)], strong
    throw, default grid, at most 10 results. *)
Example scenario_returns_ten :
  returned_length
    (_grid_search World (simulate_throw (engine := sticky) cs2_default)
       SmokeFinder_init [500; 500; 50] LEFT_CLICK 10 test_scene).1
  = Some 10%nat.
Proof. vm_compute. reflexivity. Qed.

(** The candidates of that scenario: a grid of 10 by 10 positions at
    height 72, 10 pitches each; the first is thrown from [(0, 0, 72)]
    with pitch -20 and yaw 45, the last from [(900, 900, 72)] with pitch
    60 and yaw -135. *)
Example scenario_candidates :
  length (spec_candidates 500 500 50 LEFT_CLICK) = 1000%nat
  /\ head (spec_candidates 500 500 50 LEFT_CLICK)
     = Some ([0; 0; 72], -20, 45, LEFT_CLICK, 2)
  /\ last (spec_candidates 500 500 50 LEFT_CLICK)
     = Some ([900; 900; 72], 60, -135, LEFT_CLICK, 2).
Proof. vm_compute. repeat split. Qed.


(** The calls of that scenario, by the theorem: the ten values of each
    axis are those of the specification. *)
Lemma grid_search_enumerates_the_candidates_witness :
  arange_length (500 - 500) (500 + 500) 100 = Ok 10%nat
  /\ arange_values (500 - 500) 100 10 = spec_axis 500
  /\ exists solutions : list SmokePosition.t,
       _grid_search (list Candidate)
         (Spy.simulate_throw (fun _ => Raise PyBulletError))
         SmokeFinder_init [500; 500; 50] LEFT_CLICK 10 []
       = (Ok solutions,
          [] ++
          grid_candidates (arange_values (500 - 500) 100 10)
            (arange_values (500 - 500) 100 10) 500 500 LEFT_CLICK).
Proof.
  split; [ vm_compute; reflexivity | ].
  split; [ vm_compute; reflexivity | ].
  apply (grid_search_enumerates_the_candidates
           (fun _ => Raise PyBulletError) 500 500 50 LEFT_CLICK 10 10 10 []);
    vm_compute; reflexivity.
Defined.

(** C4 as stated fails. For the target [(524.4, 524.4, 50)] the search
    makes 1210 calls, not the 1000 of the specification's grid: each
    axis has eleven values, and the last call is thrown from
    [(1024.4, 1024.4, 72)], whose coordinates are the ends
    [centre + 500] of the intervals and not inside them. *)
Lemma grid_search_leaves_the_half_open_interval :
  let calls :=
    (_grid_search (list Candidate)
       (Spy.simulate_throw (fun _ => Raise PyBulletError))
       SmokeFinder_init [524.4; 524.4; 50] LEFT_CLICK 10 []).2 in
  length calls = 1210%nat
  /\ length (spec_candidates 524.4 524.4 50 LEFT_CLICK) = 1000%nat
  /\ calls <> spec_candidates 524.4 524.4 50 LEFT_CLICK
  /\ option_map thrown_from (last calls) = Some [1024.4; 1024.4; 72]
  /\ in_half_open 524.4 1024.4 = false.
Proof.
  intros calls.
  assert (Hcalls : length calls = 1210%nat) by (vm_compute; reflexivity).
  assert (Hspec : length (spec_candidates 524.4 524.4 50 LEFT_CLICK)
                  = 1000%nat) by (vm_compute; reflexivity).
  split; [ exact Hcalls | ]. split; [ exact Hspec | ].
  split; [ intros Heq; rewrite Heq, Hspec in Hcalls; discriminate Hcalls | ].
  split; vm_compute; reflexivity.
Qed.

(** C8 as stated fails. For pitch 0 and yaw 0 the direction is
    [(1, 0, 0)] (the cosine of 0 is 1 and its sine 0 in every
    implementation); its conversion is [(1, 0, 0)] again, of length 1,
    which is neither 0.0254 nor 39.37 times the length of the
    direction. *)
Lemma direction_length_not_scaled :
  let d := direction_cs2 0 0 in
  tolist d = [1; 0; 0]
  /\ tolist (direction_bullet d) = [1; 0; 0]
  /\ np_linalg_norm (tolist d) = 1
  /\ np_linalg_norm (tolist (direction_bullet d)) = 1
  /\ (np_linalg_norm (tolist (direction_bullet d))
      =? np_linalg_norm (tolist d) * meters_per_unit cs2_default) = false
  /\ (np_linalg_norm (tolist (direction_bullet d))
      =? np_linalg_norm (tolist d) * units_per_meter cs2_default) = false.
Proof. vm_compute. repeat split. Qed.


End Examples.

(** ** More concrete runs *)

Section MoreExamples.
Import Reference.
#[local] Existing Instance numpy.
Local Open Scope float_scope.

(** A start position with two coordinates. *)
Lemma simulate_throw_rejects_malformed_start_witness :
  simulate_throw (engine := drifting) cs2_default [0; 200] 30 45 LEFT_CLICK 2
    test_scene
  = (Raise ValueError, test_scene).
Proof.
  apply (simulate_throw_rejects_malformed_start (engine := drifting)
           cs2_default test_scene [0; 200] 30 45 LEFT_CLICK 2).
  simpl. lia.
Defined.

(** A throw of a twentieth of a second on the drifting engine. *)
Lemma simulate_throw_result_well_formed_witness :
  exists (trajectory : list (list float)) (info : Info) (w' : World),
    simulate_throw (engine := drifting) cs2_default [0; 0; 200] 30 45
      LEFT_CLICK 0.05 test_scene = (Ok (trajectory, info), w')
    /\ well_formed_result cs2_default trajectory info.
Proof.
  destruct (simulate_throw (engine := drifting) cs2_default [0; 0; 200] 30 45
              LEFT_CLICK 0.05 test_scene) as [[[trajectory info]|e] w'] eqn:E.
  - exists trajectory, info, w'. split; [ reflexivity | ].
    apply (simulate_throw_result_well_formed (engine := drifting) cs2_default
             test_scene w' [0; 0; 200] 30 45 LEFT_CLICK 0.05 trajectory info E).
  - vm_compute in E. discriminate E.
Defined.

Lemma simulate_throw_returns_a_sample_per_step_witness :
  exists (trajectory : list (list float)) (info : Info) (w' : World),
    simulate_throw (engine := drifting) cs2_default [0; 0; 200] 30 45
      LEFT_CLICK 2 test_scene = (Ok (trajectory, info), w')
    /\ steps_taken (trace w')
       = (length trajectory + steps_taken (trace test_scene))%nat
    /\ (length trajectory <= Z.to_nat 240)%nat
    /\ well_formed_result cs2_default trajectory info.
Proof.
  apply (simulate_throw_returns_a_sample_per_step (engine := drifting)
           cs2_default (fun _ _ => eq_refl) test_scene 0 0 200 30 45
           LEFT_CLICK 2 240).
  - vm_compute. reflexivity.
  - lia.
Defined.

(** The scenario of the specification, whose axes are the ten values
    from 0 to 900. *)
Lemma find_smokes_solutions_come_from_the_grid_witness :
  exists (solutions : list SmokePosition.t) (w' : World),
    find_smokes World (simulate_throw (engine := sticky) cs2_default)
      SmokeFinder_init [500; 500; 50] LEFT_CLICK GRID_SEARCH 10 test_scene
    = (Ok solutions, w')
    /\ Forall (from_the_grid [0; 100; 200; 300; 400; 500; 600; 700; 800; 900]
                 [0; 100; 200; 300; 400; 500; 600; 700; 800; 900] 500 500 50 LEFT_CLICK)
         solutions.
Proof.
  apply (find_smokes_solutions_come_from_the_grid World
           (simulate_throw (engine := sticky) cs2_default) SmokeFinder_init
           [0; 100; 200; 300; 400; 500; 600; 700; 800; 900]
           [0; 100; 200; 300; 400; 500; 600; 700; 800; 900]
           500 500 50 LEFT_CLICK GRID_SEARCH 10 test_scene).
  - vm_compute. reflexivity.
  - vm_compute. reflexivity.
Defined.

Lemma find_smokes_fewer_results_are_a_prefix_witness :
  exists (few many : list SmokePosition.t) (w' : World),
    find_smokes World (simulate_throw (engine := sticky) cs2_default)
      SmokeFinder_init [500; 500; 50] LEFT_CLICK GRID_SEARCH 3 test_scene
    = (Ok few, w')
    /\ find_smokes World (simulate_throw (engine := sticky) cs2_default)
         SmokeFinder_init [500; 500; 50] LEFT_CLICK GRID_SEARCH 10 test_scene
       = (Ok many, w')
    /\ few = take (Z.to_nat 3) many.
Proof.
  apply (find_smokes_fewer_results_are_a_prefix World
           (simulate_throw (engine := sticky) cs2_default) SmokeFinder_init
           [0; 100; 200; 300; 400; 500; 600; 700; 800; 900]
           [0; 100; 200; 300; 400; 500; 600; 700; 800; 900]
           500 500 50 LEFT_CLICK GRID_SEARCH 3 10 test_scene).
  - vm_compute. reflexivity.
  - vm_compute. reflexivity.
  - lia.
Defined.

Lemma find_smokes_short_target_witness :
  find_smokes World (simulate_throw (engine := sticky) cs2_default)
    SmokeFinder_init [500; 500] LEFT_CLICK GENETIC 10 test_scene
  = (Raise IndexError, test_scene).
Proof.
  apply (find_smokes_short_target World
           (simulate_throw (engine := sticky) cs2_default) SmokeFinder_init
           [500; 500] LEFT_CLICK GENETIC 10 test_scene).
  simpl. lia.
Defined.

Lemma find_smokes_long_target_witness :
  find_smokes World (simulate_throw (engine := sticky) cs2_default)
    SmokeFinder_init [500; 500; 50; 1] LEFT_CLICK HYBRID 10 test_scene
  = (Raise ValueError, test_scene).
Proof.
  apply (find_smokes_long_target World
           (simulate_throw (engine := sticky) cs2_default) SmokeFinder_init
           500 500 50 1 []
           0 0 [100; 200; 300; 400; 500; 600; 700; 800; 900]
           [100; 200; 300; 400; 500; 600; 700; 800; 900]
           LEFT_CLICK HYBRID 10 test_scene).
  - vm_compute. reflexivity.
  - vm_compute. reflexivity.
Defined.

(** A target with a coordinate that is NaN or infinite: [np.arange]
    raises, and the search passes the exception on before any
    simulation. *)
Example find_smokes_on_nan_and_infinity :
  find_smokes World (simulate_throw (engine := sticky) cs2_default)
    SmokeFinder_init [nan; 500; 50] LEFT_CLICK GRID_SEARCH 10 test_scene
  = (Raise ValueError, test_scene)
  /\ find_smokes World (simulate_throw (engine := sticky) cs2_default)
       SmokeFinder_init [infinity; 500; 50] LEFT_CLICK GRID_SEARCH 10
       test_scene
     = (Raise ValueError, test_scene).
Proof. split; vm_compute; reflexivity. Qed.

Lemma find_smokes_leaves_no_grenade_witness :
  let w' := (find_smokes World (simulate_throw (engine := sticky) cs2_default)
               SmokeFinder_init [500; 500; 50] LEFT_CLICK GRID_SEARCH 10
               test_scene).2 in
  dom (bodies w') = dom (bodies test_scene)
  /\ static_bodies w' = static_bodies test_scene
  /\ size (dynamic_bodies w') = size (dynamic_bodies test_scene).
Proof.
  apply (find_smokes_leaves_no_grenade (engine := sticky) cs2_default
           SmokeFinder_init (fun _ _ => eq_refl) test_scene [500; 500; 50]
           LEFT_CLICK GRID_SEARCH 10 240).
  vm_compute. reflexivity.
Defined.

(** The default bounds, and an angle that is not a number. *)
Lemma clamp_angle_within_bounds_witness :
  let r := CS2CoordinateConverter.clamp_angle nan (-180) 180 in
  (-180 <=? r) = true /\ (r <=? 180) = true.
Proof.
  apply (clamp_angle_within_bounds nan (-180) 180).
  vm_compute. reflexivity.
Defined.

Lemma clamp_angle_fixes_angles_in_range_witness :
  (CS2CoordinateConverter.clamp_angle 90 (-180) 180 =? 90) = true.
Proof.
  apply (clamp_angle_fixes_angles_in_range 90 (-180) 180).
  - vm_compute. reflexivity.
  - vm_compute. reflexivity.
Defined.

(** [validate_position] lets a NaN coordinate through, and refuses an
    infinite one. *)
Example validate_position_on_nan_and_infinity :
  validate_position [nan; 0; 0] = true
  /\ validate_position [infinity; 0; 0] = false.
Proof. vm_compute. split; reflexivity. Qed.

(** The throw of a twentieth of a second on the drifting engine, which
    returns. *)
Lemma simulate_throw_that_returns_leaves_no_grenade_witness :
  exists (trajectory : list (list float)) (info : Info) (w' : World),
    simulate_throw (engine := drifting) cs2_default [0; 0; 200] 30 45
      LEFT_CLICK 0.05 test_scene = (Ok (trajectory, info), w')
    /\ dom (bodies w') = dom (bodies test_scene)
    /\ static_bodies w' = static_bodies test_scene
    /\ size (dynamic_bodies w') = size (dynamic_bodies test_scene).
Proof.
  destruct (simulate_throw (engine := drifting) cs2_default [0; 0; 200] 30 45
              LEFT_CLICK 0.05 test_scene) as [[[trajectory info]|e] w'] eqn:E.
  - exists trajectory, info, w'. split; [ reflexivity | ].
    apply (simulate_throw_that_returns_leaves_no_grenade (engine := drifting)
             cs2_default test_scene w' [0; 0; 200] 30 45 LEFT_CLICK 0.05
             trajectory info E).
  - vm_compute in E. discriminate E.
Defined.

(** *** The scene, the cache and the route *)

Lemma load_test_scene_makes_five_static_bodies_witness :
  exists (ids : list nat) (w' : World),
    MapLoader.load_test_scene (engine := drifting) cs2_default test_scene
    = (Ok ids, w')
    /\ length ids = 5%nat
    /\ NoDup ids
    /\ Forall (fun id => bodies test_scene !! id = None
                         /\ exists b, bodies w' !! id = Some b
                                      /\ is_static b = true) ids.
Proof.
  apply (load_test_scene_makes_five_static_bodies (engine := drifting)
           cs2_default (fun _ _ => eq_refl) test_scene).
Defined.

Lemma engine_load_test_scene_sets_up_the_scene_witness :
  exists e' : Engine,
    EnhancedPhysicsEngine.load_test_scene (engine := drifting) cs2_default
      EnhancedPhysicsEngine.connected = (Ok true, e')
    /\ length (map_bodies e') = 5%nat
    /\ NoDup (map_bodies e')
    /\ Forall (fun id =>
                 bodies (world EnhancedPhysicsEngine.connected) !! id = None
                 /\ exists b, bodies (world e') !! id = Some b
                              /\ is_static b = true
                              /\ surfaced cs2_default b)
         (map_bodies e')
    /\ bodies (world EnhancedPhysicsEngine.connected) ⊆ bodies (world e').
Proof.
  apply (engine_load_test_scene_sets_up_the_scene (engine := drifting)
           cs2_default (fun _ _ => eq_refl) EnhancedPhysicsEngine.connected).
Defined.

(** A map directory without files: the loader falls back to the test
    scene and caches it under the map's name. *)
Lemma load_map_answers_again_from_the_cache_witness :
  exists (ids : list nat) (e' : Engine),
    MapLoader.load_map (engine := drifting) cs2_default (fun p => p)
      (fun _ => false) (fun _ => ret None) "de_dust2"
      EnhancedPhysicsEngine.connected = (Ok ids, e')
    /\ loaded_maps e' !! "de_dust2"%string = Some ids
    /\ MapLoader.load_map (engine := drifting) cs2_default (fun p => p)
         (fun _ => false) (fun _ => ret None) "de_dust2" e' = (Ok ids, e').
Proof.
  destruct (MapLoader.load_map (engine := drifting) cs2_default (fun p => p)
              (fun _ => false) (fun _ => ret None) "de_dust2"
              EnhancedPhysicsEngine.connected) as [[ids|err] e'] eqn:E.
  - exists ids, e'. split; [ reflexivity | ].
    apply (load_map_answers_again_from_the_cache (engine := drifting)
             cs2_default (fun p => p) (fun _ => false) (fun _ => ret None)
             "de_dust2" EnhancedPhysicsEngine.connected e' ids E).
  - vm_compute in E. discriminate E.
Defined.


Example load_map_keeps_a_stale_id :
  let r := EnhancedPhysicsEngine.load_map (engine := drifting) cs2_default
             (fun p => p) (fun _ => true) (fun _ => ret (Some [7%nat]))
             "de_dust2" EnhancedPhysicsEngine.connected in
  r.1 = Ok true
  /\ map_bodies r.2 = [7%nat]
  /\ bodies (world r.2) !! 7%nat = None.
Proof. vm_compute. repeat split. Qed.

Lemma route_rejects_unknown_throw_type_witness :
  Server.find_smokes (engine := sticky) cs2_default
    (Some {| req_target_pos := Some [500; 500; 50];
             req_throw_type := Some "MIDDLE_CLICK"%string;
             req_strategy := None |})
    (Some EnhancedPhysicsEngine.connected)
  = (Ok (error_response (KeyError "MIDDLE_CLICK")),
     Some EnhancedPhysicsEngine.connected).
Proof.
  apply (route_rejects_unknown_throw_type (engine := sticky) cs2_default
           {| req_target_pos := Some [500; 500; 50];
              req_throw_type := Some "MIDDLE_CLICK"%string;
              req_strategy := None |}
           [500; 500; 50] "MIDDLE_CLICK" EnhancedPhysicsEngine.connected).
  - reflexivity.
  - reflexivity.
  - vm_compute. discriminate.
  - vm_compute. discriminate.
  - vm_compute. discriminate.
Defined.


(** A request whose target has an infinite coordinate, which JSON
    parsers accept as [1e999]: the answer has status 500. *)
Example route_answers_500_on_an_infinite_target :
  (Server.find_smokes (engine := sticky) cs2_default
     (Some {| req_target_pos := Some [infinity; 0; 0];
              req_throw_type := None;
              req_strategy := None |})
     (Some EnhancedPhysicsEngine.connected)).1
  = Ok (error_response (Raised ValueError)).
Proof. vm_compute. reflexivity. Qed.

(** A first request without a JSON body. *)
Lemma first_request_sets_up_the_engine_witness :
  exists (r : Response) (e' : Engine),
    Server.find_smokes (engine := sticky) cs2_default None None
    = (Ok r, Some e')
    /\ Server.health (Some e') = true
    /\ length (map_bodies e') = 5%nat
    /\ Forall (fun id => exists b, bodies (world e') !! id = Some b
                                   /\ is_static b = true
                                   /\ surfaced cs2_default b)
         (map_bodies e').
Proof.
  apply (first_request_sets_up_the_engine (engine := sticky) cs2_default
           (fun _ _ => eq_refl) None).
Defined.

Lemma load_map_adds_only_static_bodies_witness :
  let e' := (MapLoader.load_map (engine := drifting) cs2_default (fun p => p)
               (fun _ => false) (fun _ => ret None) "de_dust2"
               EnhancedPhysicsEngine.connected).2 in
  bodies (world EnhancedPhysicsEngine.connected) ⊆ bodies (world e')
  /\ (forall (i : nat) (b : Body),
        bodies (world e') !! i = Some b ->
        bodies (world EnhancedPhysicsEngine.connected) !! i = Some b
        \/ is_static b = true)
  /\ dynamic_bodies (world e')
     = dynamic_bodies (world EnhancedPhysicsEngine.connected).
Proof.
  apply (load_map_adds_only_static_bodies (engine := drifting) cs2_default
           (fun p => p) (fun _ => false) (fun _ => ret None) "de_dust2"
           EnhancedPhysicsEngine.connected).
  intros w0 filepath w H. exact H.
Defined.

End MoreExamples.
